(** * AIFSA stock dashboard: the front-end logic, embedded and verified

    The development follows the TypeScript sources of the front end:
    - [frontend/app/search/page.tsx]: [exponentialBackoffFetch] and
      [callGeminiAPI] (the chat client);
    - [frontend/app/trending/page.tsx]: [getTrendingStocks];
    - [frontend/components/StockDetails.tsx]: the sentiment badge;
    - [frontend/components/StockScene.tsx]: the slideshow index.

    Asynchronous code is written in a small monad over an explicit world:
    the world counts the [fetch] calls issued and records the delays handed
    to [setTimeout]; a computation completes normally, throws, or exhausts
    the fuel of a loop.  The network is an oracle giving the outcome of the
    k-th [fetch] call.  JavaScript numbers that hold counts, statuses and
    delays are integers ([Z], so [maxRetries] is a whole number); prices
    and percentages are binary64 floats.  A parsed body is a record where
    the source declares its type, and a JSON value read with JavaScript's
    rules (truthiness, [?.], a [TypeError] on reading off [null]) where the
    source leaves it untyped, as in [callGeminiAPI]. *)

From Stdlib Require Import ZArith String List Bool Lia Floats.
From stdpp Require Import base list strings pretty gmap.

Open Scope string_scope.
Open Scope list_scope.
Open Scope Z_scope.

(** ** The JavaScript runtime the pages run on *)

Module Js.

(** [new Error(message)]. *)
Record Error := mkError { message : string }.

(** The second argument of [fetch]. *)
Record RequestInit := {
  method : option string;
  headers : list (string * string);
  body : option string;
  cache : option string
}.

(** A [Response]: the fields the pages read, and what [response.json()]
    settles to (a parsed value of type [J], or a rejection). *)
Record Response (J : Type) := {
  ok : bool;
  status : Z;
  statusText : string;
  json : Error + J
}.
Arguments ok {J} _.
Arguments status {J} _.
Arguments statusText {J} _.
Arguments json {J} _.

(** What the promise returned by [fetch] settles to. *)
Inductive FetchOutcome (J : Type) :=
| Resolved (response : Response J)
| Rejected (error : Error).
Arguments Resolved {J} _.
Arguments Rejected {J} _.

(** The network: the outcome of the k-th [fetch] call (k counts from 0
    over the whole run), given the request that call makes. *)
Definition Network (J : Type) := nat -> string -> RequestInit -> FetchOutcome J.

(** The observable world: how many [fetch] calls were issued, the delays
    passed to [setTimeout] (oldest first) and the labels written with
    [console.error] (oldest first). *)
Record World := {
  fetches : nat;
  timers : list Z;
  console : list string
}.

Definition World0 : World := {| fetches := 0; timers := []; console := [] |}.

(** The world after one more [fetch], after a timer of [delay]
    milliseconds, and after a line on the console. *)
Definition fetched (w : World) : World :=
  {| fetches := S (fetches w); timers := timers w; console := console w |}.
Definition slept (delay : Z) (w : World) : World :=
  {| fetches := fetches w; timers := timers w ++ [delay]; console := console w |}.
Definition logged (label : string) (w : World) : World :=
  {| fetches := fetches w; timers := timers w; console := console w ++ [label] |}.

(** How a computation ends.  [OutOfFuel] is the model's own: a loop that
    was not given enough iterations. *)
Inductive Completion (A : Type) :=
| Normal (value : A)
| Thrown (error : Error)
| OutOfFuel.
Arguments Normal {A} _.
Arguments Thrown {A} _.
Arguments OutOfFuel {A}.

Definition Async (A : Type) := World -> Completion A * World.

Definition ret {A} (a : A) : Async A := fun w => (Normal a, w).

Definition bind {A B} (m : Async A) (k : A -> Async B) : Async B :=
  fun w =>
    match m w with
    | (Normal a, w') => k a w'
    | (Thrown e, w') => (Thrown e, w')
    | (OutOfFuel, w') => (OutOfFuel, w')
    end.

Definition throw {A} (e : Error) : Async A := fun w => (Thrown e, w).

(** [try { m } catch (error) { handler error }]. *)
Definition try_catch {A} (m : Async A) (handler : Error -> Async A) : Async A :=
  fun w =>
    match m w with
    | (Thrown e, w') => handler e w'
    | r => r
    end.

(** [await fetch(url, options)]: the next outcome of the network; a
    rejected promise is a throw at the [await]. *)
Definition fetch {J} (network : Network J) (url : string) (options : RequestInit)
  : Async (Response J) :=
  fun w =>
    match network (fetches w) url options with
    | Resolved response => (Normal response, fetched w)
    | Rejected error => (Thrown error, fetched w)
    end.

(** [await new Promise(resolve => setTimeout(resolve, delay))]. *)
Definition sleep (delay : Z) : Async unit :=
  fun w => (Normal tt, slept delay w).

(** [console.error(label, ...)]. *)
Definition console_error (label : string) : Async unit :=
  fun w => (Normal tt, logged label w).

(** [await response.json()]. *)
Definition await_json {J} (response : Response J) : Async J :=
  match json response with
  | inl error => throw error
  | inr value => ret value
  end.

(** The time spent waiting: the sum of the delays handed to [setTimeout]. *)
Definition total_wait (w : World) : Z := foldr Z.add 0 (timers w).

(** [s.includes(sub)]. *)
Fixpoint includes (s sub : string) : bool :=
  if String.prefix sub s then true
  else match s with
       | EmptyString => false
       | String _ s' => includes s' sub
       end.

End Js.

Import Js.

Declare Scope async_scope.
Delimit Scope async_scope with async.
Notation "x <- m ;; k" := (bind m (fun x => k))
  (at level 20, m at level 99, k at level 200) : async_scope.
Notation "m ;; k" := (bind m (fun _ => k))
  (at level 100, k at level 200, right associativity) : async_scope.
Open Scope async_scope.

(** ** Values parsed from JSON, as JavaScript reads them *)

Module JsValue.

(** What [response.json()] can resolve to when the body is not declared
    any type in the source. *)
Unset Elimination Schemes.
Inductive Json :=
| JNull
| JBool (b : bool)
| JNumber (n : float)
| JString (s : string)
| JArray (elements : list Json)
| JObject (properties : list (string * Json)).
Set Elimination Schemes.

(** A JavaScript value read off such a body is a [Json] or [undefined],
    which is [None]. *)

(** Truthiness: [undefined], [null], [false], [0], [NaN] and the empty
    string are falsy. *)
Definition truthy (v : option Json) : bool :=
  match v with
  | None | Some JNull => false
  | Some (JBool b) => b
  | Some (JNumber n) => negb (PrimFloat.eqb n 0%float) && PrimFloat.eqb n n
  | Some (JString s) => negb (String.eqb s "")
  | Some (JArray _) | Some (JObject _) => true
  end.

(** The own property [name] of an object given by its entries (a parsed
    object has one entry for each of its names). *)
Fixpoint assoc (name : string) (properties : list (string * Json)) : option Json :=
  match properties with
  | [] => None
  | (key, value) :: rest => if String.eqb key name then Some value else assoc name rest
  end.

(** [v.name] for a [v] that is not [null], and a [name] that no string,
    number, boolean or array carries (the names the pages read are of this
    kind): only an object can have it. *)
Definition property (v : Json) (name : string) : option Json :=
  match v with
  | JObject properties => assoc name properties
  | _ => None
  end.

(** [v?.name]. *)
Definition optional_property (v : option Json) (name : string) : option Json :=
  match v with
  | None | Some JNull => None
  | Some v => property v name
  end.

(** [v[0]] for a [v] that is not [null]: the first element of an array,
    the first character of a string, the property ["0"] of an object. *)
Definition index0 (v : Json) : option Json :=
  match v with
  | JArray elements => head elements
  | JString (String c _) => Some (JString (String c EmptyString))
  | JObject properties => assoc "0" properties
  | _ => None
  end.

(** [v?.[0]]. *)
Definition optional_index0 (v : option Json) : option Json :=
  match v with
  | None | Some JNull => None
  | Some v => index0 v
  end.

(** [array.includes(s)] for a string [s]: some element is that string. *)
Definition array_includes (elements : list Json) (s : string) : bool :=
  existsb (fun element =>
             match element with
             | JString s' => String.eqb s' s
             | _ => false
             end) elements.

End JsValue.

Import JsValue.

(** ** frontend/app/search/page.tsx *)

Module SearchPage.

(** What one pass through the body of the [for] loop asks for: [continue]
    (with the updated [delay]) or [return response]. *)
Inductive Iteration (A : Type) :=
| Continue (delay : Z)
| Return (value : A).
Arguments Continue {A} _.
Arguments Return {A} _.

Section ExponentialBackoffFetch.
Context {J : Type}.
Variable network : Network J.
Variables (url : string) (options : RequestInit) (maxRetries : Z).

(** The body of the loop, the [try]/[catch] included.  The [throw] of
    the [try] block is inside the [try], so the [catch] receives it.
    ([errorMessage] is computed in the source and never used.) *)
Definition attempt_body (attempt delay : Z) : Async (Iteration (Response J)) :=
  try_catch
    (response <- fetch network url options ;;
     if ok response then ret (Return response)
     else if (status response =? 429) && (attempt <? maxRetries - 1) then
       sleep delay ;;
       ret (Continue (delay * 2))
     else throw (mkError ("API error: " +:+ statusText response)))
    (fun error =>
       if attempt <? maxRetries - 1 then
         sleep delay ;;
         ret (Continue (delay * 2))
       else throw error).

(** [for (let attempt = 0; attempt < maxRetries; attempt++) { ... }]
    followed by the final [throw]. *)
Fixpoint for_loop (fuel : nat) (attempt delay : Z) : Async (Response J) :=
  if attempt <? maxRetries then
    match fuel with
    | O => fun w => (OutOfFuel, w)
    | S fuel' =>
        step <- attempt_body attempt delay ;;
        match step with
        | Return response => ret response
        | Continue delay' => for_loop fuel' (attempt + 1) delay'
        end
    end
  else throw (mkError "Failed to fetch after all retries.").

(** [let delay = 1000; for (...) {...}].  The loop runs at most
    [maxRetries] times, which is the fuel it is given. *)
Definition exponentialBackoffFetch : Async (Response J) :=
  for_loop (Z.to_nat maxRetries) 0 1000.

End ExponentialBackoffFetch.

(** *** The chat client *)

Inductive Role := user | model.

(** A part of a message.  The interface declares [text] a string; the
    text of a reply is whatever the response holds at that place. *)
Record TextPart := { text : Json }.

(** [{ uri: string; title: string }], as [SourceAttribution] is declared
    to receive them. *)
Record Source := { uri : string; title : string }.

(** The sources of a reply, as [callGeminiAPI] builds them from the
    response: what the attribution holds under [uri] and [title]. *)
Module Grounded.
Record Source := { uri : Json; title : Json }.
End Grounded.

(** [interface ChatMessage]; [sources] is optional. *)
Record ChatMessage := {
  role : Role;
  parts : list TextPart;
  sources : option (list Grounded.Source)
}.

(** The JSON body sent to the content-generation endpoint. *)
Module Request.
Record Content := { role : Role; parts : list TextPart }.
Record Payload := {
  contents : list Content;
  tools : list string;
  systemInstruction : list TextPart
}.
End Request.

Definition systemPrompt : string := "
You are a helpful and concise AI assistant. Your primary goal is to provide clear and direct answers.

Follow these rules strictly:
1.  **Be Concise:** Always provide answers that are to-the-point. Avoid long paragraphs and unnecessary introductory or concluding sentences.
2.  **Use Bullet Points:** Whenever possible, format your answers using bullet points or numbered lists to make them easy to read.
3.  **Match Language:** You MUST reply in the exact same language (e.g., Hindi, English) that the user used for their query.
".

Definition apology_malformed_call : string :=
  "Apologies, there was a data processing issue with the API. Please simplify your question and ask again.".

Definition apology_no_answer : string :=
  "Sorry, I wasnâ€™t able to answer this question. Please try again after some time or rephrase your question.".

(** [candidate.content?.parts?.[0]?.text], for a [candidate] that is not
    [null]. *)
Definition content_text (candidate : Json) : option Json :=
  optional_property
    (optional_index0 (optional_property (property candidate "content") "parts"))
    "text".

(** [source.uri && source.title] of the filter: the pair mapped from an
    attribution is kept when both are truthy. *)
Definition kept_source (mapped : option Json * option Json) : option Grounded.Source :=
  match mapped with
  | (Some uri, Some title) =>
      if truthy (Some uri) && truthy (Some title)
      then Some {| Grounded.uri := uri; Grounded.title := title |}
      else None
  | _ => None
  end.

Section CallGeminiAPI.
Variable network : Network Json.
(** The key embedded in the page, and the platform's [JSON.stringify]. *)
Variable apiKey : string.
Variable JSON_stringify : Request.Payload -> string.
(** The [TypeError] the engine throws when the expression named by its
    source text reads a property of [null] or calls what is no function. *)
Variable TypeError : string -> Error.

Definition apiUrl : string :=
  "https://generativelanguage.googleapis.com/v1beta/models/gemini-2.5-flash-preview-09-2025:generateContent?key="
  +:+ apiKey.

(** [contents]: the history mapped, then [contents.push(...)]. *)
Definition requestContents (chatHistory : list ChatMessage) (currentQuery : string)
  : list Request.Content :=
  map (fun msg =>
         {| Request.role := match role msg with model => model | user => user end;
            Request.parts := map (fun p => {| text := text p |}) (parts msg) |})
      chatHistory
  ++ [ {| Request.role := user; Request.parts := [ {| text := JString currentQuery |} ] |} ].

Definition requestPayload (chatHistory : list ChatMessage) (currentQuery : string)
  : Request.Payload :=
  {| Request.contents := requestContents chatHistory currentQuery;
     Request.tools := [ "google_search" ];
     Request.systemInstruction := [ {| text := JString systemPrompt |} ] |}.

(** The options [callGeminiAPI] passes to [exponentialBackoffFetch]. *)
Definition requestOptions (chatHistory : list ChatMessage) (currentQuery : string)
  : RequestInit :=
  {| method := Some "POST";
     headers := [ ("Content-Type", "application/json") ];
     body := Some (JSON_stringify (requestPayload chatHistory currentQuery));
     cache := None |}.

(** The callback of [.map]: [{ uri: attribution.web?.uri, title:
    attribution.web?.title }].  [attribution.web] is read unguarded. *)
Definition attribution_source (attribution : Json)
  : Async (option Json * option Json) :=
  match attribution with
  | JNull => throw (TypeError "attribution.web")
  | _ =>
      let web := property attribution "web" in
      ret (optional_property web "uri", optional_property web "title")
  end.

(** [array.map(callback)], the callback run on each element in order. *)
Fixpoint map_each {A B} (callback : A -> Async B) (array : list A) : Async (list B) :=
  match array with
  | [] => ret []
  | element :: rest =>
      mapped <- callback element ;;
      others <- map_each callback rest ;;
      ret (mapped :: others)
  end.

(** [groundingMetadata.groundingAttributions.map(...).filter(...)], for
    the truthy value [groundingAttributions]: only an array has [map]. *)
Definition grounded_sources (groundingAttributions : Json) : Async (list Grounded.Source) :=
  match groundingAttributions with
  | JArray attributions =>
      mapped <- map_each attribution_source attributions ;;
      ret (omap kept_source mapped)
  | _ => throw (TypeError "groundingMetadata.groundingAttributions.map")
  end.

(** The [then] branch of [callGeminiAPI]: the candidate has a text. *)
Definition grounded_reply (candidate : Json) (text : Json) : Async ChatMessage :=
  let groundingMetadata := property candidate "groundingMetadata" in
  sources <-
    match groundingMetadata with
    | Some metadata =>
        match property metadata "groundingAttributions" with
        | Some groundingAttributions =>
            if truthy groundingMetadata && truthy (Some groundingAttributions)
            then grounded_sources groundingAttributions
            else ret []
        | None => ret []
        end
    | None => ret []
    end ;;
  ret {| role := model; parts := [ {| text := text |} ]; sources := Some sources |}.

(** [candidate?.finishMessage?.includes("Malformed function call")]: a
    string and an array have [includes]; any other value that is not
    [null] or [undefined] has not, and calling it throws. *)
Definition mentions_malformed_call (candidate : option Json) : Async bool :=
  match optional_property candidate "finishMessage" with
  | None | Some JNull => ret false
  | Some (JString finishMessage) => ret (includes finishMessage "Malformed function call")
  | Some (JArray elements) => ret (array_includes elements "Malformed function call")
  | Some _ => throw (TypeError "candidate?.finishMessage?.includes")
  end.

(** The [else] branch of [callGeminiAPI]: no candidate, or no text in it. *)
Definition malformed_reply (candidate : option Json) : Async ChatMessage :=
  console_error "Gemini API response missing text or malformed tool call:" ;;
  malformed <- mentions_malformed_call candidate ;;
  let errorMessage := if malformed then apology_malformed_call else apology_no_answer in
  ret {| role := model; parts := [ {| text := JString errorMessage |} ]; sources := None |}.

(** What follows [await response.json()] inside the [try]. *)
Definition reply_to (result : Json) : Async ChatMessage :=
  (* result.candidates?.[0]: reading [candidates] off null throws *)
  candidates <- match result with
                | JNull => throw (TypeError "result.candidates")
                | _ => ret (property result "candidates")
                end ;;
  let candidate := optional_index0 candidates in
  (* if (candidate && candidate.content?.parts?.[0]?.text) *)
  match candidate with
  | Some c =>
      match content_text c with
      | Some text =>
          if truthy candidate && truthy (Some text) then grounded_reply c text
          else malformed_reply candidate
      | None => malformed_reply candidate
      end
  | None => malformed_reply candidate
  end.

(** The [catch] block. *)
Definition network_error_reply (error : Error) : Async ChatMessage :=
  console_error "API Call Error:" ;;
  ret {| role := model;
         parts := [ {| text := JString ("A Network/API error has occurred: "
                                        +:+ message error
                                        +:+ ". Please check your network connection and try again.") |} ];
         sources := None |}.

Definition callGeminiAPI (chatHistory : list ChatMessage) (currentQuery : string)
  : Async ChatMessage :=
  try_catch
    (response <- exponentialBackoffFetch network apiUrl
                   (requestOptions chatHistory currentQuery) 5 ;;
     result <- await_json response ;;
     reply_to result)
    network_error_reply.

End CallGeminiAPI.

End SearchPage.

(** ** frontend/app/trending/page.tsx *)

Module TrendingPage.

Record TrendingStock := {
  ticker : string;
  name : string;
  current_price : float;
  today_change_percent : float;
  volume_factor : float;
  price_change_5d : float;
  reason : string
}.

(** [interface RankedTrendingStock extends TrendingStock]. *)
Record RankedTrendingStock := {
  ranked_ticker : string;
  ranked_name : string;
  ranked_current_price : float;
  ranked_today_change_percent : float;
  ranked_volume_factor : float;
  ranked_price_change_5d : float;
  ranked_reason : string;
  rank : Z
}.

(** [{ ...stock, rank }]. *)
Definition spread_with_rank (stock : TrendingStock) (rank : Z) : RankedTrendingStock :=
  {| ranked_ticker := ticker stock;
     ranked_name := name stock;
     ranked_current_price := current_price stock;
     ranked_today_change_percent := today_change_percent stock;
     ranked_volume_factor := volume_factor stock;
     ranked_price_change_5d := price_change_5d stock;
     ranked_reason := reason stock;
     rank := rank |}.

(** The [TrendingStock] a ranked stock extends. *)
Definition unranked (stock : RankedTrendingStock) : TrendingStock :=
  {| ticker := ranked_ticker stock;
     name := ranked_name stock;
     current_price := ranked_current_price stock;
     today_change_percent := ranked_today_change_percent stock;
     volume_factor := ranked_volume_factor stock;
     price_change_5d := ranked_price_change_5d stock;
     reason := ranked_reason stock |}.

(** [interface ApiResponse]; [results] may be missing, which
    [result.results || []] allows for. *)
Record ApiResponse := {
  success : bool;
  message : string;
  results : option (list TrendingStock)
}.

Definition API_URL : string := "http://localhost:5000/api/trending-stocks".

(** [{ cache: 'no-store', headers: { Accept: 'application/json' } }]. *)
Definition requestOptions : RequestInit :=
  {| method := None;
     headers := [ ("Accept", "application/json") ];
     body := None;
     cache := Some "no-store" |}.

Section GetTrendingStocks.
Variable network : Network ApiResponse.

Definition getTrendingStocks : Async (list RankedTrendingStock) :=
  try_catch
    (response <- fetch network API_URL requestOptions ;;
     if negb (ok response) then
       throw (mkError ("Problem fetching data from API: " +:+ statusText response
                       +:+ " (" +:+ pretty (status response) +:+ ")"))
     else
       result <- await_json response ;;
       if negb (success result) then
         throw (mkError ("API returned failure status: " +:+ message result))
       else
         let rankedData :=
           imap (fun index stock => spread_with_rank stock (Z.of_nat index + 1))
                (default [] (results result)) in
         ret rankedData)
    (fun error =>
       console_error "Data Fetching Error:" ;;
       ret []).

End GetTrendingStocks.

(** What [TrendingPageClient] derives from the fetched [stocks]: the
    empty-state panel is rendered exactly when [hasData] is false. *)
Definition hasData (stocks : list RankedTrendingStock) : bool :=
  Z.of_nat (length stocks) >? 0.

Definition stockCountText (stocks : list RankedTrendingStock) : string :=
  if hasData stocks
  then "Top " +:+ pretty (Z.of_nat (length stocks)) +:+ " Trending Indian Stocks"
  else "No Trending Stocks Found".

End TrendingPage.

(** ** frontend/components/StockDetails.tsx *)

Module StockDetails.

(** The colour classes of the sentiment badge: the nested conditional on
    [liveDetails.sentiment_status]. *)
Definition sentimentBadgeColor (sentiment_status : string) : string :=
  if String.eqb sentiment_status "Positive" then "bg-green-100 text-green-800"
  else if String.eqb sentiment_status "Negative" then "bg-red-100 text-red-800"
  else "bg-yellow-100 text-yellow-800".

(** The [className] of the badge. *)
Definition sentimentBadgeClassName (sentiment_status : string) : string :=
  "ml-3 px-3 py-1 text-sm font-semibold rounded-full "
  +:+ sentimentBadgeColor sentiment_status.

End StockDetails.

(** ** frontend/components/StockScene.tsx *)

Module StockScene.

Section StockSlideshowClient.
(** The slideshow never looks inside a stock. *)
Context {Stock : Type}.
Variable stocks : list Stock.

(** [const slides = stocks.slice(0, 5)]. *)
Definition slides : list Stock := take 5 stocks.

Definition slides_length : Z := Z.of_nat (length slides).

(** What changes [currentIndex]: the interval callback of the effect
    (set up when [slides.length > 1]), the effect's own reset (when
    [slides.length === 1]), the two arrow buttons and the indicators. *)
Inductive Event :=
| AutoAdvance
| EffectReset
| ClickPrev
| ClickNext
| ClickIndicator (index : nat).

(** JavaScript's [%] truncates towards zero: it is [Z.rem]. *)
Definition goToPrev (prevIndex : Z) : Z := Z.rem (prevIndex - 1 + slides_length) slides_length.
Definition goToNext (prevIndex : Z) : Z := Z.rem (prevIndex + 1) slides_length.

(** The state update each event makes. *)
Definition setCurrentIndex (event : Event) (prevIndex : Z) : Z :=
  match event with
  | AutoAdvance => Z.rem (prevIndex + 1) slides_length
  | EffectReset => 0
  | ClickPrev => goToPrev prevIndex
  | ClickNext => goToNext prevIndex
  | ClickIndicator index => Z.of_nat index
  end.

(** An indicator exists for each slide, [slides.map((_, index) => ...)];
    the other events are not constrained here. *)
Definition rendered (event : Event) : Prop :=
  match event with
  | ClickIndicator index => (index < length slides)%nat
  | _ => True
  end.

(** [useState(0)], then the events in order. *)
Definition currentIndex_after (events : list Event) : Z :=
  fold_left (fun currentIndex event => setCurrentIndex event currentIndex) events 0.

(** [slides[currentIndex]]. *)
Definition current_slide (currentIndex : Z) : option Stock :=
  if currentIndex <? 0 then None else slides !! Z.to_nat currentIndex.

End StockSlideshowClient.

End StockScene.

(** ** Vocabulary of the properties *)

Module Backoff.

(** A 429 answer: a response that is not a success and carries status 429. *)
Definition rate_limited {J} (outcome : FetchOutcome J) : Prop :=
  match outcome with
  | Resolved response => ok response = false /\ status response = 429
  | Rejected _ => False
  end.

(** [delay, 2 * delay, ..., 2^(n-1) * delay]. *)
Definition backoff_delays (delay : Z) (n : nat) : list Z :=
  map (fun k => delay * 2 ^ Z.of_nat k) (seq 0 n).

(** The number of [fetch] calls issued between two worlds. *)
Definition attempts (w w' : World) : Z := Z.of_nat (fetches w') - Z.of_nat (fetches w).

(** The time waited between two worlds. *)
Definition waited (w w' : World) : Z := total_wait w' - total_wait w.

(** [bound] is the worst-case wait of [exponentialBackoffFetch] called
    with [maxRetries]: no execution waits longer, and one waits as long. *)
Definition worst_case_wait (maxRetries bound : Z) : Prop :=
  (forall (J : Type) (network : Network J) url options w,
      waited w (snd (SearchPage.exponentialBackoffFetch network url options maxRetries w))
      <= bound)
  /\ (exists (J : Type) (network : Network J) url options w,
      waited w (snd (SearchPage.exponentialBackoffFetch network url options maxRetries w))
      = bound).

(** [result.candidates?.[0]], for a body that is not [null]. *)
Definition first_candidate (result : Json) : option Json :=
  optional_index0 (property result "candidates").

(** The text of the first part of the first candidate, if the answer has
    one: [result.candidates?.[0]?.content?.parts?.[0]?.text]. *)
Definition first_text (result : Json) : option Json :=
  match first_candidate result with
  | Some candidate => SearchPage.content_text candidate
  | None => None
  end.

(** A response without a text part: its body does not parse, or what it
    parses to has no truthy text in the first part of its first candidate. *)
Definition lacks_text_part (response : Response Json) : Prop :=
  match json response with
  | inl _ => True
  | inr result => truthy (first_text result) = false
  end.

(** The reply is one of the two fixed apologies of the page. *)
Definition apologises (completion : Completion SearchPage.ChatMessage) : Prop :=
  exists apology,
    completion =
    Normal {| SearchPage.role := SearchPage.model;
              SearchPage.parts := [ {| SearchPage.text := JString apology |} ];
              SearchPage.sources := None |}
    /\ (apology = SearchPage.apology_malformed_call
        \/ apology = SearchPage.apology_no_answer).

(** The [finishMessage] of the first candidate can be asked whether it
    includes a string: it is missing, [null], a string or an array. *)
Definition finishMessage_has_includes (result : Json) : Prop :=
  match optional_property (first_candidate result) "finishMessage" with
  | None | Some JNull | Some (JString _) | Some (JArray _) => True
  | Some _ => False
  end.

End Backoff.

Module Trending.

(** The outcomes of the fetch that the page treats as a failure: a
    rejected promise, a response that is not ok, a body that does not
    parse, or a parsed body with [success = false]. *)
Definition fetch_failed (outcome : FetchOutcome TrendingPage.ApiResponse) : Prop :=
  match outcome with
  | Rejected _ => True
  | Resolved response =>
      ok response = false
      \/ (exists error, json response = inl error)
      \/ (exists result, json response = inr result /\ TrendingPage.success result = false)
  end.

End Trending.

(** ** Concrete networks and inputs *)

Module Scenarios.

(** A response with the given status; [ok] is true on 200..299. *)
Definition response_of {J} (status : Z) (statusText : string) (value : J) : Response J :=
  {| ok := (200 <=? status) && (status <=? 299);
     status := status;
     statusText := statusText;
     json := inr value |}.

Definition success : Response unit := response_of 200 "OK" tt.
Definition too_many_requests : Response unit := response_of 429 "Too Many Requests" tt.
Definition server_error : Response unit := response_of 500 "Internal Server Error" tt.

Definition post : RequestInit :=
  {| method := Some "POST"; headers := []; body := Some "{}"; cache := None |}.

(** Every call is answered 429. *)
Definition always_429 : Network unit := fun _ _ _ => Resolved too_many_requests.

(** The first call is answered 500, the following ones 200. *)
Definition server_error_then_ok : Network unit :=
  fun k _ _ => match k with O => Resolved server_error | S _ => Resolved success end.

(** The first two calls are answered 429, the following ones 200. *)
Definition twice_429_then_ok : Network unit :=
  fun k _ _ => if (k <? 2)%nat then Resolved too_many_requests else Resolved success.

(** An answer of the model without any text: a malformed function call. *)
Definition malformed_result : Json :=
  JObject [ ("candidates",
             JArray [ JObject [ ("finishMessage",
                                 JString "Malformed function call: lookup") ] ]) ].

Definition malformed_network : Network Json :=
  fun _ _ _ => Resolved (response_of 200 "OK" malformed_result).

(** The messages of one engine for the [TypeError]s of the chat client. *)
Definition engine (expression : string) : Error :=
  if String.eqb expression "result.candidates"
  then mkError "Cannot read properties of null (reading 'candidates')"
  else if String.eqb expression "attribution.web"
  then mkError "Cannot read properties of null (reading 'web')"
  else mkError (expression +:+ " is not a function").

(** A 200 answer whose body is no JSON. *)
Definition garbled_response : Response Json :=
  {| ok := true; status := 200; statusText := "OK";
     json := inl (mkError "Unexpected end of JSON input") |}.

Definition garbled_network : Network Json := fun _ _ _ => Resolved garbled_response.

(** A 200 answer whose body is [null]. *)
Definition null_network : Network Json :=
  fun _ _ _ => Resolved (response_of 200 "OK" JNull).

(** A 200 answer whose first candidate has a number for [finishMessage]. *)
Definition numbered_result : Json :=
  JObject [ ("candidates", JArray [ JObject [ ("finishMessage", JNumber 3%float) ] ]) ].

Definition numbered_network : Network Json :=
  fun _ _ _ => Resolved (response_of 200 "OK" numbered_result).

Definition stringify : SearchPage.Request.Payload -> string := fun _ => "{}".

Definition reliance : TrendingPage.TrendingStock :=
  {| TrendingPage.ticker := "RELIANCE.NS";
     TrendingPage.name := "Reliance Industries";
     TrendingPage.current_price := 2950.5%float;
     TrendingPage.today_change_percent := 1.25%float;
     TrendingPage.volume_factor := 2.5%float;
     TrendingPage.price_change_5d := 3.75%float;
     TrendingPage.reason := "High volume" |}.

Definition tcs : TrendingPage.TrendingStock :=
  {| TrendingPage.ticker := "TCS.NS";
     TrendingPage.name := "Tata Consultancy Services";
     TrendingPage.current_price := 4100%float;
     TrendingPage.today_change_percent := (-0.5)%float;
     TrendingPage.volume_factor := 1.5%float;
     TrendingPage.price_change_5d := (-2)%float;
     TrendingPage.reason := "Earnings" |}.

(** The trending endpoint answers with two stocks. *)
Definition trending_network : Network TrendingPage.ApiResponse :=
  fun _ _ _ =>
    Resolved (response_of 200 "OK"
                {| TrendingPage.success := true;
                   TrendingPage.message := "ok";
                   TrendingPage.results := Some [ reliance; tcs ] |}).

(** The trending endpoint is down. *)
Definition unavailable_network : Network TrendingPage.ApiResponse :=
  fun _ _ _ =>
    Resolved (response_of 503 "Service Unavailable"
                {| TrendingPage.success := false;
                   TrendingPage.message := "down";
                   TrendingPage.results := None |}).

End Scenarios.

(** ** More vocabulary: attempts that fail *)

Module Retry.

(** An attempt that does not end the call with a response: the fetch was
    rejected, or its response is not a success (whatever its status). *)
Definition failed {J} (outcome : FetchOutcome J) : Prop :=
  match outcome with
  | Resolved response => ok response = false
  | Rejected _ => True
  end.

(** The error a failed attempt leaves when it is the last one: the error
    of the rejected fetch, or the one made from the response's status text. *)
Definition attempt_error {J} (outcome : FetchOutcome J) : Error :=
  match outcome with
  | Resolved response => mkError ("API error: " +:+ statusText response)
  | Rejected error => error
  end.

(** The network is down for the first two calls (a rejected fetch, then a
    500), and answers 200 afterwards. *)
Definition outage_then_ok : Network unit :=
  fun k _ _ =>
    match k with
    | O => Rejected (mkError "Failed to fetch")
    | S O => Resolved Scenarios.server_error
    | _ => Resolved Scenarios.success
    end.

(** Every fetch is rejected. *)
Definition offline : Network unit :=
  fun _ _ _ => Rejected (mkError "Failed to fetch").

End Retry.

(** ** More vocabulary: the chat client *)

Module Chat.

(** The text [callGeminiAPI] shows for an error [error]. *)
Definition network_error_text (error : Error) : string :=
  "A Network/API error has occurred: " +:+ message error
  +:+ ". Please check your network connection and try again.".

(** [candidate.groundingMetadata.groundingAttributions] as the page reads
    it: [undefined] when the metadata is missing. *)
Definition grounding_attributions (candidate : Json) : option Json :=
  optional_property (property candidate "groundingMetadata") "groundingAttributions".

(** What the callback of [.map] reads off an attribution that is not
    [null]: its [web?.uri] and its [web?.title]. *)
Definition read_attribution (attribution : Json) : option Json * option Json :=
  (optional_property (property attribution "web") "uri",
   optional_property (property attribution "web") "title").

Definition attribution_of (uri title : Json) : Json :=
  JObject [ ("web", JObject [ ("uri", uri); ("title", title) ]) ].

(** A candidate with a text and the given [groundingAttributions]. *)
Definition candidate_with (text : string) (groundingAttributions : Json) : Json :=
  JObject [ ("content", JObject [ ("parts", JArray [ JObject [ ("text", JString text) ] ]) ]);
            ("groundingMetadata",
             JObject [ ("groundingAttributions", groundingAttributions) ]) ].

(** Three attributions, of which only the first has both a link and a
    title. *)
Definition three_attributions : list Json :=
  [ attribution_of (JString "https://nse.example/tcs") (JString "NSE");
    attribution_of (JString "") (JString "Untitled");
    JObject [] ].

Definition grounded_candidate : Json :=
  candidate_with "TCS closed higher." (JArray three_attributions).

Definition grounded_result : Json :=
  JObject [ ("candidates", JArray [ grounded_candidate ]) ].

Definition grounded_network : Network Json :=
  fun _ _ _ => Resolved (Scenarios.response_of 200 "OK" grounded_result).

(** The same answer with a [null] among its attributions. *)
Definition holed_candidate : Json :=
  candidate_with "TCS closed higher."
    (JArray [ attribution_of (JString "https://nse.example/tcs") (JString "NSE"); JNull ]).

Definition holed_network : Network Json :=
  fun _ _ _ =>
    Resolved (Scenarios.response_of 200 "OK"
                (JObject [ ("candidates", JArray [ holed_candidate ]) ])).

(** Every call is answered 429; the body does not matter. *)
Definition busy_network : Network Json :=
  fun _ _ _ => Resolved (Scenarios.response_of 429 "Too Many Requests" Scenarios.malformed_result).

Definition welcome : SearchPage.ChatMessage :=
  {| SearchPage.role := SearchPage.model;
     SearchPage.parts := [ {| SearchPage.text := JString "Namaste!" |} ];
     SearchPage.sources := None |}.

End Chat.

(** ** The chat page of frontend/app/search/page.tsx: bubbles and submissions *)

Module ChatPage.
Import SearchPage.

(** [self.findIndex(p)]: the index of the first element that satisfies
    [p], and -1 when there is none. *)
Fixpoint findIndex_from {A} (p : A -> bool) (index : Z) (self : list A) : Z :=
  match self with
  | [] => -1
  | t :: rest => if p t then index else findIndex_from p (index + 1) rest
  end.

Definition findIndex {A} (p : A -> bool) (self : list A) : Z := findIndex_from p 0 self.

(** [self.filter((element, index, self) => keep)]. *)
Fixpoint filter_from {A} (keep : A -> Z -> bool) (index : Z) (l : list A) : list A :=
  match l with
  | [] => []
  | x :: rest =>
      if keep x index then x :: filter_from keep (index + 1) rest
      else filter_from keep (index + 1) rest
  end.

Definition filter_indexed {A} (keep : A -> Z -> list A -> bool) (self : list A) : list A :=
  filter_from (fun x index => keep x index self) 0 self.

(** [sources.filter((source, index, self) =>
       index === self.findIndex((t) => t.uri === source.uri))]. *)
Definition uniqueSources (sources : list Source) : list Source :=
  filter_indexed
    (fun source index self =>
       index =? findIndex (fun t => String.eqb (uri t) (uri source)) self)
    sources.

(** What [SourceAttribution] renders: the number in its heading, the
    links listed, and the label of the toggle button when there is one. *)
Record SourceList := {
  heading_count : Z;
  visibleSources : list Source;
  toggle_label : option string
}.

(** [SourceAttribution]: [None] is [return null]. *)
Definition SourceAttribution (sources : option (list Source)) (isExpanded : bool)
  : option SourceList :=
  match sources with
  | None | Some [] => None
  | Some sources =>
      let uniqueSources := uniqueSources sources in
      let visibleSources := if isExpanded then uniqueSources else take 3 uniqueSources in
      let hasMore := Z.of_nat (length uniqueSources) >? 3 in
      Some {| heading_count := Z.of_nat (length uniqueSources);
              visibleSources := visibleSources;
              toggle_label :=
                if hasMore then
                  Some (if isExpanded then "Show Less"
                        else "Show " +:+ pretty (Z.of_nat (length uniqueSources) - 3)
                             +:+ " More Sources")
                else None |}
  end.

(** [const content = message.parts[0].text]: reading [text] off a missing
    first part throws a [TypeError], which is [None] here. *)
Definition bubble_content (message : ChatMessage) : option Json :=
  text <$> parts message !! 0%nat.

Definition welcomeMessage : ChatMessage :=
  {| role := model;
     parts := [ {| text := JString "Namaste! I am an AI Financial Analyst. I use real-time Google Search to provide you with accurate insights on the stock market, company analysis, and other financial queries. Which stock or financial topic would you like to explore today?" |} ];
     sources := None |}.

(** The state of [ChatPage]. *)
Record ChatState := {
  chatHistory : list ChatMessage;
  input : string;
  isLoading : bool
}.

(** The state once the welcome effect has run. *)
Definition welcomed : ChatState :=
  {| chatHistory := [ welcomeMessage ]; input := ""; isLoading := false |}.

Section HandleSubmit.
Variable network : Network Json.
Variable apiKey : string.
Variable JSON_stringify : Request.Payload -> string.
Variable TypeError : string -> Error.
(** The platform's [String.prototype.trim]. *)
Variable trim : string -> string.

(** [handleSubmit]: the state it leaves when it has run to its end.  The
    call to [callGeminiAPI] gets the history of the render the handler
    belongs to, without the user's new message. *)
Definition handleSubmit (state : ChatState) : Async ChatState :=
  let trimmedInput := trim (input state) in
  if String.eqb trimmedInput "" || isLoading state then ret state
  else
    let userMessage :=
      {| role := user; parts := [ {| text := JString trimmedInput |} ]; sources := None |} in
    modelMessage <- callGeminiAPI network apiKey JSON_stringify TypeError
                      (chatHistory state) trimmedInput ;;
    ret {| chatHistory := (chatHistory state ++ [ userMessage ]) ++ [ modelMessage ];
           input := "";
           isLoading := false |}.

(** What the user does: type in the box ([onChange]) or submit the form. *)
Inductive Action :=
| Typed (value : string)
| Submitted.

Definition act (action : Action) (state : ChatState) : Async ChatState :=
  match action with
  | Typed value =>
      ret {| chatHistory := chatHistory state; input := value; isLoading := isLoading state |}
  | Submitted => handleSubmit state
  end.

(** The actions one after the other, each handler running to its end. *)
Fixpoint session (actions : list Action) (state : ChatState) : Async ChatState :=
  match actions with
  | [] => ret state
  | action :: rest => state' <- act action state ;; session rest state'
  end.

End HandleSubmit.

End ChatPage.

(** ** More vocabulary: sources seen so far *)

Module Sources.

(** The sources of [l] whose link is neither in [seen] nor carried by an
    earlier source of [l]; [seen] collects the links met so far. *)
Fixpoint first_occurrences (seen : list string) (l : list SearchPage.Source)
  : list SearchPage.Source :=
  match l with
  | [] => []
  | source :: rest =>
      if bool_decide (SearchPage.uri source ∈ seen)
      then first_occurrences (seen ++ [ SearchPage.uri source ]) rest
      else source :: first_occurrences (seen ++ [ SearchPage.uri source ]) rest
  end.

Definition source_of (uri title : string) : SearchPage.Source :=
  {| SearchPage.uri := uri; SearchPage.title := title |}.

(** Five sources, two of them repeating an earlier link. *)
Definition cited : list SearchPage.Source :=
  [ source_of "https://a.example" "A"; source_of "https://b.example" "B";
    source_of "https://a.example" "A again"; source_of "https://c.example" "C";
    source_of "https://b.example" "B again" ].

(** Six sources with six links. *)
Definition six : list SearchPage.Source :=
  [ source_of "1" "one"; source_of "2" "two"; source_of "3" "three";
    source_of "4" "four"; source_of "5" "five"; source_of "6" "six" ].

(** The roles of a history as the page builds it: the welcome of the
    model, then [k] exchanges of a user message and a reply. *)
Definition conversation (k : nat) : list SearchPage.Role :=
  SearchPage.model :: concat (replicate k [ SearchPage.user; SearchPage.model ]).

(** A state between two submissions: not loading, every message with a
    first part for its bubble, the roles those of [k] exchanges. *)
Definition settled (k : nat) (state : ChatPage.ChatState) : Prop :=
  ChatPage.isLoading state = false
  /\ Forall (fun message => is_Some (ChatPage.bubble_content message))
            (ChatPage.chatHistory state)
  /\ SearchPage.role <$> ChatPage.chatHistory state = conversation k.

(** A trim for the examples: it only knows the single space. *)
Definition trim_spaces (s : string) : string :=
  if String.eqb s " " then "" else s.

End Sources.

(** ** The search page of frontend/app/search/page.tsx *)

Module StockSearch.

Record ChartDataPoint := { date : string; price : float }.

(** A field typed [number | string]. *)
Inductive NumberOrString :=
| Number (value : float)
| Text (value : string).

Record Fundamentals := {
  MarketCap : string;
  TrailingPE : NumberOrString;
  ForwardPE : NumberOrString;
  DebtToEquity : NumberOrString
}.

Record NewsArticle := { title : string; source : string; link : string }.

(** ['1 Day' | '1 Week' | '6 Months' | '1 Year' | '5 Year']. *)
Inductive Timeframe := OneDay | OneWeek | SixMonths | OneYear | FiveYear.

Record HistoricalData := {
  one_day : list ChartDataPoint;
  one_week : list ChartDataPoint;
  six_months : list ChartDataPoint;
  one_year : list ChartDataPoint;
  five_year : list ChartDataPoint
}.

Record AdditionalMetrics := { high_52w : string; low_52w : string }.

(** [interface FullAnalysisData]. *)
Record FullAnalysisData := {
  advice : string;
  reason_summary : string;
  risk_level : string;
  fundamentals : Fundamentals;
  sentiment_score : float;
  sentiment_status : string;
  latest_news : list NewsArticle;
  historical_data : HistoricalData;
  additional_metrics : AdditionalMetrics;
  latest_price : float;
  today_change_percent : float
}.

(** [{ cache: 'no-store', headers: { Accept: 'application/json' } }]. *)
Definition requestOptions : RequestInit :=
  {| method := None;
     headers := [ ("Accept", "application/json") ];
     body := None;
     cache := Some "no-store" |}.

Definition API_URL (ticker : string) : string :=
  "https://aifsa.onrender.com/api/full-analysis/" +:+ ticker.

Section Page.
Variable network : Network FullAnalysisData.
(** The platform's [String.prototype.toUpperCase]. *)
Variable toUpperCase : string -> string.
(** [window.location.pathname]. *)
Variable pathname : string.

(** [getFullAnalysis]: [None] is [null]. *)
Definition getFullAnalysis (ticker : string) : Async (option FullAnalysisData) :=
  try_catch
    (response <- fetch network (API_URL ticker) requestOptions ;;
     if negb (ok response) then
       throw (mkError ("Full Analysis fetch error: " +:+ statusText response
                       +:+ " (" +:+ pretty (status response) +:+ ")"))
     else
       result <- await_json response ;;
       if String.eqb (advice result) "HOLD"
          && includes (reason_summary result) "Not enough data"
       then throw (mkError "Data not found for this ticker in yfinance.")
       else ret (Some result))
    (fun error =>
       console_error "Full Analysis Data Fetching Error:" ;;
       ret None).

(** The state of [SingleStockSearchPage], and the URL handed to the last
    [window.history.pushState] ([None] before the first): the text the page
    passes, which the browser then resolves against the address of the page. *)
Record SearchState := {
  ticker : string;
  analysisData : option FullAnalysisData;
  isLoading : bool;
  error : option string;
  pushedUrl : option string
}.

(** The page as it is opened. *)
Definition opened : SearchState :=
  {| ticker := ""; analysisData := None; isLoading := false; error := None;
     pushedUrl := None |}.

(** [handleSearch]: the state it leaves when it has run to its end. *)
Definition handleSearch (searchTicker : string) (state : SearchState) : Async SearchState :=
  if String.eqb searchTicker "" then
    ret {| ticker := ticker state;
           analysisData := analysisData state;
           isLoading := isLoading state;
           error := Some "Please enter a stock ticker (e.g., RELIANCE).";
           pushedUrl := pushedUrl state |}
  else
    data <- getFullAnalysis (toUpperCase searchTicker) ;;
    match data with
    | Some data =>
        ret {| ticker := ticker state;
               analysisData := Some data;
               isLoading := false;
               error := None;
               pushedUrl := Some ("?ticker=" +:+ searchTicker) |}
    | None =>
        ret {| ticker := ticker state;
               analysisData := None;
               isLoading := false;
               error := Some ("Failed to load data for " +:+ searchTicker
                              +:+ ". Check the ticker or try again.");
               pushedUrl := Some ("?ticker=" +:+ searchTicker) |}
    end.

Definition handleBack (state : SearchState) : SearchState :=
  {| ticker := "";
     analysisData := None;
     isLoading := isLoading state;
     error := None;
     pushedUrl := Some pathname |}.

(** What happens to the page: the effect that runs when it is mounted,
    with the [ticker] parameter of the address if there is one; typing in
    the box; the search button or the Enter key; the New Search button. *)
Inductive Action :=
| Mounted (tickerFromUrl : option string)
| Typed (value : string)
| SearchClicked
| BackClicked.

(** The box and the search button are rendered only while there is no
    [analysisData], the New Search button only while there is some. *)
Definition act (action : Action) (state : SearchState) : Async SearchState :=
  match action with
  | Mounted (Some (String _ _ as tickerFromUrl)) =>
      handleSearch tickerFromUrl
        {| ticker := tickerFromUrl;
           analysisData := analysisData state;
           isLoading := isLoading state;
           error := error state;
           pushedUrl := pushedUrl state |}
  | Mounted _ => ret state
  | Typed value =>
      match analysisData state with
      | Some _ => ret state
      | None =>
          ret {| ticker := toUpperCase value;
                 analysisData := analysisData state;
                 isLoading := isLoading state;
                 error := error state;
                 pushedUrl := pushedUrl state |}
      end
  | SearchClicked =>
      match analysisData state with
      | Some _ => ret state
      | None => handleSearch (ticker state) state
      end
  | BackClicked =>
      match analysisData state with
      | Some _ => ret (handleBack state)
      | None => ret state
      end
  end.

(** The actions one after the other, each handler running to its end. *)
Fixpoint session (actions : list Action) (state : SearchState) : Async SearchState :=
  match actions with
  | [] => ret state
  | action :: rest => state' <- act action state ;; session rest state'
  end.

End Page.

End StockSearch.

(** ** More vocabulary: the search page *)

Module Search.

(** The answer that stands for an unknown ticker: the advice is "HOLD" and
    the reason mentions "Not enough data". *)
Definition not_enough_data (result : StockSearch.FullAnalysisData) : Prop :=
  StockSearch.advice result = "HOLD"
  /\ includes (StockSearch.reason_summary result) "Not enough data" = true.

(** The outcomes of the fetch for which there is no analysis to show. *)
Definition unavailable (outcome : FetchOutcome StockSearch.FullAnalysisData) : Prop :=
  match outcome with
  | Rejected _ => True
  | Resolved response =>
      ok response = false
      \/ (exists error, json response = inl error)
      \/ (exists result, json response = inr result /\ not_enough_data result)
  end.

(** The page shows an analysis or an error, never both, and is not loading. *)
Definition coherent (state : StockSearch.SearchState) : Prop :=
  StockSearch.isLoading state = false
  /\ (StockSearch.analysisData state = None \/ StockSearch.error state = None)
  /\ (is_Some (StockSearch.analysisData state) -> StockSearch.ticker state <> "").

Definition no_series : StockSearch.HistoricalData :=
  {| StockSearch.one_day := []; StockSearch.one_week := []; StockSearch.six_months := [];
     StockSearch.one_year := []; StockSearch.five_year := [] |}.

Definition analysis_of (advice reason : string) : StockSearch.FullAnalysisData :=
  {| StockSearch.advice := advice;
     StockSearch.reason_summary := reason;
     StockSearch.risk_level := "Low";
     StockSearch.fundamentals :=
       {| StockSearch.MarketCap := "19.9T";
          StockSearch.TrailingPE := StockSearch.Number 28.5%float;
          StockSearch.ForwardPE := StockSearch.Text "N/A";
          StockSearch.DebtToEquity := StockSearch.Number 0.5%float |};
     StockSearch.sentiment_score := 0.25%float;
     StockSearch.sentiment_status := "Positive";
     StockSearch.latest_news := [];
     StockSearch.historical_data := no_series;
     StockSearch.additional_metrics :=
       {| StockSearch.high_52w := "3200"; StockSearch.low_52w := "2200" |};
     StockSearch.latest_price := 2950.5%float;
     StockSearch.today_change_percent := 1.25%float |}.

(** The backend knows RELIANCE and answers the unknown-ticker analysis for
    anything else. *)
Definition backend : Network StockSearch.FullAnalysisData :=
  fun _ url _ =>
    if String.eqb url (StockSearch.API_URL "RELIANCE")
    then Resolved (Scenarios.response_of 200 "OK" (analysis_of "BUY" "Strong momentum"))
    else Resolved (Scenarios.response_of 200 "OK"
                     (analysis_of "HOLD" "Not enough data to analyse")).

(** An upper-casing for the examples: it knows one ticker. *)
Definition upper (s : string) : string :=
  if String.eqb s "reliance" then "RELIANCE" else s.

End Search.

(** ** The page component of frontend/app/trending/page.tsx *)

Module TrendingClient.
Import TrendingPage.

(** The state of [TrendingPageClient]. *)
Record PageState := {
  stocks : list RankedTrendingStock;
  isLoading : bool;
  selectedStock : option RankedTrendingStock
}.

(** [useState([])], [useState(true)], [useState(null)]. *)
Definition mounted : PageState :=
  {| stocks := []; isLoading := true; selectedStock := None |}.

(** [fetchData] of the mount effect: the state it leaves at its end. *)
Definition fetchData (network : Network ApiResponse) (state : PageState) : Async PageState :=
  fetchedStocks <- getTrendingStocks network ;;
  ret {| stocks := fetchedStocks; isLoading := false; selectedStock := selectedStock state |}.

(** [stocks.slice(0, 5)] and [stocks.slice(5)]. *)
Definition top5Stocks (stocks : list RankedTrendingStock) : list RankedTrendingStock :=
  take 5 stocks.
Definition remainingStocks (stocks : list RankedTrendingStock) : list RankedTrendingStock :=
  drop 5 stocks.

(** What the page renders: the loading line, the details of the selected
    stock, or the list page with its title, its empty-state panel, the
    slideshow of the first stocks and the list of the others under the
    heading "Trending List (Rank n onwards)". *)
Inductive View :=
| LoadingView
| DetailsView (stock : RankedTrendingStock)
| ListView (title : string) (emptyState : bool)
    (slideshow : option (list RankedTrendingStock))
    (trendingList : option (Z * list RankedTrendingStock)).

Definition render (state : PageState) : View :=
  if isLoading state then LoadingView
  else
    match selectedStock state with
    | Some stock => DetailsView stock
    | None =>
        let top5Stocks := top5Stocks (stocks state) in
        let remainingStocks := remainingStocks (stocks state) in
        ListView (stockCountText (stocks state))
          (negb (hasData (stocks state)))
          (if Z.of_nat (length top5Stocks) >? 0 then Some top5Stocks else None)
          (if Z.of_nat (length remainingStocks) >? 0
           then Some (Z.of_nat (length top5Stocks) + 1, remainingStocks)
           else None)
    end.

(** The backend answers with seven stocks. *)
Definition seven : list TrendingStock :=
  [ Scenarios.reliance; Scenarios.tcs; Scenarios.reliance; Scenarios.tcs;
    Scenarios.reliance; Scenarios.tcs; Scenarios.reliance ].

Definition seven_network : Network ApiResponse :=
  fun _ _ _ =>
    Resolved (Scenarios.response_of 200 "OK"
                {| success := true; message := "ok"; results := Some seven |}).

End TrendingClient.

(** ** More of frontend/components/StockDetails.tsx: the data and its panels *)

Module StockDetailsComponent.

Record ChartDataPoint := { date : string; price : float }.

(** A value typed [number | string]. *)
Inductive NumberOrString :=
| Number (value : float)
| Text (value : string).

(** [interface DetailedFinancials]: every field is optional. *)
Record DetailedFinancials := {
  MarketCap : option string;
  TrailingPE : option NumberOrString;
  ForwardPE : option NumberOrString;
  DebtToEquity : option NumberOrString;
  status : option string
}.

Record NewsArticle := { title : string; source : string; link : string }.

(** [interface LiveStockDetails].  [historical_data] is an object keyed by
    the label of a timeframe; [additional_metrics] is kept as its entries,
    in the order [Object.entries] gives them. *)
Record LiveStockDetails := {
  advice : string;
  reason_summary : string;
  risk_level : string;
  fundamentals : DetailedFinancials;
  sentiment_score : float;
  sentiment_status : string;
  latest_news : option (list NewsArticle);
  historical_data : gmap string (list ChartDataPoint);
  additional_metrics : list (string * string)
}.

(** The state of [StockDetails]. *)
Record DetailsState := {
  liveDetails : option LiveStockDetails;
  isLoadingDetails : bool;
  activeTimeframe : string
}.

(** [useState(null)], [useState(true)], [useState('1 Week')]. *)
Definition mounted : DetailsState :=
  {| liveDetails := None; isLoadingDetails := true; activeTimeframe := "1 Week" |}.

Definition API_URL (ticker : string) : string :=
  "https://aifsa.onrender.com/api/full-analysis/" +:+ ticker.

(** [{ cache: 'no-store' }]. *)
Definition requestOptions : RequestInit :=
  {| method := None; headers := []; body := None; cache := Some "no-store" |}.

(** [fetchDetails] of the effect: the state it leaves at its end.  The
    [finally] block follows both the [try] and the [catch], which does not
    throw. *)
Definition fetchDetails (network : Network LiveStockDetails) (ticker : string)
    (state : DetailsState) : Async DetailsState :=
  details <- try_catch
               (response <- fetch network (API_URL ticker) requestOptions ;;
                if negb (ok response) then
                  throw (mkError "Failed to fetch detailed stock data")
                else
                  data <- await_json response ;;
                  ret (Some data))
               (fun error =>
                  console_error ("Error fetching details for " +:+ ticker +:+ ":") ;;
                  ret None) ;;
  ret {| liveDetails := details;
         isLoadingDetails := false;
         activeTimeframe := activeTimeframe state |}.

(** One card of "Key Financial Metrics". *)
Record Metric := {
  key : string;
  value : NumberOrString;
  unit : string;
  isHighlight : bool
}.

(** [x ?? 'N/A']. *)
Definition or_NA (x : option NumberOrString) : NumberOrString := default (Text "N/A") x.

Definition initialMetrics (details : LiveStockDetails) : list Metric :=
  [ {| key := "Market Cap"; value := or_NA (Text <$> MarketCap (fundamentals details));
       unit := ""; isHighlight := false |};
    {| key := "P/E Ratio"; value := or_NA (TrailingPE (fundamentals details));
       unit := "x"; isHighlight := false |};
    {| key := "Forward P/E"; value := or_NA (ForwardPE (fundamentals details));
       unit := "x"; isHighlight := false |};
    {| key := "Debt/Equity"; value := or_NA (DebtToEquity (fundamentals details));
       unit := ""; isHighlight := false |} ].

Definition additionalMetricsList (details : LiveStockDetails) : list Metric :=
  map (fun entry : string * string =>
         let (key, value) := entry in
         {| key := key; value := Text value; unit := "";
            isHighlight := includes key "High" || includes key "Low" |})
      (additional_metrics details).

Definition financialMetrics (details : LiveStockDetails) : list Metric :=
  initialMetrics details ++ additionalMetricsList details.

(** One line of the chart. *)
Record Dataset := {
  label : string;
  data : list float;
  borderColor : string;
  backgroundColor : string
}.

Record ChartData := {
  labels : option (list string);
  datasets : list Dataset
}.

Section PriceChart.
(** [new Date(d.date).toLocaleDateString()], the platform's. *)
Variable toLocaleDateString : string -> string.

(** [chartData] of [PriceChart], for the [data] it is rendered with. *)
Definition chartData (data : list ChartDataPoint) : ChartData :=
  match data, last data with
  | first :: _, Some final =>
      let isPositiveTrend := PrimFloat.leb (price first) (price final) in
      let color := if isPositiveTrend then "rgb(16,185,129)" else "rgb(239,68,68)" in
      {| labels := Some (map (fun d => toLocaleDateString (date d)) data);
         datasets :=
           [ {| label := "Closing Price (INR)";
                data := map price data;
                borderColor := color;
                backgroundColor := color +:+ "33" |} ] |}
  | _, _ => {| labels := None; datasets := [] |}
  end.

(** What the chart panel shows for the active timeframe. *)
Inductive ChartPanel :=
| NoChartDataForTimeframe
| NoDataForChart
| Line (chart : ChartData).

(** [historical_data[activeTimeframe] ? <PriceChart .../> : <p>...</p>]; an
    empty series is an array, hence truthy, and [PriceChart] itself turns
    it into its "No data available for chart." line. *)
Definition chartPanel (details : LiveStockDetails) (activeTimeframe : string) : ChartPanel :=
  match historical_data details !! activeTimeframe with
  | None => NoChartDataForTimeframe
  | Some [] => NoDataForChart
  | Some data => Line (chartData data)
  end.

End PriceChart.

(** What [StockDetails] renders. *)
Inductive View :=
| LoadingView
| ErrorView
| DetailsView (details : LiveStockDetails).

Definition render (state : DetailsState) : View :=
  if isLoadingDetails state then LoadingView
  else match liveDetails state with
       | None => ErrorView
       | Some details => DetailsView details
       end.

(** Details with one week of prices and nothing else. *)
Definition week_only : LiveStockDetails :=
  {| advice := "STRONG BUY";
     reason_summary := "Momentum";
     risk_level := "Low";
     fundamentals := {| MarketCap := Some "19.9T"; TrailingPE := None;
                        ForwardPE := Some (Number 24.5%float); DebtToEquity := None;
                        status := None |};
     sentiment_score := 0.5%float;
     sentiment_status := "Positive";
     latest_news := None;
     historical_data :=
       {[ "1 Week" := [ {| date := "2025-01-06"; price := 100%float |};
                        {| date := "2025-01-07"; price := 104.5%float |} ];
          "1 Day" := [] ]};
     additional_metrics := [ ("52W High", "3200"); ("52W Low", "2200"); ("Beta", "1.1") ] |}.

Definition details_network : Network LiveStockDetails :=
  fun _ _ _ => Resolved (Scenarios.response_of 200 "OK" week_only).

Definition iso_date (s : string) : string := s.

End StockDetailsComponent.

(** ** Properties of [exponentialBackoffFetch] *)

Module SearchPageFacts.
Import SearchPage Backoff.

Lemma backoff_delays_S delay n :
  backoff_delays delay (S n) = delay :: backoff_delays (delay * 2) n.
Proof.
  unfold backoff_delays. cbn [seq map]. f_equal.
  - change (Z.of_nat 0) with 0. lia.
  - rewrite <- seq_shift, map_map. apply map_ext. intros k.
    rewrite Nat2Z.inj_succ, Z.pow_succ_r by lia. lia.
Qed.

Lemma sum_backoff_delays delay n :
  foldr Z.add 0 (backoff_delays delay n) = delay * (2 ^ Z.of_nat n - 1).
Proof.
  revert delay. induction n as [|n IH]; intros delay.
  - cbn. lia.
  - rewrite backoff_delays_S. cbn [foldr]. rewrite IH.
    rewrite Nat2Z.inj_succ, Z.pow_succ_r by lia. lia.
Qed.

Lemma total_wait_app w ds :
  total_wait {| fetches := fetches w; timers := timers w ++ ds; console := console w |}
  = total_wait w + foldr Z.add 0 ds.
Proof.
  unfold total_wait. cbn [timers]. induction (timers w) as [|d l IH]; cbn [app foldr]; lia.
Qed.

Section Loop.
Context {J : Type}.
Variable network : Network J.
Variables (url : string) (options : RequestInit) (maxRetries : Z).

(** One pass of the loop, case by case.  The status of a response that
    is not a success plays no part: what is thrown in the [try] block
    reaches the [catch] block, which retries while attempts remain. *)
Lemma attempt_body_cases attempt delay w :
  attempt_body network url options maxRetries attempt delay w =
  match network (fetches w) url options with
  | Resolved response =>
      if ok response then (Normal (Return response), fetched w)
      else if attempt <? maxRetries - 1
           then (Normal (Continue (delay * 2)), slept delay (fetched w))
           else (Thrown (mkError ("API error: " +:+ statusText response)), fetched w)
  | Rejected error =>
      if attempt <? maxRetries - 1
      then (Normal (Continue (delay * 2)), slept delay (fetched w))
      else (Thrown error, fetched w)
  end.
Proof.
  unfold attempt_body, try_catch, bind, fetch.
  destruct (network (fetches w) url options) as [response|error].
  - destruct (ok response); [reflexivity|].
    destruct (status response =? 429); destruct (attempt <? maxRetries - 1); reflexivity.
  - destruct (attempt <? maxRetries - 1); reflexivity.
Qed.

Lemma for_loop_S fuel attempt delay w :
  for_loop network url options maxRetries (S fuel) attempt delay w =
  if attempt <? maxRetries then
    match attempt_body network url options maxRetries attempt delay w with
    | (Normal (Return response), w') => (Normal response, w')
    | (Normal (Continue delay'), w') =>
        for_loop network url options maxRetries fuel (attempt + 1) delay' w'
    | (Thrown e, w') => (Thrown e, w')
    | (OutOfFuel, w') => (OutOfFuel, w')
    end
  else (Thrown (mkError "Failed to fetch after all retries."), w).
Proof.
  cbn [for_loop]. destruct (attempt <? maxRetries); [|reflexivity].
  unfold bind. destruct (attempt_body _ _ _ _ _ _ w) as [[[d|r]|e|] w']; reflexivity.
Qed.

Lemma for_loop_done fuel attempt delay w :
  maxRetries <= attempt ->
  for_loop network url options maxRetries fuel attempt delay w =
  (Thrown (mkError "Failed to fetch after all retries."), w).
Proof.
  intros H. destruct fuel; cbn [for_loop];
    destruct (Z.ltb_spec attempt maxRetries); try lia; reflexivity.
Qed.

(** What every run of the loop looks like: it ends (the fuel suffices),
    it sleeps [n] times with doubling delays and fetches [n + 1] times,
    [n + 1] being at most the number of attempts left, and what it
    returns is a success. *)
Lemma for_loop_trace fuel attempt delay w :
  attempt < maxRetries ->
  maxRetries - attempt <= Z.of_nat fuel ->
  exists (n : nat) completion,
    for_loop network url options maxRetries fuel attempt delay w =
    (completion,
     {| fetches := fetches w + n + 1;
        timers := timers w ++ backoff_delays delay n;
        console := console w |})
    /\ attempt + Z.of_nat n < maxRetries
    /\ completion <> OutOfFuel
    /\ (forall response, completion = Normal response -> ok response = true).
Proof.
  revert attempt delay w.
  induction fuel as [|fuel IH]; intros attempt delay w Hlt Hfuel; [lia|].
  rewrite for_loop_S, attempt_body_cases.
  destruct (Z.ltb_spec attempt maxRetries) as [_|]; [|lia].
  assert (Hstop : forall c : Completion (Response J),
             c <> OutOfFuel ->
             (forall response, c = Normal response -> ok response = true) ->
             exists (n : nat) completion,
               (c, fetched w) =
               (completion,
                {| fetches := fetches w + n + 1;
                   timers := timers w ++ backoff_delays delay n;
                   console := console w |})
               /\ attempt + Z.of_nat n < maxRetries
               /\ completion <> OutOfFuel
               /\ (forall response, completion = Normal response -> ok response = true)).
  { intros c Hc Hok. exists 0%nat, c. repeat split; try assumption; try lia.
    unfold fetched, backoff_delays. cbn [seq map]. rewrite app_nil_r.
    do 2 f_equal. lia. }
  assert (Hgo : attempt < maxRetries - 1 ->
             exists (n : nat) completion,
               for_loop network url options maxRetries fuel (attempt + 1) (delay * 2)
                 (slept delay (fetched w)) =
               (completion,
                {| fetches := fetches w + n + 1;
                   timers := timers w ++ backoff_delays delay n;
                   console := console w |})
               /\ attempt + Z.of_nat n < maxRetries
               /\ completion <> OutOfFuel
               /\ (forall response, completion = Normal response -> ok response = true)).
  { intros Hmore.
    destruct (IH (attempt + 1) (delay * 2) (slept delay (fetched w)))
      as (n & c & Heq & Hn & Hc & Hok); [lia|lia|].
    exists (S n), c. repeat split; try assumption; try lia.
    rewrite Heq. cbn [slept fetched fetches timers console].
    rewrite backoff_delays_S, <- app_assoc. cbn [app]. do 2 f_equal. lia. }
  destruct (network (fetches w) url options) as [response|error].
  - destruct (ok response) eqn:Hok.
    + apply Hstop; [discriminate|]. intros r [= <-]. exact Hok.
    + destruct (Z.ltb_spec attempt (maxRetries - 1)).
      * apply Hgo; assumption.
      * apply Hstop; [discriminate|]. intros r [=].
  - destruct (Z.ltb_spec attempt (maxRetries - 1)).
    + apply Hgo; assumption.
    + apply Hstop; [discriminate|]. intros r [=].
Qed.

(** [N] answers 429 and then a success, with attempts to spare. *)
Lemma for_loop_retries_then_succeeds (N : nat) :
  forall fuel attempt delay w response,
    attempt + Z.of_nat N < maxRetries ->
    (N < fuel)%nat ->
    (forall k, (k < N)%nat -> rate_limited (network (fetches w + k)%nat url options)) ->
    network (fetches w + N)%nat url options = Resolved response ->
    ok response = true ->
    for_loop network url options maxRetries fuel attempt delay w =
    (Normal response,
     {| fetches := fetches w + N + 1;
        timers := timers w ++ backoff_delays delay N;
        console := console w |}).
Proof.
  induction N as [|N IH]; intros fuel attempt delay w response Hlt Hfuel H429 Hnet Hok;
    (destruct fuel as [|fuel]; [lia|]);
    rewrite for_loop_S, attempt_body_cases;
    (destruct (Z.ltb_spec attempt maxRetries) as [_|]; [|lia]).
  - rewrite Nat.add_0_r in Hnet. rewrite Hnet, Hok.
    unfold fetched, backoff_delays. cbn [seq map]. rewrite app_nil_r.
    do 2 f_equal. lia.
  - pose proof (H429 0%nat ltac:(lia)) as H0. rewrite Nat.add_0_r in H0.
    destruct (network (fetches w) url options) as [r|e]; [|contradiction].
    destruct H0 as [Hr _]. rewrite Hr.
    destruct (Z.ltb_spec attempt (maxRetries - 1)); [|lia].
    rewrite (IH fuel (attempt + 1) (delay * 2) (slept delay (fetched w)) response).
    + cbn [slept fetched fetches timers console].
      rewrite backoff_delays_S, <- app_assoc. cbn [app]. do 2 f_equal. lia.
    + lia.
    + lia.
    + intros k Hk. cbn [slept fetched fetches].
      replace (S (fetches w) + k)%nat with (fetches w + S k)%nat by lia.
      apply H429. lia.
    + cbn [slept fetched fetches].
      replace (S (fetches w) + N)%nat with (fetches w + S N)%nat by lia.
      exact Hnet.
    + exact Hok.
Qed.

(** Nothing but 429: every attempt is spent, the last one throws. *)
Lemma for_loop_always_rate_limited fuel :
  forall attempt delay w,
    (forall k, rate_limited (network k url options)) ->
    attempt < maxRetries ->
    maxRetries - attempt <= Z.of_nat fuel ->
    exists error,
      for_loop network url options maxRetries fuel attempt delay w =
      (Thrown error,
       {| fetches := fetches w + Z.to_nat (maxRetries - 1 - attempt) + 1;
          timers := timers w ++ backoff_delays delay (Z.to_nat (maxRetries - 1 - attempt));
          console := console w |}).
Proof.
  induction fuel as [|fuel IH]; intros attempt delay w H429 Hlt Hfuel; [lia|].
  rewrite for_loop_S, attempt_body_cases.
  destruct (Z.ltb_spec attempt maxRetries) as [_|]; [|lia].
  pose proof (H429 (fetches w)) as H0.
  destruct (network (fetches w) url options) as [r|e]; [|contradiction].
  destruct H0 as [Hr _]. rewrite Hr.
  destruct (Z.ltb_spec attempt (maxRetries - 1)) as [Hmore|Hlast].
  - destruct (IH (attempt + 1) (delay * 2) (slept delay (fetched w)) H429)
      as [error Heq]; [lia|lia|].
    exists error. rewrite Heq. cbn [slept fetched fetches timers console].
    replace (Z.to_nat (maxRetries - 1 - attempt))
      with (S (Z.to_nat (maxRetries - 1 - (attempt + 1)))) by lia.
    rewrite backoff_delays_S, <- app_assoc. cbn [app]. do 2 f_equal. lia.
  - eexists. replace (maxRetries - 1 - attempt) with 0 by lia.
    change (Z.to_nat 0) with 0%nat.
    unfold fetched, backoff_delays. cbn [seq map]. rewrite app_nil_r.
    do 2 f_equal. lia.
Qed.

(** No execution waits longer than [1000 * (2^(maxRetries-1) - 1)] ms. *)
Lemma wait_bounded w :
  1 <= maxRetries ->
  waited w (snd (exponentialBackoffFetch network url options maxRetries w))
  <= 1000 * (2 ^ (maxRetries - 1) - 1).
Proof.
  intros Hmax. unfold exponentialBackoffFetch, waited.
  destruct (for_loop_trace (Z.to_nat maxRetries) 0 1000 w)
    as (n & c & Heq & Hn & _); [lia|lia|].
  rewrite Heq. cbn [snd].
  rewrite (total_wait_app {| fetches := fetches w + n + 1;
                             timers := timers w; console := console w |}).
  unfold total_wait. cbn [timers]. rewrite sum_backoff_delays.
  assert (2 ^ Z.of_nat n <= 2 ^ (maxRetries - 1)) by (apply Z.pow_le_mono_r; lia).
  lia.
Qed.

End Loop.

(** C1 (as the code behaves).  With [maxRetries = 5], a first answer with
    status 500 (not a success, not 429) and a second answer 200, the
    wrapper does not fail on the first attempt: it waits 1000 ms, issues a
    second [fetch] and returns the second response. *)
Theorem server_error_is_retried :
  exponentialBackoffFetch Scenarios.server_error_then_ok "/chat" Scenarios.post 5 World0
  = (Normal Scenarios.success, {| fetches := 2; timers := [1000]; console := [] |}).
Proof. vm_compute. reflexivity. Qed.

(** C2 (as stated, refuted).  With [maxRetries = 5] the worst-case wait is
    not [1000 * (2^5 - 1)] ms: no execution waits that long. *)
Lemma worst_case_wait_is_not_2_pow_maxRetries :
  ~ worst_case_wait 5 (1000 * (2 ^ 5 - 1)).
Proof.
  intros [_ (J & network & url & options & w & Heq)].
  pose proof (wait_bounded network url options 5 w ltac:(lia)) as Hle.
  rewrite Heq in Hle. vm_compute in Hle. apply Hle. reflexivity.
Qed.

(** C2 (amended).  For every [maxRetries >= 1], the worst-case total wait
    of [exponentialBackoffFetch] is [1000 * (2^(maxRetries-1) - 1)] ms: no
    execution waits longer (there is no wait after the last attempt), and
    the execution in which every attempt is answered 429 waits exactly
    that long. *)
Theorem worst_case_wait_exact maxRetries :
  1 <= maxRetries ->
  worst_case_wait maxRetries (1000 * (2 ^ (maxRetries - 1) - 1)).
Proof.
  intros Hmax. split.
  - intros J network url options w. apply wait_bounded. exact Hmax.
  - exists unit, Scenarios.always_429, "", Scenarios.post, World0.
    unfold exponentialBackoffFetch.
    destruct (for_loop_always_rate_limited Scenarios.always_429 "" Scenarios.post
                maxRetries (Z.to_nat maxRetries) 0 1000 World0)
      as [error Heq]; [intros k; split; reflexivity|lia|lia|].
    rewrite Heq. unfold waited. cbn [snd].
    rewrite (total_wait_app {| fetches := fetches World0 + Z.to_nat (maxRetries - 1 - 0) + 1;
                               timers := timers World0; console := console World0 |}).
    rewrite sum_backoff_delays. unfold total_wait. cbn [timers World0 foldr].
    rewrite Z2Nat.id by lia. replace (maxRetries - 1 - 0) with (maxRetries - 1) by lia. lia.
Qed.

Lemma worst_case_wait_exact_witness :
  1 <= 5 /\ worst_case_wait 5 (1000 * (2 ^ (5 - 1) - 1)).
Proof. split; [lia | apply (worst_case_wait_exact 5); lia]. Defined.

(** C3.  [exponentialBackoffFetch] issues at most [maxRetries] fetches in
    every execution; and with [maxRetries = 5], when every attempt is
    answered 429, it throws after exactly 5 attempts (having waited 1000,
    2000, 4000 and 8000 ms between them). *)
Theorem at_most_maxRetries_attempts :
  (forall (J : Type) (network : Network J) url options maxRetries w,
      0 <= maxRetries ->
      attempts w (snd (exponentialBackoffFetch network url options maxRetries w))
      <= maxRetries)
  /\ (forall (J : Type) (network : Network J) url options w,
      (forall k, rate_limited (network k url options)) ->
      exists error w',
        exponentialBackoffFetch network url options 5 w = (Thrown error, w')
        /\ attempts w w' = 5
        /\ timers w' = timers w ++ [1000; 2000; 4000; 8000]).
Proof.
  split.
  - intros J network url options maxRetries w Hmax. unfold exponentialBackoffFetch, attempts.
    destruct (Z.eq_dec maxRetries 0) as [->|Hpos].
    + rewrite for_loop_done by lia. cbn [snd]. lia.
    + destruct (for_loop_trace network url options maxRetries (Z.to_nat maxRetries) 0 1000 w)
        as (n & c & Heq & Hn & _); [lia|lia|].
      rewrite Heq. cbn [snd fetches]. lia.
  - intros J network url options w H429. unfold exponentialBackoffFetch.
    destruct (for_loop_always_rate_limited network url options 5 (Z.to_nat 5) 0 1000 w H429)
      as [error Heq]; [lia|vm_compute; discriminate|].
    eexists error, _. split; [exact Heq|]. split.
    + unfold attempts. cbn [fetches]. change (Z.to_nat (5 - 1 - 0)) with 4%nat. lia.
    + reflexivity.
Qed.

Lemma at_most_maxRetries_attempts_witness :
  attempts World0
    (snd (exponentialBackoffFetch Scenarios.always_429 "/chat" Scenarios.post 5 World0)) <= 5
  /\ exists error w',
      exponentialBackoffFetch Scenarios.always_429 "/chat" Scenarios.post 5 World0
      = (Thrown error, w')
      /\ attempts World0 w' = 5
      /\ timers w' = timers World0 ++ [1000; 2000; 4000; 8000].
Proof.
  split.
  - apply (proj1 at_most_maxRetries_attempts). lia.
  - apply (proj2 at_most_maxRetries_attempts). intros k. split; reflexivity.
Defined.

(** C4.  For every [N] with [N + 1 <= maxRetries], when the first [N]
    attempts are answered 429 and the next one succeeds,
    [exponentialBackoffFetch] returns that successful response after
    exactly [N + 1] attempts, having waited 1000, 2000, ..., 1000 * 2^(N-1)
    ms, which add up to [1000 * (2^N - 1)] ms. *)
Theorem retries_then_succeeds :
  forall (J : Type) (network : Network J) url options maxRetries (N : nat) w response,
    Z.of_nat N + 1 <= maxRetries ->
    (forall k, (k < N)%nat -> rate_limited (network (fetches w + k)%nat url options)) ->
    network (fetches w + N)%nat url options = Resolved response ->
    ok response = true ->
    exists w',
      exponentialBackoffFetch network url options maxRetries w = (Normal response, w')
      /\ attempts w w' = Z.of_nat N + 1
      /\ timers w' = timers w ++ backoff_delays 1000 N
      /\ waited w w' = 1000 * (2 ^ Z.of_nat N - 1).
Proof.
  intros J network url options maxRetries N w response Hmax H429 Hnet Hok.
  eexists. split; [|split; [|split]].
  - unfold exponentialBackoffFetch.
    apply (for_loop_retries_then_succeeds network url options maxRetries N); try assumption; lia.
  - unfold attempts. cbn [fetches]. lia.
  - reflexivity.
  - unfold waited.
    rewrite (total_wait_app {| fetches := fetches w + N + 1;
                               timers := timers w; console := console w |}).
    rewrite sum_backoff_delays. unfold total_wait. cbn [timers]. lia.
Qed.

Lemma retries_then_succeeds_witness :
  exists w',
    exponentialBackoffFetch Scenarios.twice_429_then_ok "/chat" Scenarios.post 5 World0
    = (Normal Scenarios.success, w')
    /\ attempts World0 w' = Z.of_nat 2 + 1
    /\ timers w' = timers World0 ++ backoff_delays 1000 2
    /\ waited World0 w' = 1000 * (2 ^ Z.of_nat 2 - 1).
Proof.
  apply (retries_then_succeeds unit Scenarios.twice_429_then_ok "/chat" Scenarios.post 5 2
           World0 Scenarios.success).
  - vm_compute. discriminate.
  - intros k Hk. destruct k as [|[|k]]; [split; reflexivity|split; reflexivity|lia].
  - reflexivity.
  - reflexivity.
Defined.

(** C9.  Whatever the network does, [exponentialBackoffFetch] ends either
    by returning a response that satisfies [response.ok] or by throwing an
    error: it never returns a response that is not a success. *)
Theorem returns_ok_or_throws :
  forall (J : Type) (network : Network J) url options maxRetries w,
    let completion := fst (exponentialBackoffFetch network url options maxRetries w) in
    (exists response, completion = Normal response /\ ok response = true)
    \/ (exists error, completion = Thrown error).
Proof.
  intros J network url options maxRetries w. cbv zeta. unfold exponentialBackoffFetch.
  destruct (Z.le_gt_cases maxRetries 0) as [Hle|Hpos].
  - rewrite for_loop_done by lia. right. eexists. reflexivity.
  - destruct (for_loop_trace network url options maxRetries (Z.to_nat maxRetries) 0 1000 w)
      as (n & c & Heq & _ & Hfuel & Hok); [lia|lia|].
    rewrite Heq. cbn [fst]. destruct c as [response|error|].
    + left. exists response. split; [reflexivity|]. apply Hok. reflexivity.
    + right. exists error. reflexivity.
    + contradiction.
Qed.

End SearchPageFacts.

(** ** Properties of [getTrendingStocks] *)

Module TrendingPageFacts.
Import TrendingPage Trending.

(** What [getTrendingStocks] computes, by the outcome of its one fetch. *)
Lemma getTrendingStocks_cases (network : Network ApiResponse) w :
  getTrendingStocks network w =
  match network (fetches w) API_URL requestOptions with
  | Resolved response =>
      if ok response then
        match json response with
        | inr result =>
            if success result then
              (Normal (imap (fun index stock => spread_with_rank stock (Z.of_nat index + 1))
                         (default [] (results result))),
               fetched w)
            else (Normal [], logged "Data Fetching Error:" (fetched w))
        | inl _ => (Normal [], logged "Data Fetching Error:" (fetched w))
        end
      else (Normal [], logged "Data Fetching Error:" (fetched w))
  | Rejected _ => (Normal [], logged "Data Fetching Error:" (fetched w))
  end.
Proof.
  unfold getTrendingStocks, try_catch, bind, fetch.
  destruct (network (fetches w) API_URL requestOptions) as [response|error]; [|reflexivity].
  destruct (ok response); [|reflexivity]. cbn [negb]. unfold await_json.
  destruct (json response) as [error|result]; [reflexivity|].
  unfold ret at 1. destruct (success result); reflexivity.
Qed.

(** Ranking adds a field and changes no other, whatever the ranks are. *)
Lemma unranked_spread (rank_of : nat -> Z) (stocks : list TrendingStock) :
  map unranked (imap (fun index stock => spread_with_rank stock (rank_of index)) stocks)
  = stocks.
Proof.
  revert rank_of. induction stocks as [|stock stocks IH]; intros rank_of; [reflexivity|].
  cbn [imap map]. f_equal.
  - destruct stock; reflexivity.
  - apply (IH (fun index => rank_of (S index))).
Qed.

(** C5.  When the endpoint answers successfully with a list of stocks,
    [getTrendingStocks] returns as many ranked stocks, in the same order:
    the one at position [index] is the stock received at that position
    with [rank = index + 1]. *)
Theorem rank_is_index_plus_one :
  forall (network : Network ApiResponse) w response result stocks,
    network (fetches w) API_URL requestOptions = Resolved response ->
    ok response = true ->
    json response = inr result ->
    success result = true ->
    results result = Some stocks ->
    exists ranked w',
      getTrendingStocks network w = (Normal ranked, w')
      /\ length ranked = length stocks
      /\ map unranked ranked = stocks
      /\ forall (index : nat) stock,
          stocks !! index = Some stock ->
          ranked !! index = Some (spread_with_rank stock (Z.of_nat index + 1))
          /\ (rank <$> ranked !! index) = Some (Z.of_nat index + 1).
Proof.
  intros network w response result stocks Hnet Hok Hjson Hsuccess Hresults.
  rewrite getTrendingStocks_cases, Hnet, Hok, Hjson, Hsuccess, Hresults.
  change (default [] (Some stocks)) with stocks.
  eexists _, _. split; [reflexivity|]. split; [apply length_imap|]. split.
  - apply (unranked_spread (fun index => Z.of_nat index + 1)).
  - intros index stock Hlookup. rewrite list_lookup_imap, Hlookup. split; reflexivity.
Qed.

Lemma rank_is_index_plus_one_witness :
  exists ranked w',
    getTrendingStocks Scenarios.trending_network World0 = (Normal ranked, w')
    /\ length ranked = length [ Scenarios.reliance; Scenarios.tcs ]
    /\ map unranked ranked = [ Scenarios.reliance; Scenarios.tcs ]
    /\ forall (index : nat) stock,
        [ Scenarios.reliance; Scenarios.tcs ] !! index = Some stock ->
        ranked !! index = Some (spread_with_rank stock (Z.of_nat index + 1))
        /\ (rank <$> ranked !! index) = Some (Z.of_nat index + 1).
Proof.
  apply (rank_is_index_plus_one Scenarios.trending_network World0
           (Scenarios.response_of 200 "OK"
              {| success := true; message := "ok";
                 results := Some [ Scenarios.reliance; Scenarios.tcs ] |})
           {| success := true; message := "ok";
              results := Some [ Scenarios.reliance; Scenarios.tcs ] |}
           [ Scenarios.reliance; Scenarios.tcs ]); reflexivity.
Defined.

(** C8.  Whatever the outcome of its fetch, [getTrendingStocks] returns
    normally (it never throws), having issued exactly one fetch and set no
    timer (no retry); and when the fetch failed (a rejected promise, a
    response that is not ok, [success = false], or a body that does not
    parse) it has logged the error and returns the empty list, for which
    the page has no data to show and renders its empty state. *)
Theorem getTrendingStocks_never_throws :
  forall (network : Network ApiResponse) w,
    exists stocks w',
      getTrendingStocks network w = (Normal stocks, w')
      /\ Backoff.attempts w w' = 1
      /\ timers w' = timers w
      /\ (fetch_failed (network (fetches w) API_URL requestOptions) ->
          stocks = []
          /\ console w' = console w ++ [ "Data Fetching Error:" ]
          /\ hasData stocks = false
          /\ stockCountText stocks = "No Trending Stocks Found").
Proof.
  intros network w. rewrite getTrendingStocks_cases.
  assert (Hone : Backoff.attempts w (fetched w) = 1)
    by (unfold Backoff.attempts; cbn [fetched fetches]; lia).
  assert (Hempty : exists stocks w',
             (Normal [], logged "Data Fetching Error:" (fetched w))
             = (@Normal (list RankedTrendingStock) stocks, w')
             /\ Backoff.attempts w w' = 1
             /\ timers w' = timers w
             /\ (fetch_failed (network (fetches w) API_URL requestOptions) ->
                 stocks = []
                 /\ console w' = console w ++ [ "Data Fetching Error:" ]
                 /\ hasData stocks = false
                 /\ stockCountText stocks = "No Trending Stocks Found")).
  { eexists _, _. split; [reflexivity|]. repeat split. exact Hone. }
  destruct (network (fetches w) API_URL requestOptions) as [response|error] eqn:Hnet;
    [|exact Hempty].
  destruct (ok response) eqn:Hok; [|exact Hempty].
  destruct (json response) as [error|result] eqn:Hjson; [exact Hempty|].
  destruct (success result) eqn:Hsuccess; [|exact Hempty].
  eexists _, _. split; [reflexivity|]. split; [exact Hone|]. split; [reflexivity|].
  cbn [fetch_failed]. intros [Hno|[[error Hno]|(result' & Hres & Hno)]]; try congruence.
Qed.

Lemma getTrendingStocks_never_throws_witness :
  exists stocks w',
    getTrendingStocks Scenarios.unavailable_network World0 = (Normal stocks, w')
    /\ Backoff.attempts World0 w' = 1
    /\ timers w' = timers World0
    /\ stocks = []
    /\ console w' = console World0 ++ [ "Data Fetching Error:" ]
    /\ hasData stocks = false
    /\ stockCountText stocks = "No Trending Stocks Found".
Proof.
  destruct (getTrendingStocks_never_throws Scenarios.unavailable_network World0)
    as (stocks & w' & Hrun & Hone & Htimers & Hfail).
  exists stocks, w'. repeat split; try assumption; apply Hfail; left; reflexivity.
Defined.

End TrendingPageFacts.

(** ** Properties of the sentiment badge *)

Module StockDetailsFacts.
Import StockDetails.

(** C6.  The badge of [StockDetails] takes the green classes for the
    sentiment "Positive", the red classes for "Negative" and the yellow
    classes for "Neutral", and these are the classes that end the
    [className] of the badge. *)
Theorem sentiment_badge_colors :
  sentimentBadgeColor "Positive" = "bg-green-100 text-green-800"
  /\ sentimentBadgeColor "Negative" = "bg-red-100 text-red-800"
  /\ sentimentBadgeColor "Neutral" = "bg-yellow-100 text-yellow-800"
  /\ sentimentBadgeClassName "Positive"
     = "ml-3 px-3 py-1 text-sm font-semibold rounded-full bg-green-100 text-green-800"
  /\ sentimentBadgeClassName "Negative"
     = "ml-3 px-3 py-1 text-sm font-semibold rounded-full bg-red-100 text-red-800"
  /\ sentimentBadgeClassName "Neutral"
     = "ml-3 px-3 py-1 text-sm font-semibold rounded-full bg-yellow-100 text-yellow-800".
Proof. repeat split; reflexivity. Qed.

End StockDetailsFacts.

(** ** Properties of the slideshow *)

Module StockSceneFacts.
Import StockScene.

Section Slideshow.
Context {Stock : Type}.
Variable stocks : list Stock.
Hypothesis nonempty : slides stocks <> [].

Lemma slides_length_pos : 0 < slides_length stocks.
Proof.
  unfold slides_length. destruct (slides stocks); [contradiction|]. cbn [length]. lia.
Qed.

(** One event keeps the index within the slides. *)
Lemma setCurrentIndex_in_bounds event prevIndex :
  rendered stocks event ->
  0 <= prevIndex < slides_length stocks ->
  0 <= setCurrentIndex stocks event prevIndex < slides_length stocks.
Proof.
  pose proof slides_length_pos as Hpos. intros Hrendered Hprev.
  destruct event as [| | | |index]; cbn [setCurrentIndex]; unfold goToPrev, goToNext.
  - apply Z.rem_bound_pos; lia.
  - lia.
  - apply Z.rem_bound_pos; lia.
  - apply Z.rem_bound_pos; lia.
  - cbn [rendered] in Hrendered. unfold slides_length. lia.
Qed.

Lemma fold_in_bounds events :
  Forall (rendered stocks) events ->
  forall currentIndex,
    0 <= currentIndex < slides_length stocks ->
    0 <= fold_left (fun currentIndex event => setCurrentIndex stocks event currentIndex)
           events currentIndex
      < slides_length stocks.
Proof.
  induction 1 as [|event events Hevent _ IH]; intros currentIndex Hin; cbn [fold_left].
  - exact Hin.
  - apply IH. apply setCurrentIndex_in_bounds; assumption.
Qed.

Lemma current_slide_in_bounds currentIndex :
  0 <= currentIndex < slides_length stocks ->
  is_Some (current_slide stocks currentIndex).
Proof.
  intros Hin. unfold current_slide.
  destruct (Z.ltb_spec currentIndex 0); [lia|].
  apply lookup_lt_is_Some. unfold slides_length in Hin. lia.
Qed.

End Slideshow.

(** C10.  For a slideshow with at least one slide, after any sequence of
    events (the interval's auto-advance, the effect's reset, the previous
    and next buttons, a click on one of the rendered indicators),
    [currentIndex] is at least 0 and less than [slides.length], so that
    [slides[currentIndex]] is a slide. *)
Theorem currentIndex_in_bounds :
  forall (Stock : Type) (stocks : list Stock) (events : list Event),
    slides stocks <> [] ->
    Forall (rendered stocks) events ->
    0 <= currentIndex_after stocks events < slides_length stocks
    /\ is_Some (current_slide stocks (currentIndex_after stocks events)).
Proof.
  intros Stock stocks events Hnonempty Hevents.
  assert (0 <= currentIndex_after stocks events < slides_length stocks) as Hin.
  { apply fold_in_bounds; try assumption.
    pose proof (slides_length_pos stocks Hnonempty). lia. }
  split; [exact Hin|]. apply current_slide_in_bounds. exact Hin.
Qed.

Lemma currentIndex_in_bounds_witness :
  0 <= currentIndex_after [ "a"; "b"; "c" ] [ ClickPrev; AutoAdvance; ClickIndicator 2; ClickNext ]
    < slides_length [ "a"; "b"; "c" ]
  /\ is_Some (current_slide [ "a"; "b"; "c" ]
                (currentIndex_after [ "a"; "b"; "c" ]
                   [ ClickPrev; AutoAdvance; ClickIndicator 2; ClickNext ])).
Proof.
  apply (currentIndex_in_bounds string [ "a"; "b"; "c" ]
           [ ClickPrev; AutoAdvance; ClickIndicator 2; ClickNext ]).
  - discriminate.
  - repeat constructor.
Defined.

End StockSceneFacts.

(** ** More on [exponentialBackoffFetch]: failures of any kind *)

Module RetryFacts.
Import SearchPage Backoff Retry SearchPageFacts.

Section Loop.
Context {J : Type}.
Variable network : Network J.
Variables (url : string) (options : RequestInit) (maxRetries : Z).

(** [N] failed attempts of any kind and then a success, within the budget. *)
Lemma for_loop_failures_then_success (N : nat) :
  forall fuel attempt delay w response,
    attempt + Z.of_nat N < maxRetries ->
    (N < fuel)%nat ->
    (forall k, (k < N)%nat -> failed (network (fetches w + k)%nat url options)) ->
    network (fetches w + N)%nat url options = Resolved response ->
    ok response = true ->
    for_loop network url options maxRetries fuel attempt delay w =
    (Normal response,
     {| fetches := fetches w + N + 1;
        timers := timers w ++ backoff_delays delay N;
        console := console w |}).
Proof.
  induction N as [|N IH]; intros fuel attempt delay w response Hlt Hfuel Hfail Hnet Hok;
    (destruct fuel as [|fuel]; [lia|]);
    rewrite for_loop_S, attempt_body_cases;
    (destruct (Z.ltb_spec attempt maxRetries) as [_|]; [|lia]).
  - rewrite Nat.add_0_r in Hnet. rewrite Hnet, Hok.
    unfold fetched, backoff_delays. cbn [seq map]. rewrite app_nil_r.
    do 2 f_equal. lia.
  - pose proof (Hfail 0%nat ltac:(lia)) as H0. rewrite Nat.add_0_r in H0.
    assert (Hnext :
              for_loop network url options maxRetries fuel (attempt + 1) (delay * 2)
                (slept delay (fetched w)) =
              (Normal response,
               {| fetches := fetches w + S N + 1;
                  timers := timers w ++ backoff_delays delay (S N);
                  console := console w |})).
    { rewrite (IH fuel (attempt + 1) (delay * 2) (slept delay (fetched w)) response).
      - cbn [slept fetched fetches timers console].
        rewrite backoff_delays_S, <- app_assoc. cbn [app]. do 2 f_equal. lia.
      - lia.
      - lia.
      - intros k Hk. cbn [slept fetched fetches].
        replace (S (fetches w) + k)%nat with (fetches w + S k)%nat by lia.
        apply Hfail. lia.
      - cbn [slept fetched fetches].
        replace (S (fetches w) + N)%nat with (fetches w + S N)%nat by lia.
        exact Hnet.
      - exact Hok. }
    destruct (Z.ltb_spec attempt (maxRetries - 1)); [|lia].
    destruct (network (fetches w) url options) as [r|e].
    + cbn [failed] in H0. rewrite H0. exact Hnext.
    + exact Hnext.
Qed.

(** A run that throws has spent every attempt: each one failed, the
    delays were all waited, and the error is the one of the last attempt. *)
Lemma for_loop_thrown fuel :
  forall attempt delay w error w',
    attempt < maxRetries ->
    maxRetries - attempt <= Z.of_nat fuel ->
    for_loop network url options maxRetries fuel attempt delay w = (Thrown error, w') ->
    let n := Z.to_nat (maxRetries - 1 - attempt) in
    w' = {| fetches := fetches w + n + 1;
            timers := timers w ++ backoff_delays delay n;
            console := console w |}
    /\ (forall k, (k <= n)%nat -> failed (network (fetches w + k)%nat url options))
    /\ error = attempt_error (network (fetches w + n)%nat url options).
Proof.
  induction fuel as [|fuel IH]; intros attempt delay w error w' Hlt Hfuel Hrun; [lia|].
  rewrite for_loop_S, attempt_body_cases in Hrun.
  destruct (Z.ltb_spec attempt maxRetries) as [_|]; [|lia].
  destruct (Z.ltb_spec attempt (maxRetries - 1)) as [Hmore|Hlast].
  - assert (Hstep : for_loop network url options maxRetries fuel (attempt + 1) (delay * 2)
                      (slept delay (fetched w)) = (Thrown error, w')
                    /\ failed (network (fetches w) url options)).
    { destruct (network (fetches w) url options) as [r|e]; cbn [failed].
      - destruct (ok r); [discriminate|]. split; [exact Hrun|reflexivity].
      - split; [exact Hrun|exact I]. }
    destruct Hstep as [Hnext Hfirst].
    destruct (IH (attempt + 1) (delay * 2) (slept delay (fetched w)) error w')
      as (Hw & Hfail & Herr); [lia|lia|exact Hnext|].
    cbv zeta. cbn [slept fetched fetches timers console] in Hw, Hfail, Herr.
    replace (Z.to_nat (maxRetries - 1 - attempt))
      with (S (Z.to_nat (maxRetries - 1 - (attempt + 1)))) by lia.
    set (n := Z.to_nat (maxRetries - 1 - (attempt + 1))) in *.
    split; [|split].
    + rewrite Hw, backoff_delays_S, <- app_assoc. cbn [app]. do 2 f_equal. lia.
    + intros [|k] Hk.
      * rewrite Nat.add_0_r. exact Hfirst.
      * replace (fetches w + S k)%nat with (S (fetches w) + k)%nat by lia.
        apply Hfail. lia.
    + replace (fetches w + S n)%nat with (S (fetches w) + n)%nat by lia. exact Herr.
  - cbv zeta. replace (maxRetries - 1 - attempt) with 0 by lia.
    change (Z.to_nat 0) with 0%nat. rewrite Nat.add_0_r.
    assert (Hend : (Thrown (attempt_error (network (fetches w) url options)), fetched w)
                   = (@Thrown (Response J) error, w')
                   /\ failed (network (fetches w) url options)).
    { destruct (network (fetches w) url options) as [r|e]; cbn [failed attempt_error].
      - destruct (ok r); [discriminate|]. split; [exact Hrun|reflexivity].
      - split; [exact Hrun|exact I]. }
    destruct Hend as [Heq Hfirst]. injection Heq as <- <-.
    split; [|split].
    + unfold fetched, backoff_delays. cbn [seq map]. rewrite app_nil_r.
      do 2 f_equal. lia.
    + intros k Hk. replace k with 0%nat by lia. rewrite Nat.add_0_r. exact Hfirst.
    + reflexivity.
Qed.

(** When every attempt of the budget fails, the run throws the error of
    the last one. *)
Lemma for_loop_all_failed fuel :
  forall attempt delay w,
    attempt < maxRetries ->
    maxRetries - attempt <= Z.of_nat fuel ->
    (forall k, (k <= Z.to_nat (maxRetries - 1 - attempt))%nat ->
               failed (network (fetches w + k)%nat url options)) ->
    for_loop network url options maxRetries fuel attempt delay w =
    (Thrown (attempt_error
               (network (fetches w + Z.to_nat (maxRetries - 1 - attempt))%nat url options)),
     {| fetches := fetches w + Z.to_nat (maxRetries - 1 - attempt) + 1;
        timers := timers w ++ backoff_delays delay (Z.to_nat (maxRetries - 1 - attempt));
        console := console w |}).
Proof.
  induction fuel as [|fuel IH]; intros attempt delay w Hlt Hfuel Hfail; [lia|].
  rewrite for_loop_S, attempt_body_cases.
  destruct (Z.ltb_spec attempt maxRetries) as [_|]; [|lia].
  pose proof (Hfail 0%nat ltac:(lia)) as H0. rewrite Nat.add_0_r in H0.
  destruct (Z.ltb_spec attempt (maxRetries - 1)) as [Hmore|Hlast].
  - assert (Hnext :
              for_loop network url options maxRetries fuel (attempt + 1) (delay * 2)
                (slept delay (fetched w)) =
              (Thrown (attempt_error
                         (network (fetches w + Z.to_nat (maxRetries - 1 - attempt))%nat
                            url options)),
               {| fetches := fetches w + Z.to_nat (maxRetries - 1 - attempt) + 1;
                  timers := timers w
                            ++ backoff_delays delay (Z.to_nat (maxRetries - 1 - attempt));
                  console := console w |})).
    { rewrite (IH (attempt + 1) (delay * 2) (slept delay (fetched w))); [|lia|lia|].
      - cbn [slept fetched fetches timers console].
        replace (Z.to_nat (maxRetries - 1 - attempt))
          with (S (Z.to_nat (maxRetries - 1 - (attempt + 1)))) by lia.
        rewrite backoff_delays_S, <- app_assoc. cbn [app].
        replace (S (fetches w) + Z.to_nat (maxRetries - 1 - (attempt + 1)))%nat
          with (fetches w + S (Z.to_nat (maxRetries - 1 - (attempt + 1))))%nat by lia.
        reflexivity.
      - intros k Hk. cbn [slept fetched fetches].
        replace (S (fetches w) + k)%nat with (fetches w + S k)%nat by lia.
        apply Hfail. lia. }
    destruct (network (fetches w) url options) as [r|e].
    + cbn [failed] in H0. rewrite H0. exact Hnext.
    + exact Hnext.
  - replace (maxRetries - 1 - attempt) with 0 by lia.
    change (Z.to_nat 0) with 0%nat. rewrite Nat.add_0_r.
    assert (Hw : fetched w = {| fetches := fetches w + 1;
                                timers := timers w ++ backoff_delays delay 0;
                                console := console w |}).
    { unfold fetched, backoff_delays. cbn [seq map]. rewrite app_nil_r. f_equal. lia. }
    rewrite <- Hw.
    destruct (network (fetches w) url options) as [r|e]; cbn [attempt_error].
    + cbn [failed] in H0. rewrite H0. reflexivity.
    + reflexivity.
Qed.

End Loop.

(** X1.  Failures of any kind are retried: when the first [N] attempts
    fail (a rejected fetch, or a response that is not ok, whatever its
    status) and the next one succeeds, with [N + 1 <= maxRetries],
    [exponentialBackoffFetch] returns that response after [N + 1] fetches
    and the waits 1000, 2000, ..., 1000 * 2^(N-1) ms. *)
Theorem first_success_is_returned :
  forall (J : Type) (network : Network J) url options maxRetries (N : nat) w response,
    Z.of_nat N + 1 <= maxRetries ->
    (forall k, (k < N)%nat -> failed (network (fetches w + k)%nat url options)) ->
    network (fetches w + N)%nat url options = Resolved response ->
    ok response = true ->
    exponentialBackoffFetch network url options maxRetries w =
    (Normal response,
     {| fetches := fetches w + N + 1;
        timers := timers w ++ backoff_delays 1000 N;
        console := console w |}).
Proof.
  intros J network url options maxRetries N w response Hmax Hfail Hnet Hok.
  unfold exponentialBackoffFetch.
  apply (for_loop_failures_then_success network url options maxRetries N); try assumption; lia.
Qed.

Lemma first_success_is_returned_witness :
  exponentialBackoffFetch outage_then_ok "/chat" Scenarios.post 5 World0 =
  (Normal Scenarios.success,
   {| fetches := fetches World0 + 2 + 1;
      timers := timers World0 ++ backoff_delays 1000 2;
      console := console World0 |}).
Proof.
  apply (first_success_is_returned unit outage_then_ok "/chat" Scenarios.post 5 2
           World0 Scenarios.success).
  - vm_compute. discriminate.
  - intros k Hk. destruct k as [|[|k]]; [exact I|reflexivity|lia].
  - reflexivity.
  - reflexivity.
Defined.

(** X2.  Without a budget ([maxRetries <= 0]) no fetch is issued at all:
    the call throws "Failed to fetch after all retries." at once. *)
Theorem no_budget_no_fetch :
  forall (J : Type) (network : Network J) url options maxRetries w,
    maxRetries <= 0 ->
    exponentialBackoffFetch network url options maxRetries w =
    (Thrown (mkError "Failed to fetch after all retries."), w).
Proof.
  intros J network url options maxRetries w Hmax. unfold exponentialBackoffFetch.
  apply for_loop_done. lia.
Qed.

Lemma no_budget_no_fetch_witness :
  exponentialBackoffFetch Scenarios.always_429 "/chat" Scenarios.post 0 World0 =
  (Thrown (mkError "Failed to fetch after all retries."), World0).
Proof.
  apply (no_budget_no_fetch unit Scenarios.always_429 "/chat" Scenarios.post 0 World0). lia.
Defined.

(** X3.  With [maxRetries >= 1] the call never gives up early: when it
    throws, all [maxRetries] attempts were made and failed, all
    [maxRetries - 1] delays were waited, and the error thrown is the one of
    the last attempt (the rejection's error, or "API error: " followed by
    the last response's status text). *)
Theorem throws_only_after_all_attempts :
  forall (J : Type) (network : Network J) url options maxRetries w error w',
    1 <= maxRetries ->
    exponentialBackoffFetch network url options maxRetries w = (Thrown error, w') ->
    attempts w w' = maxRetries
    /\ timers w' = timers w ++ backoff_delays 1000 (Z.to_nat (maxRetries - 1))
    /\ waited w w' = 1000 * (2 ^ (maxRetries - 1) - 1)
    /\ (forall k, (k < Z.to_nat maxRetries)%nat ->
        failed (network (fetches w + k)%nat url options))
    /\ error = attempt_error (network (fetches w + Z.to_nat (maxRetries - 1))%nat url options).
Proof.
  intros J network url options maxRetries w error w' Hmax Hrun.
  unfold exponentialBackoffFetch in Hrun.
  apply for_loop_thrown in Hrun; [|lia|lia]. cbv zeta in Hrun.
  replace (maxRetries - 1 - 0) with (maxRetries - 1) in Hrun by lia.
  destruct Hrun as (-> & Hfail & ->).
  split; [|split; [|split; [|split]]].
  - unfold attempts. cbn [fetches]. lia.
  - reflexivity.
  - unfold waited.
    rewrite (total_wait_app {| fetches := fetches w + Z.to_nat (maxRetries - 1) + 1;
                               timers := timers w; console := console w |}).
    rewrite sum_backoff_delays. unfold total_wait. cbn [timers].
    rewrite Z2Nat.id by lia. lia.
  - intros k Hk. apply Hfail. lia.
  - reflexivity.
Qed.

Lemma throws_only_after_all_attempts_witness :
  attempts World0 {| fetches := 3; timers := [1000; 2000]; console := [] |} = 3
  /\ timers {| fetches := 3; timers := [1000; 2000]; console := [] |}
     = timers World0 ++ backoff_delays 1000 (Z.to_nat (3 - 1))
  /\ waited World0 {| fetches := 3; timers := [1000; 2000]; console := [] |}
     = 1000 * (2 ^ (3 - 1) - 1)
  /\ (forall k, (k < Z.to_nat 3)%nat ->
      failed (offline (fetches World0 + k)%nat "/chat" Scenarios.post))
  /\ mkError "Failed to fetch"
     = attempt_error (offline (fetches World0 + Z.to_nat (3 - 1))%nat "/chat" Scenarios.post).
Proof.
  apply (throws_only_after_all_attempts unit offline "/chat" Scenarios.post 3 World0
           (mkError "Failed to fetch") {| fetches := 3; timers := [1000; 2000]; console := [] |}).
  - lia.
  - reflexivity.
Defined.

(** X4.  With [maxRetries >= 1], whatever the network does, at least one
    fetch is issued and at most [maxRetries]; the number of timers set is
    one less than the number of fetches issued, the k-th timer (from 0)
    being of 1000 * 2^k ms, so that [n + 1] fetches come with a wait of
    1000 * (2^n - 1) ms in all; and nothing is written on the console.
    (The world counts the fetches and lists the timers; the order in which
    fetches and timers follow one another in time is not part of the
    statement.) *)
Theorem one_timer_less_than_fetches :
  forall (J : Type) (network : Network J) url options maxRetries w,
    1 <= maxRetries ->
    exists n : nat,
      let w' := snd (exponentialBackoffFetch network url options maxRetries w) in
      attempts w w' = Z.of_nat n + 1
      /\ Z.of_nat n + 1 <= maxRetries
      /\ timers w' = timers w ++ backoff_delays 1000 n
      /\ waited w w' = 1000 * (2 ^ Z.of_nat n - 1)
      /\ console w' = console w.
Proof.
  intros J network url options maxRetries w Hmax. unfold exponentialBackoffFetch.
  destruct (for_loop_trace network url options maxRetries (Z.to_nat maxRetries) 0 1000 w)
    as (n & c & Heq & Hn & _); [lia|lia|].
  exists n. cbv zeta. rewrite Heq. cbn [snd].
  split; [|split; [|split; [|split]]].
  - unfold attempts. cbn [fetches]. lia.
  - lia.
  - reflexivity.
  - unfold waited.
    rewrite (total_wait_app {| fetches := fetches w + n + 1;
                               timers := timers w; console := console w |}).
    rewrite sum_backoff_delays. unfold total_wait. cbn [timers]. lia.
  - reflexivity.
Qed.

Lemma one_timer_less_than_fetches_witness :
  exists n : nat,
    let w' := snd (exponentialBackoffFetch outage_then_ok "/chat" Scenarios.post 5 World0) in
    attempts World0 w' = Z.of_nat n + 1
    /\ Z.of_nat n + 1 <= 5
    /\ timers w' = timers World0 ++ backoff_delays 1000 n
    /\ waited World0 w' = 1000 * (2 ^ Z.of_nat n - 1)
    /\ console w' = console World0.
Proof.
  apply (one_timer_less_than_fetches unit outage_then_ok "/chat" Scenarios.post 5 World0). lia.
Defined.

End RetryFacts.

(** ** Properties of [callGeminiAPI] *)

Module ChatClientFacts.
Import SearchPage Backoff Retry Chat SearchPageFacts.

Section Client.
Variable network : Network Json.
Variable apiKey : string.
Variable JSON_stringify : Request.Payload -> string.
Variable TypeError : string -> Error.
Variables (chatHistory : list ChatMessage) (currentQuery : string).

(** The reply of the [catch] block. *)
Lemma network_error_reply_value error w :
  network_error_reply error w =
  (Normal {| role := model; parts := [ {| text := JString (network_error_text error) |} ];
             sources := None |},
   logged "API Call Error:" w).
Proof. reflexivity. Qed.

(** [callGeminiAPI] after the wrapper: what it makes of each way the
    wrapper can end. *)
Lemma callGeminiAPI_after_fetch w :
  callGeminiAPI network apiKey JSON_stringify TypeError chatHistory currentQuery w =
  match exponentialBackoffFetch network (apiUrl apiKey)
          (requestOptions JSON_stringify chatHistory currentQuery) 5 w with
  | (Normal response, w') =>
      match json response with
      | inl error => network_error_reply error w'
      | inr result => try_catch (reply_to TypeError result) network_error_reply w'
      end
  | (Thrown error, w') => network_error_reply error w'
  | (OutOfFuel, w') => (OutOfFuel, w')
  end.
Proof.
  unfold callGeminiAPI, try_catch, bind.
  destruct (exponentialBackoffFetch _ _ _ _ w) as [[response|error|] w']; try reflexivity.
  unfold await_json. destruct (json response) as [error|result]; reflexivity.
Qed.

(** The [else] branch, by what the candidate has for [finishMessage]. *)
Lemma malformed_reply_cases candidate w :
  malformed_reply TypeError candidate w =
  let apology text :=
    (Normal {| role := model; parts := [ {| text := JString text |} ]; sources := None |},
     logged "Gemini API response missing text or malformed tool call:" w) in
  match optional_property candidate "finishMessage" with
  | None | Some JNull => apology apology_no_answer
  | Some (JString finishMessage) =>
      apology (if includes finishMessage "Malformed function call"
               then apology_malformed_call else apology_no_answer)
  | Some (JArray elements) =>
      apology (if array_includes elements "Malformed function call"
               then apology_malformed_call else apology_no_answer)
  | Some _ =>
      (Thrown (TypeError "candidate?.finishMessage?.includes"),
       logged "Gemini API response missing text or malformed tool call:" w)
  end.
Proof.
  unfold malformed_reply, mentions_malformed_call, bind, console_error. cbv zeta.
  destruct (optional_property candidate "finishMessage") as [[| | | | |]|]; reflexivity.
Qed.

(** [.map] over attributions none of which is [null]. *)
Lemma map_each_read attributions w :
  Forall (fun attribution => attribution <> JNull) attributions ->
  map_each (attribution_source TypeError) attributions w
  = (Normal (map read_attribution attributions), w).
Proof.
  induction 1 as [|attribution attributions Hne _ IH]; [reflexivity|].
  cbn [map_each map]. unfold bind at 1.
  assert (Hread : attribution_source TypeError attribution w
                  = (Normal (read_attribution attribution), w))
    by (destruct attribution; [contradiction|reflexivity..]).
  rewrite Hread. unfold bind. rewrite IH. reflexivity.
Qed.

(** [.map] over attributions one of which is [null]. *)
Lemma map_each_null attributions w :
  JNull ∈ attributions ->
  map_each (attribution_source TypeError) attributions w
  = (Thrown (TypeError "attribution.web"), w).
Proof.
  induction attributions as [|attribution attributions IH]; intros Hin.
  - apply elem_of_nil in Hin. contradiction.
  - cbn [map_each]. unfold bind at 1.
    destruct attribution as [| b | n | s | l | ps]; [reflexivity|..];
      (apply elem_of_cons in Hin as [Heq|Hin]; [discriminate|]);
      cbn [attribution_source]; unfold ret at 1; unfold bind; rewrite (IH Hin); reflexivity.
Qed.

(** [.map] never leaves the world changed, and ends. *)
Lemma map_each_ends attributions w :
  (exists mapped, map_each (attribution_source TypeError) attributions w = (Normal mapped, w))
  \/ (exists error, map_each (attribution_source TypeError) attributions w = (Thrown error, w)).
Proof.
  induction attributions as [|attribution attributions IH]; [left; eexists; reflexivity|].
  cbn [map_each]. unfold bind at 1 3.
  destruct attribution as [| b | n | s | l | ps]; [right; eexists; reflexivity|..];
    cbn [attribution_source]; unfold ret at 1 3; unfold bind;
    (destruct IH as [[mapped IH]|[error IH]]; rewrite IH;
     [left; eexists; reflexivity|right; eexists; reflexivity]).
Qed.

(** The [then] branch with the metadata read as the page reads it. *)
Lemma grounded_reply_unfold candidate text w :
  grounded_reply TypeError candidate text w =
  match (if truthy (grounding_attributions candidate)
         then match grounding_attributions candidate with
              | Some (JArray attributions) =>
                  match map_each (attribution_source TypeError) attributions w with
                  | (Normal mapped, w') => (Normal (omap kept_source mapped), w')
                  | (Thrown error, w') => (Thrown error, w')
                  | (OutOfFuel, w') => (OutOfFuel, w')
                  end
              | _ => (Thrown (TypeError "groundingMetadata.groundingAttributions.map"), w)
              end
         else (Normal [], w)) with
  | (Normal shown, w') =>
      (Normal {| role := model; parts := [ {| text := text |} ]; sources := Some shown |}, w')
  | (Thrown error, w') => (Thrown error, w')
  | (OutOfFuel, w') => (OutOfFuel, w')
  end.
Proof.
  unfold grounded_reply, grounding_attributions, bind. cbv zeta.
  destruct (property candidate "groundingMetadata") as [metadata|]; [|reflexivity].
  destruct metadata as [| b | n | s | l | ps]; try reflexivity.
  - cbn [optional_property]. destruct (property (JObject ps) "groundingAttributions") as [ga|];
      [|reflexivity].
    unfold grounded_sources, bind.
    destruct ga as [| b | n | s | l | ps']; cbn [truthy andb]; try reflexivity.
    + destruct b; reflexivity.
    + destruct (negb (PrimFloat.eqb n 0) && PrimFloat.eqb n n); reflexivity.
    + destruct (negb (String.eqb s "")); reflexivity.
Qed.

(** The [then] branch ends with a reply or an error, in the same world. *)
Lemma grounded_reply_ends candidate text w :
  (exists shown,
      grounded_reply TypeError candidate text w =
      (Normal {| role := model; parts := [ {| text := text |} ]; sources := Some shown |}, w))
  \/ (exists error, grounded_reply TypeError candidate text w = (Thrown error, w)).
Proof.
  rewrite grounded_reply_unfold.
  destruct (truthy (grounding_attributions candidate)); [|left; eexists; reflexivity].
  destruct (grounding_attributions candidate) as [[| b | n | s | l | ps]|];
    try (right; eexists; reflexivity).
  destruct (map_each_ends l w) as [[mapped Hmap]|[error Hmap]]; rewrite Hmap.
  - left. eexists. reflexivity.
  - right. eexists. reflexivity.
Qed.

(** What follows the parse ends with a one-part reply of the model or
    with an error, without a fetch or a timer. *)
Lemma reply_to_ends result w :
  exists w',
    fetches w' = fetches w /\ timers w' = timers w
    /\ ((exists reply,
            reply_to TypeError result w = (Normal reply, w')
            /\ role reply = model
            /\ exists t, parts reply = [ {| text := t |} ])
        \/ (exists error, reply_to TypeError result w = (Thrown error, w'))).
Proof.
  assert (Hmalformed : forall candidate,
             exists w',
               fetches w' = fetches w /\ timers w' = timers w
               /\ ((exists reply,
                       malformed_reply TypeError candidate w = (Normal reply, w')
                       /\ role reply = model
                       /\ exists t, parts reply = [ {| text := t |} ])
                   \/ (exists error,
                          malformed_reply TypeError candidate w = (Thrown error, w')))).
  { intros candidate. rewrite malformed_reply_cases. cbv zeta.
    exists (logged "Gemini API response missing text or malformed tool call:" w).
    split; [reflexivity|]. split; [reflexivity|].
    destruct (optional_property candidate "finishMessage") as [[| | | | |]|];
      try (left; eexists; split; [reflexivity|]; split; [reflexivity|]; eexists; reflexivity);
      right; eexists; reflexivity. }
  assert (Hbody : forall candidate,
             exists w',
               fetches w' = fetches w /\ timers w' = timers w
               /\ ((exists reply,
                       match candidate with
                       | Some c =>
                           match content_text c with
                           | Some text =>
                               if truthy candidate && truthy (Some text)
                               then grounded_reply TypeError c text
                               else malformed_reply TypeError candidate
                           | None => malformed_reply TypeError candidate
                           end
                       | None => malformed_reply TypeError candidate
                       end w = (Normal reply, w')
                       /\ role reply = model
                       /\ exists t, parts reply = [ {| text := t |} ])
                   \/ (exists error,
                          match candidate with
                          | Some c =>
                              match content_text c with
                              | Some text =>
                                  if truthy candidate && truthy (Some text)
                                  then grounded_reply TypeError c text
                                  else malformed_reply TypeError candidate
                              | None => malformed_reply TypeError candidate
                              end
                          | None => malformed_reply TypeError candidate
                          end w = (Thrown error, w')))).
  { intros [c|]; [|apply Hmalformed].
    destruct (content_text c) as [text|]; [|apply Hmalformed].
    destruct (truthy (Some c) && truthy (Some text)); [|apply Hmalformed].
    exists w. split; [reflexivity|]. split; [reflexivity|].
    destruct (grounded_reply_ends c text w) as [[shown Hrun]|[error Hrun]]; rewrite Hrun.
    - left. eexists. split; [reflexivity|]. split; [reflexivity|]. eexists. reflexivity.
    - right. eexists. reflexivity. }
  unfold reply_to.
  destruct result as [| b | n | s | l | ps];
    [exists w; split; [reflexivity|]; split; [reflexivity|]; right; eexists; reflexivity|..];
    unfold bind, ret at 1; cbv zeta; apply Hbody.
Qed.

(** Without a truthy text, what follows the parse is the [else] branch. *)
Lemma reply_to_without_text result w :
  result <> JNull ->
  truthy (first_text result) = false ->
  reply_to TypeError result w = malformed_reply TypeError (first_candidate result) w.
Proof.
  intros Hnull Htext. unfold first_text in Htext.
  assert (Hbody : match first_candidate result with
                  | Some c =>
                      match content_text c with
                      | Some text =>
                          if truthy (first_candidate result) && truthy (Some text)
                          then grounded_reply TypeError c text
                          else malformed_reply TypeError (first_candidate result)
                      | None => malformed_reply TypeError (first_candidate result)
                      end
                  | None => malformed_reply TypeError (first_candidate result)
                  end w = malformed_reply TypeError (first_candidate result) w).
  { destruct (first_candidate result) as [c|]; [|reflexivity].
    destruct (content_text c) as [text|]; [|reflexivity].
    rewrite Htext, andb_false_r. reflexivity. }
  unfold reply_to. destruct result as [| b | n | s | l | ps]; [contradiction|..];
    unfold bind, ret at 1; cbv zeta; exact Hbody.
Qed.

(** With a truthy text, what follows the parse is the [then] branch. *)
Lemma reply_to_with_text result candidate text w :
  first_candidate result = Some candidate ->
  content_text candidate = Some text ->
  truthy (Some text) = true ->
  reply_to TypeError result w = grounded_reply TypeError candidate text w.
Proof.
  intros Hcandidate Htext Htruthy.
  assert (Hc : truthy (Some candidate) = true).
  { unfold content_text in Htext.
    destruct candidate as [| b | n | s | l | ps]; try discriminate. reflexivity. }
  assert (Hbody : match first_candidate result with
                  | Some c =>
                      match content_text c with
                      | Some text =>
                          if truthy (first_candidate result) && truthy (Some text)
                          then grounded_reply TypeError c text
                          else malformed_reply TypeError (first_candidate result)
                      | None => malformed_reply TypeError (first_candidate result)
                      end
                  | None => malformed_reply TypeError (first_candidate result)
                  end w = grounded_reply TypeError candidate text w).
  { rewrite Hcandidate, Htext, Hc, Htruthy. reflexivity. }
  unfold reply_to. destruct result as [| b | n | s | l | ps]; [discriminate|..];
    unfold bind, ret at 1; cbv zeta; exact Hbody.
Qed.

End Client.

(** Every way [callGeminiAPI] can end is a reply. *)
Lemma callGeminiAPI_total network apiKey JSON_stringify TypeError chatHistory currentQuery w :
  exists reply w',
    callGeminiAPI network apiKey JSON_stringify TypeError chatHistory currentQuery w
    = (Normal reply, w')
    /\ role reply = model
    /\ (exists t, parts reply = [ {| text := t |} ])
    /\ 1 <= attempts w w' <= 5
    /\ waited w w' <= 15000.
Proof.
  rewrite callGeminiAPI_after_fetch. unfold exponentialBackoffFetch.
  destruct (for_loop_trace network (apiUrl apiKey)
              (requestOptions JSON_stringify chatHistory currentQuery) 5 (Z.to_nat 5) 0 1000 w)
    as (n & c & Heq & Hn & Hfuel & _); [lia|vm_compute; discriminate|].
  rewrite Heq.
  set (w1 := {| fetches := fetches w + n + 1;
                timers := timers w ++ backoff_delays 1000 n;
                console := console w |}).
  assert (Hbounds : forall w', fetches w' = fetches w1 -> timers w' = timers w1 ->
                               1 <= attempts w w' <= 5 /\ waited w w' <= 15000).
  { intros w' Hf Ht. unfold attempts, waited, total_wait. rewrite Hf, Ht.
    cbn [w1 fetches timers]. rewrite foldr_app.
    assert (Hsum : forall (l : list Z) (a : Z), foldr Z.add a l = foldr Z.add 0 l + a).
    { intros l a. induction l as [|x l IH]; cbn [foldr]; lia. }
    rewrite (Hsum (timers w)), sum_backoff_delays.
    assert (2 ^ Z.of_nat n <= 2 ^ 4) by (apply Z.pow_le_mono_r; lia).
    change (2 ^ 4) with 16 in *. lia. }
  assert (Herr : forall error w2,
             fetches w2 = fetches w1 -> timers w2 = timers w1 ->
             exists reply w',
               network_error_reply error w2 = (Normal reply, w')
               /\ role reply = model
               /\ (exists t, parts reply = [ {| text := t |} ])
               /\ 1 <= attempts w w' <= 5
               /\ waited w w' <= 15000).
  { intros error w2 Hf Ht. rewrite network_error_reply_value.
    eexists _, _. split; [reflexivity|]. split; [reflexivity|].
    split; [eexists; reflexivity|]. apply Hbounds; assumption. }
  destruct c as [response|error|]; [|apply Herr; reflexivity|contradiction].
  destruct (json response) as [error|result]; [apply Herr; reflexivity|].
  unfold try_catch.
  destruct (reply_to_ends TypeError result w1)
    as (w2 & Hf & Ht & [(reply & Hrun & Hrole & Hparts)|(error & Hrun)]); rewrite Hrun.
  - exists reply, w2. split; [reflexivity|]. split; [exact Hrole|].
    split; [exact Hparts|]. apply Hbounds; assumption.
  - apply Herr; assumption.
Qed.

(** With a response that lacks a text part, the call does not always end
    in one of the two apologies: for a body that does not parse, a body
    that is [null], and a first candidate whose [finishMessage] is a number,
    the reply quotes the error instead. *)
Lemma text_less_response_without_apology :
  (lacks_text_part Scenarios.garbled_response
   /\ exponentialBackoffFetch Scenarios.garbled_network (apiUrl "key")
        (requestOptions Scenarios.stringify [] "price of TCS?") 5 World0
      = (Normal Scenarios.garbled_response, fetched World0)
   /\ callGeminiAPI Scenarios.garbled_network "key" Scenarios.stringify Scenarios.engine
        [] "price of TCS?" World0
      = (Normal {| role := model;
                   parts := [ {| text := JString "A Network/API error has occurred: Unexpected end of JSON input. Please check your network connection and try again." |} ];
                   sources := None |},
         logged "API Call Error:" (fetched World0))
   /\ ~ apologises (fst (callGeminiAPI Scenarios.garbled_network "key" Scenarios.stringify
                           Scenarios.engine [] "price of TCS?" World0)))
  /\ (lacks_text_part (Scenarios.response_of 200 "OK" JNull)
      /\ callGeminiAPI Scenarios.null_network "key" Scenarios.stringify Scenarios.engine
           [] "price of TCS?" World0
         = (Normal {| role := model;
                      parts := [ {| text := JString "A Network/API error has occurred: Cannot read properties of null (reading 'candidates'). Please check your network connection and try again." |} ];
                      sources := None |},
            logged "API Call Error:" (fetched World0))
      /\ ~ apologises (fst (callGeminiAPI Scenarios.null_network "key" Scenarios.stringify
                              Scenarios.engine [] "price of TCS?" World0)))
  /\ (lacks_text_part (Scenarios.response_of 200 "OK" Scenarios.numbered_result)
      /\ callGeminiAPI Scenarios.numbered_network "key" Scenarios.stringify Scenarios.engine
           [] "price of TCS?" World0
         = (Normal {| role := model;
                      parts := [ {| text := JString "A Network/API error has occurred: candidate?.finishMessage?.includes is not a function. Please check your network connection and try again." |} ];
                      sources := None |},
            logged "API Call Error:"
              (logged "Gemini API response missing text or malformed tool call:"
                 (fetched World0)))
      /\ ~ apologises (fst (callGeminiAPI Scenarios.numbered_network "key" Scenarios.stringify
                              Scenarios.engine [] "price of TCS?" World0))).
Proof.
  assert (Hno : forall text,
             text <> apology_malformed_call -> text <> apology_no_answer ->
             ~ apologises (Normal {| role := model; parts := [ {| text := JString text |} ];
                                     sources := None |})).
  { intros text Hcall Hanswer (apology & Heq & Hor).
    injection Heq as Heq. subst text. destruct Hor; contradiction. }
  split; [|split].
  - split; [exact I|]. split; [reflexivity|]. split; [reflexivity|].
    apply Hno; discriminate.
  - split; [reflexivity|]. split; [reflexivity|]. apply Hno; discriminate.
  - split; [reflexivity|]. split; [reflexivity|]. apply Hno; discriminate.
Qed.

(** C7.  What [callGeminiAPI] replies when the wrapper returns a response
    that lacks a text part (its body does not parse, or parses to a value
    without a truthy text in the first part of its first candidate).  When
    the body parses to a value other than [null] and the [finishMessage] of
    the first candidate is missing, [null], a string or an array, the call
    logs the fact and returns a message of role [model] whose only part is
    one of the two fixed apologies of the page, nothing of the response
    being put in the message.  In the other cases the [catch] block answers:
    the message is of role [model] and its only part is the network-error
    text quoting the error, which is the parse error when the body does not
    parse, and the [TypeError] of the failing expression when the body is
    [null] or the [finishMessage] is of another kind. *)
Theorem text_less_response_reply :
  forall network apiKey JSON_stringify TypeError chatHistory currentQuery w response w',
    exponentialBackoffFetch network (apiUrl apiKey)
      (requestOptions JSON_stringify chatHistory currentQuery) 5 w = (Normal response, w') ->
    lacks_text_part response ->
    let run := callGeminiAPI network apiKey JSON_stringify TypeError chatHistory currentQuery w in
    let error_reply error w'' :=
      (Normal {| role := model; parts := [ {| text := JString (network_error_text error) |} ];
                 sources := None |},
       logged "API Call Error:" w'') in
    (forall result,
        json response = inr result ->
        result <> JNull ->
        finishMessage_has_includes result ->
        exists apology,
          run = (Normal {| role := model; parts := [ {| text := JString apology |} ];
                           sources := None |},
                 logged "Gemini API response missing text or malformed tool call:" w')
          /\ (apology = apology_malformed_call \/ apology = apology_no_answer))
    /\ (forall error, json response = inl error -> run = error_reply error w')
    /\ (json response = inr JNull -> run = error_reply (TypeError "result.candidates") w')
    /\ (forall result,
           json response = inr result ->
           result <> JNull ->
           ~ finishMessage_has_includes result ->
           run = error_reply (TypeError "candidate?.finishMessage?.includes")
                   (logged "Gemini API response missing text or malformed tool call:" w')).
Proof.
  intros network apiKey JSON_stringify TypeError chatHistory currentQuery w response w'
    Hfetch Hlacks run error_reply. subst run error_reply. cbv beta.
  rewrite callGeminiAPI_after_fetch, Hfetch. unfold lacks_text_part in Hlacks.
  split; [|split; [|split]].
  - intros result Hjson Hnull Hincludes. rewrite Hjson in *.
    unfold try_catch. rewrite (reply_to_without_text TypeError result w' Hnull Hlacks).
    rewrite malformed_reply_cases. cbv zeta. unfold finishMessage_has_includes in Hincludes.
    destruct (optional_property (first_candidate result) "finishMessage")
      as [[| b | n | finishMessage | elements | ps]|]; try contradiction.
    + eexists. split; [reflexivity|]. right. reflexivity.
    + destruct (includes finishMessage "Malformed function call");
        eexists; (split; [reflexivity|]); [left|right]; reflexivity.
    + destruct (array_includes elements "Malformed function call");
        eexists; (split; [reflexivity|]); [left|right]; reflexivity.
    + eexists. split; [reflexivity|]. right. reflexivity.
  - intros error Hjson. rewrite Hjson. reflexivity.
  - intros Hjson. rewrite Hjson. reflexivity.
  - intros result Hjson Hnull Hincludes. rewrite Hjson in *.
    unfold try_catch. rewrite (reply_to_without_text TypeError result w' Hnull Hlacks).
    rewrite malformed_reply_cases. cbv zeta. unfold finishMessage_has_includes in Hincludes.
    destruct (optional_property (first_candidate result) "finishMessage")
      as [[| b | n | finishMessage | elements | ps]|];
      try (exfalso; apply Hincludes; exact I); reflexivity.
Qed.

Lemma text_less_response_reply_witness :
  exists apology,
    callGeminiAPI Scenarios.malformed_network "key" Scenarios.stringify Scenarios.engine
      [] "price of TCS?" World0
    = (Normal {| role := model; parts := [ {| text := JString apology |} ]; sources := None |},
       logged "Gemini API response missing text or malformed tool call:" (fetched World0))
    /\ (apology = apology_malformed_call \/ apology = apology_no_answer).
Proof.
  refine (proj1 (text_less_response_reply Scenarios.malformed_network "key" Scenarios.stringify
                   Scenarios.engine [] "price of TCS?" World0
                   (Scenarios.response_of 200 "OK" Scenarios.malformed_result)
                   (fetched World0) _ _)
            Scenarios.malformed_result _ _ _).
  - reflexivity.
  - reflexivity.
  - reflexivity.
  - discriminate.
  - exact I.
Defined.

(** X5.  [callGeminiAPI] never throws: whatever the network answers, it
    returns a message of role [model] with exactly one text part, having
    issued between one and five fetches and waited at most 15000 ms. *)
Theorem callGeminiAPI_always_replies :
  forall network apiKey JSON_stringify TypeError chatHistory currentQuery w,
  exists reply w',
    callGeminiAPI network apiKey JSON_stringify TypeError chatHistory currentQuery w
    = (Normal reply, w')
    /\ role reply = model
    /\ (exists t, parts reply = [ {| text := t |} ])
    /\ 1 <= attempts w w' <= 5
    /\ waited w w' <= 15000.
Proof.
  intros network apiKey JSON_stringify TypeError chatHistory currentQuery w.
  apply callGeminiAPI_total.
Qed.

(** X6.  Failures end in the reply, not in an exception.  When all five
    attempts fail, [callGeminiAPI] has fetched five times, waited 1000,
    2000, 4000 and 8000 ms, logged the error, and replies with the
    network-error text built from the error of the fifth attempt; and when
    the wrapper returns a response whose body does not parse, it replies
    with the network-error text built from the parse error. *)
Theorem failures_become_the_reply :
  forall network apiKey JSON_stringify TypeError chatHistory currentQuery w,
    let url := apiUrl apiKey in
    let options := requestOptions JSON_stringify chatHistory currentQuery in
    ((forall k, (k < 5)%nat -> failed (network (fetches w + k)%nat url options)) ->
     callGeminiAPI network apiKey JSON_stringify TypeError chatHistory currentQuery w =
     (Normal {| role := model;
                parts := [ {| text := JString
                                        (network_error_text
                                           (attempt_error
                                              (network (fetches w + 4)%nat url options))) |} ];
                sources := None |},
      {| fetches := fetches w + 5;
         timers := timers w ++ [1000; 2000; 4000; 8000];
         console := console w ++ [ "API Call Error:" ] |}))
    /\ (forall response w' error,
          exponentialBackoffFetch network url options 5 w = (Normal response, w') ->
          json response = inl error ->
          callGeminiAPI network apiKey JSON_stringify TypeError chatHistory currentQuery w =
          (Normal {| role := model;
                     parts := [ {| text := JString (network_error_text error) |} ];
                     sources := None |},
           logged "API Call Error:" w')).
Proof.
  intros network apiKey JSON_stringify TypeError chatHistory currentQuery w url options. split.
  - intros Hfail. rewrite callGeminiAPI_after_fetch. unfold exponentialBackoffFetch.
    fold url options.
    rewrite (RetryFacts.for_loop_all_failed network url options 5 (Z.to_nat 5) 0 1000 w);
      [|lia|vm_compute; discriminate|].
    + change (Z.to_nat (5 - 1 - 0)) with 4%nat. rewrite network_error_reply_value.
      unfold logged. cbn [fetches timers console].
      do 2 f_equal. lia.
    + change (Z.to_nat (5 - 1 - 0)) with 4%nat. intros k Hk. apply Hfail. lia.
  - intros response w' error Hrun Hjson. rewrite callGeminiAPI_after_fetch.
    fold url options. rewrite Hrun, Hjson. reflexivity.
Qed.

Lemma failures_become_the_reply_witness :
  callGeminiAPI busy_network "key" Scenarios.stringify Scenarios.engine
    [ welcome ] "price of TCS?" World0 =
  (Normal {| role := model;
             parts := [ {| text := JString (network_error_text
                                              (mkError "API error: Too Many Requests")) |} ];
             sources := None |},
   {| fetches := 5;
      timers := [1000; 2000; 4000; 8000];
      console := [ "API Call Error:" ] |}).
Proof.
  apply (proj1 (failures_become_the_reply busy_network "key" Scenarios.stringify
                  Scenarios.engine [ welcome ] "price of TCS?" World0)).
  intros k Hk. reflexivity.
Defined.

(** X7.  When the returned response carries a truthy text in the first
    part of its first candidate, the reply of [callGeminiAPI] depends on the
    [groundingAttributions] of that candidate.  When they are missing or
    falsy, it replies with exactly that text and an empty [sources] list,
    and logs nothing.  When they are an array without a [null] element, it
    replies with exactly that text and logs nothing; every source of the
    reply has a truthy link and a truthy title, each is read off an
    attribution of the array, and there are at most as many as
    attributions.  When they are an array with a [null] element, or a truthy
    value that is no array, reading them throws, the text is dropped, and
    the reply is the network-error text quoting the [TypeError], which is
    logged. *)
Theorem grounded_reply_has_text_and_clean_sources :
  forall network apiKey JSON_stringify TypeError chatHistory currentQuery w response w' result
         candidate text,
    exponentialBackoffFetch network (apiUrl apiKey)
      (requestOptions JSON_stringify chatHistory currentQuery) 5 w = (Normal response, w') ->
    json response = inr result ->
    first_candidate result = Some candidate ->
    content_text candidate = Some text ->
    truthy (Some text) = true ->
    let run := callGeminiAPI network apiKey JSON_stringify TypeError chatHistory currentQuery w in
    let error_reply error :=
      (Normal {| role := model; parts := [ {| text := JString (network_error_text error) |} ];
                 sources := None |},
       logged "API Call Error:" w') in
    (truthy (grounding_attributions candidate) = false ->
     run = (Normal {| role := model; parts := [ {| text := text |} ]; sources := Some [] |}, w'))
    /\ (forall attributions,
           grounding_attributions candidate = Some (JArray attributions) ->
           Forall (fun attribution => attribution <> JNull) attributions ->
           exists shown,
             run = (Normal {| role := model; parts := [ {| text := text |} ];
                              sources := Some shown |}, w')
             /\ Forall (fun source =>
                          truthy (Some (Grounded.uri source)) = true
                          /\ truthy (Some (Grounded.title source)) = true) shown
             /\ Forall (fun source =>
                          exists attribution,
                            attribution ∈ attributions
                            /\ read_attribution attribution
                               = (Some (Grounded.uri source), Some (Grounded.title source)))
                  shown
             /\ (length shown <= length attributions)%nat)
    /\ (forall attributions,
           grounding_attributions candidate = Some (JArray attributions) ->
           JNull ∈ attributions ->
           run = error_reply (TypeError "attribution.web"))
    /\ (truthy (grounding_attributions candidate) = true ->
        (forall attributions, grounding_attributions candidate <> Some (JArray attributions)) ->
        run = error_reply (TypeError "groundingMetadata.groundingAttributions.map")).
Proof.
  intros network apiKey JSON_stringify TypeError chatHistory currentQuery w response w' result
    candidate text Hrun Hjson Hcandidate Htext Htruthy run error_reply.
  subst run error_reply. cbv beta.
  rewrite callGeminiAPI_after_fetch, Hrun, Hjson. unfold try_catch.
  rewrite (reply_to_with_text TypeError result candidate text w' Hcandidate Htext Htruthy).
  rewrite grounded_reply_unfold.
  split; [|split; [|split]].
  - intros Hfalsy. rewrite Hfalsy. reflexivity.
  - intros attributions Harray Hnonnull. rewrite Harray. cbn [truthy].
    rewrite (map_each_read TypeError attributions w' Hnonnull).
    exists (omap kept_source (map read_attribution attributions)).
    split; [reflexivity|]. split; [|split].
    + apply Forall_forall. intros source Hin.
      apply list_elem_of_omap in Hin as (mapped & _ & Hsource).
      destruct mapped as [[uri|] [title|]]; cbn [kept_source] in Hsource; try discriminate.
      destruct (truthy (Some uri)) eqn:Huri; cbn [andb] in Hsource; [|discriminate].
      destruct (truthy (Some title)) eqn:Htitle; [|discriminate].
      injection Hsource as <-. cbn [Grounded.uri Grounded.title]. split; assumption.
    + apply Forall_forall. intros source Hin.
      apply list_elem_of_omap in Hin as (mapped & Hin & Hsource).
      change (map read_attribution attributions) with (read_attribution <$> attributions) in Hin.
      apply list_elem_of_fmap in Hin as (attribution & -> & Hin).
      exists attribution. split; [exact Hin|].
      destruct (read_attribution attribution) as [[uri|] [title|]];
        cbn [kept_source] in Hsource; try discriminate.
      destruct (truthy (Some uri) && truthy (Some title)); [|discriminate].
      injection Hsource as <-. reflexivity.
    + rewrite <- (length_map read_attribution attributions).
      generalize (map read_attribution attributions). intros l.
      induction l as [|x l IH]; cbn [omap list_omap length]; [lia|].
      destruct (kept_source x); cbn [length]; lia.
  - intros attributions Harray Hnull. rewrite Harray. cbn [truthy].
    rewrite (map_each_null TypeError attributions w' Hnull). reflexivity.
  - intros Htruthy_ga Hnot. rewrite Htruthy_ga.
    destruct (grounding_attributions candidate) as [[| b | n | s | l | ps]|]; try reflexivity.
    exfalso. exact (Hnot l eq_refl).
Qed.

Lemma grounded_reply_has_text_and_clean_sources_witness :
  (exists shown,
      callGeminiAPI grounded_network "key" Scenarios.stringify Scenarios.engine
        [ welcome ] "price of TCS?" World0 =
      (Normal {| role := model; parts := [ {| text := JString "TCS closed higher." |} ];
                 sources := Some shown |}, fetched World0)
      /\ Forall (fun source =>
                   truthy (Some (Grounded.uri source)) = true
                   /\ truthy (Some (Grounded.title source)) = true) shown
      /\ Forall (fun source =>
                   exists attribution,
                     attribution ∈ three_attributions
                     /\ read_attribution attribution
                        = (Some (Grounded.uri source), Some (Grounded.title source))) shown
      /\ (length shown <= length three_attributions)%nat)
  /\ callGeminiAPI holed_network "key" Scenarios.stringify Scenarios.engine
       [ welcome ] "price of TCS?" World0 =
     (Normal {| role := model;
                parts := [ {| text := JString (network_error_text
                                                 (Scenarios.engine "attribution.web")) |} ];
                sources := None |},
      logged "API Call Error:" (fetched World0)).
Proof.
  split.
  - refine (proj1 (proj2 (grounded_reply_has_text_and_clean_sources grounded_network "key"
                            Scenarios.stringify Scenarios.engine
                            [ welcome ] "price of TCS?" World0
                            (Scenarios.response_of 200 "OK" grounded_result) (fetched World0)
                            grounded_result grounded_candidate (JString "TCS closed higher.")
                            _ _ _ _ _))
              three_attributions _ _); try reflexivity.
    repeat constructor; discriminate.
  - refine (proj1 (proj2 (proj2 (grounded_reply_has_text_and_clean_sources holed_network "key"
                            Scenarios.stringify Scenarios.engine
                            [ welcome ] "price of TCS?" World0
                            (Scenarios.response_of 200 "OK"
                               (JObject [ ("candidates", JArray [ holed_candidate ]) ]))
                            (fetched World0)
                            (JObject [ ("candidates", JArray [ holed_candidate ]) ])
                            holed_candidate (JString "TCS closed higher.")
                            _ _ _ _ _)))
              [ attribution_of (JString "https://nse.example/tcs") (JString "NSE"); JNull ]
              _ _); try reflexivity.
    apply elem_of_cons. right. apply elem_of_cons. left. reflexivity.
Defined.


End ChatClientFacts.

(** ** Properties of the chat page *)

Module ChatPageFacts.
Import SearchPage ChatPage Sources.

Lemma findIndex_from_skip {A} (p : A -> bool) (pre l : list A) index :
  (forall y, y ∈ pre -> p y = false) ->
  findIndex_from p index (pre ++ l) = findIndex_from p (index + Z.of_nat (length pre)) l.
Proof.
  revert index. induction pre as [|y pre IH]; intros index Hpre; cbn [app length findIndex_from].
  - f_equal. lia.
  - rewrite (Hpre y) by (apply elem_of_cons; left; reflexivity).
    rewrite IH by (intros z Hz; apply Hpre, elem_of_cons; right; exact Hz).
    f_equal. lia.
Qed.

Lemma findIndex_from_early {A} (p : A -> bool) (pre l : list A) index y :
  y ∈ pre -> p y = true ->
  index <= findIndex_from p index (pre ++ l) < index + Z.of_nat (length pre).
Proof.
  revert index. induction pre as [|z pre IH]; intros index Hin Hy.
  - apply elem_of_nil in Hin. contradiction.
  - cbn [app length findIndex_from]. destruct (p z) eqn:Hz; [lia|].
    apply elem_of_cons in Hin as [->|Hin]; [congruence|].
    specialize (IH (index + 1) Hin Hy). lia.
Qed.

(** The filter of [uniqueSources], on the part [l] of [self] that follows
    [pre], keeps the first occurrences. *)
Lemma filter_from_first_occurrences (pre l : list Source) :
  filter_from
    (fun source index =>
       index =? findIndex (fun t => String.eqb (uri t) (uri source)) (pre ++ l))
    (Z.of_nat (length pre)) l
  = first_occurrences (uri <$> pre) l.
Proof.
  revert pre. induction l as [|x l IH]; intros pre; [reflexivity|].
  cbn [filter_from first_occurrences].
  assert (Hnext :
            filter_from
              (fun source index =>
                 index =? findIndex (fun t => String.eqb (uri t) (uri source)) (pre ++ x :: l))
              (Z.of_nat (length pre) + 1) l
            = first_occurrences ((uri <$> pre) ++ [ uri x ]) l).
  { change ((uri <$> pre) ++ [ uri x ]) with ((uri <$> pre) ++ (uri <$> [ x ])).
    rewrite <- fmap_app, <- IH, length_app. cbn [length].
    replace (Z.of_nat (length pre + 1)) with (Z.of_nat (length pre) + 1) by lia.
    rewrite <- app_assoc. reflexivity. }
  rewrite Hnext. unfold findIndex.
  destruct (bool_decide (uri x ∈ uri <$> pre)) eqn:Hseen.
  - apply bool_decide_eq_true in Hseen. apply list_elem_of_fmap in Hseen as (y & Hy & Hin).
    pose proof (findIndex_from_early (fun t => String.eqb (uri t) (uri x)) pre (x :: l) 0 y Hin
                  ltac:(apply String.eqb_eq; congruence)) as Hrange.
    destruct (Z.eqb_spec (Z.of_nat (length pre))
      (findIndex_from (fun t => String.eqb (uri t) (uri x)) 0 (pre ++ x :: l))); [lia|].
    reflexivity.
  - apply bool_decide_eq_false in Hseen.
    rewrite findIndex_from_skip.
    + cbn [findIndex_from]. rewrite String.eqb_refl.
      destruct (Z.eqb_spec (Z.of_nat (length pre)) (0 + Z.of_nat (length pre))); [|lia].
      reflexivity.
    + intros y Hin. apply String.eqb_neq. intros Heq. apply Hseen.
      rewrite <- Heq. apply list_elem_of_fmap_2. exact Hin.
Qed.

Lemma uniqueSources_first_occurrences (sources : list Source) :
  uniqueSources sources = first_occurrences [] sources.
Proof.
  unfold uniqueSources, filter_indexed.
  apply (filter_from_first_occurrences [] sources).
Qed.

(** What [first_occurrences] keeps. *)
Lemma first_occurrences_spec (l : list Source) :
  forall seen,
    NoDup (uri <$> first_occurrences seen l)
    /\ (forall source, source ∈ first_occurrences seen l -> uri source ∉ seen)
    /\ (forall u, u ∈ uri <$> l -> u ∈ seen \/ u ∈ uri <$> first_occurrences seen l)
    /\ first_occurrences seen l `sublist_of` l.
Proof.
  induction l as [|x l IH]; intros seen; cbn [first_occurrences].
  - repeat split.
    + constructor.
    + intros source Hin. apply elem_of_nil in Hin. contradiction.
    + intros u Hin. apply elem_of_nil in Hin. contradiction.
    + constructor.
  - destruct (IH (seen ++ [ uri x ])) as (Hnodup & Hfresh & Hcover & Hsub).
    assert (Hfresh' : forall source,
               source ∈ first_occurrences (seen ++ [uri x]) l ->
               (uri source ∉ seen) /\ uri source <> uri x).
    { intros source Hin. specialize (Hfresh source Hin). rewrite elem_of_app in Hfresh.
      rewrite list_elem_of_singleton in Hfresh. split; intros H; apply Hfresh; auto. }
    assert (Hcover' : forall u, u ∈ uri <$> l ->
               u ∈ seen \/ u = uri x \/ u ∈ uri <$> first_occurrences (seen ++ [uri x]) l).
    { intros u Hin. destruct (Hcover u Hin) as [Hseen|Hkept]; [|auto].
      apply elem_of_app in Hseen as [Hseen|Hx]; [auto|].
      apply list_elem_of_singleton in Hx. auto. }
    destruct (bool_decide (uri x ∈ seen)) eqn:Hseen.
    + apply bool_decide_eq_true in Hseen. repeat split.
      * exact Hnodup.
      * intros source Hin. apply (Hfresh' source Hin).
      * intros u Hin. cbn [fmap list_fmap] in Hin. apply elem_of_cons in Hin as [->|Hin]; [auto|].
        destruct (Hcover' u Hin) as [?|[->|?]]; auto.
      * apply sublist_cons. exact Hsub.
    + apply bool_decide_eq_false in Hseen. repeat split.
      * cbn [fmap list_fmap]. apply NoDup_cons. split; [|exact Hnodup].
        intros Hin. apply list_elem_of_fmap in Hin as (source & Heq & Hin).
        destruct (Hfresh' source Hin) as [_ Hne]. congruence.
      * intros source Hin. apply elem_of_cons in Hin as [->|Hin]; [exact Hseen|].
        apply (Hfresh' source Hin).
      * intros u Hin. cbn [fmap list_fmap] in Hin |- *.
        apply elem_of_cons in Hin as [->|Hin]; [right; apply elem_of_cons; auto|].
        destruct (Hcover' u Hin) as [?|[->|?]]; auto; right; apply elem_of_cons; auto.
      * apply sublist_skip. exact Hsub.
Qed.

Lemma first_occurrences_find (l : list Source) :
  forall seen source,
    source ∈ first_occurrences seen l ->
    find (fun t => String.eqb (uri t) (uri source)) l = Some source.
Proof.
  induction l as [|x l IH]; intros seen source Hin; cbn [first_occurrences] in Hin.
  - apply elem_of_nil in Hin. contradiction.
  - assert (Hrest : source ∈ first_occurrences (seen ++ [ uri x ]) l ->
                    find (fun t => String.eqb (uri t) (uri source)) (x :: l) = Some source).
    { intros Hin'. cbn [find].
      destruct (first_occurrences_spec l (seen ++ [ uri x ])) as (_ & Hfresh & _).
      specialize (Hfresh source Hin'). rewrite elem_of_app, list_elem_of_singleton in Hfresh.
      destruct (String.eqb_spec (uri x) (uri source)) as [Heq|_].
      - exfalso. apply Hfresh. right. symmetry. exact Heq.
      - apply (IH _ _ Hin'). }
    destruct (bool_decide (uri x ∈ seen)); [apply Hrest, Hin|].
    apply elem_of_cons in Hin as [->|Hin]; [|apply Hrest, Hin].
    cbn [find]. rewrite String.eqb_refl. reflexivity.
Qed.

(** X9.  [uniqueSources] keeps, of the sources that share a link, the
    first one: no two sources of the result have the same link, the result
    has exactly the links of the input, it is a sub-list of the input (same
    order), and each source kept is the first of the input with its link. *)
Theorem uniqueSources_keeps_first_of_each_link :
  forall sources : list Source,
    NoDup (uri <$> uniqueSources sources)
    /\ (forall u, u ∈ uri <$> uniqueSources sources <-> u ∈ uri <$> sources)
    /\ uniqueSources sources `sublist_of` sources
    /\ (forall source,
          source ∈ uniqueSources sources ->
          find (fun t => String.eqb (uri t) (uri source)) sources = Some source).
Proof.
  intros sources. rewrite uniqueSources_first_occurrences.
  destruct (first_occurrences_spec sources []) as (Hnodup & _ & Hcover & Hsub).
  split; [exact Hnodup|]. split; [|split; [exact Hsub|]].
  - intros u. split.
    + intros Hin. apply list_elem_of_fmap in Hin as (source & -> & Hin).
      apply list_elem_of_fmap_2. eapply elem_of_sublist; eassumption.
    + intros Hin. destruct (Hcover u Hin) as [Hnil|Hkept]; [|exact Hkept].
      apply elem_of_nil in Hnil. contradiction.
  - intros source Hin. apply (first_occurrences_find sources [] source Hin).
Qed.

Lemma uniqueSources_keeps_first_of_each_link_witness :
  uniqueSources cited
  = [ source_of "https://a.example" "A"; source_of "https://b.example" "B";
      source_of "https://c.example" "C" ]
  /\ NoDup (uri <$> uniqueSources cited)
  /\ (forall u, u ∈ uri <$> uniqueSources cited <-> u ∈ uri <$> cited)
  /\ uniqueSources cited `sublist_of` cited
  /\ (forall source,
        source ∈ uniqueSources cited ->
        find (fun t => String.eqb (uri t) (uri source)) cited = Some source).
Proof.
  split; [reflexivity|]. apply (uniqueSources_keeps_first_of_each_link cited).
Defined.

Lemma uniqueSources_nonempty (sources : list Source) :
  sources <> [] -> uniqueSources sources <> [].
Proof.
  rewrite uniqueSources_first_occurrences.
  destruct sources as [|x l]; [contradiction|]. intros _.
  cbn [first_occurrences]. rewrite bool_decide_eq_false_2; [discriminate|].
  apply not_elem_of_nil.
Qed.

(** X10.  [SourceAttribution] renders nothing without sources.  With
    sources it lists at least one link; the number in its heading is the
    number of distinct links; collapsed, it lists the first three distinct
    sources at most; the toggle exists exactly when there are more than
    three distinct links, and collapsed its label counts exactly the
    sources that are not listed. *)
Theorem SourceAttribution_lists_and_counts :
  forall (sources : list Source) (isExpanded : bool),
    SourceAttribution None isExpanded = None
    /\ SourceAttribution (Some []) isExpanded = None
    /\ (sources <> [] ->
        exists shown,
          SourceAttribution (Some sources) isExpanded = Some shown
          /\ heading_count shown = Z.of_nat (length (uniqueSources sources))
          /\ visibleSources shown <> []
          /\ visibleSources shown `prefix_of` uniqueSources sources
          /\ (isExpanded = true -> visibleSources shown = uniqueSources sources)
          /\ (isExpanded = false ->
              length (visibleSources shown) = Nat.min 3 (length (uniqueSources sources)))
          /\ (is_Some (toggle_label shown) <-> (3 < length (uniqueSources sources))%nat)
          /\ (isExpanded = false ->
              (3 < length (uniqueSources sources))%nat ->
              toggle_label shown =
              Some ("Show "
                    +:+ pretty (Z.of_nat (length (uniqueSources sources)
                                          - length (visibleSources shown)))
                    +:+ " More Sources"))).
Proof.
  intros sources isExpanded. split; [reflexivity|]. split; [reflexivity|].
  intros Hsources. pose proof (uniqueSources_nonempty sources Hsources) as Hunique.
  destruct sources as [|x l]; [contradiction|].
  set (sources := x :: l) in *. cbn [SourceAttribution]. fold sources.
  eexists. split; [reflexivity|]. cbn [heading_count visibleSources toggle_label].
  split; [reflexivity|]. split; [|split; [|split; [|split; [|split]]]].
  - destruct isExpanded; [exact Hunique|].
    destruct (uniqueSources sources); [contradiction|discriminate].
  - destruct isExpanded; [reflexivity|]. apply prefix_take.
  - intros ->. reflexivity.
  - intros ->. apply length_take.
  - destruct (Z.gtb_spec (Z.of_nat (length (uniqueSources sources))) 3) as [Hgt|Hle].
    + split; [lia|]. intros _. eexists. reflexivity.
    + split; [intros [? [=]]|lia].
  - intros -> Hmore.
    destruct (Z.gtb_spec (Z.of_nat (length (uniqueSources sources))) 3) as [Hgt|Hle]; [|lia].
    rewrite length_take.
    replace (Z.of_nat (length (uniqueSources sources)
                       - Nat.min 3 (length (uniqueSources sources))))
      with (Z.of_nat (length (uniqueSources sources)) - 3) by lia.
    reflexivity.
Qed.

Lemma SourceAttribution_lists_and_counts_witness :
  exists shown,
    SourceAttribution (Some six) false = Some shown
    /\ heading_count shown = Z.of_nat (length (uniqueSources six))
    /\ visibleSources shown <> []
    /\ visibleSources shown `prefix_of` uniqueSources six
    /\ (false = true -> visibleSources shown = uniqueSources six)
    /\ (false = false ->
        length (visibleSources shown) = Nat.min 3 (length (uniqueSources six)))
    /\ (is_Some (toggle_label shown) <-> (3 < length (uniqueSources six))%nat)
    /\ (false = false ->
        (3 < length (uniqueSources six))%nat ->
        toggle_label shown =
        Some ("Show "
              +:+ pretty (Z.of_nat (length (uniqueSources six)
                                    - length (visibleSources shown)))
              +:+ " More Sources")).
Proof.
  apply (proj2 (proj2 (SourceAttribution_lists_and_counts six false))). discriminate.
Defined.

Section Submissions.
Variable network : Network Json.
Variable apiKey : string.
Variable JSON_stringify : Request.Payload -> string.
Variable TypeError : string -> Error.
Variable trim : string -> string.

Lemma handleSubmit_ignored state w :
  trim (input state) = "" \/ isLoading state = true ->
  handleSubmit network apiKey JSON_stringify TypeError trim state w = (Normal state, w).
Proof.
  intros Hguard. unfold handleSubmit.
  destruct (String.eqb_spec (trim (input state)) "") as [_|Hne]; [reflexivity|].
  destruct Hguard as [Hblank|Hloading]; [contradiction|]. rewrite Hloading. reflexivity.
Qed.

Lemma handleSubmit_exchange state w :
  trim (input state) <> "" ->
  isLoading state = false ->
  exists reply w',
    callGeminiAPI network apiKey JSON_stringify TypeError (chatHistory state) (trim (input state)) w
    = (Normal reply, w')
    /\ handleSubmit network apiKey JSON_stringify TypeError trim state w =
       (Normal {| chatHistory :=
                    (chatHistory state
                     ++ [ {| role := user; parts := [ {| text := JString (trim (input state)) |} ];
                             sources := None |} ])
                    ++ [ reply ];
                  input := "";
                  isLoading := false |}, w')
    /\ role reply = model
    /\ (exists t, parts reply = [ {| text := t |} ])
    /\ 1 <= Backoff.attempts w w' <= 5.
Proof.
  intros Hne Hidle.
  destruct (ChatClientFacts.callGeminiAPI_total network apiKey JSON_stringify TypeError
              (chatHistory state) (trim (input state)) w)
    as (reply & w' & Hcall & Hrole & Hparts & Hattempts & _).
  exists reply, w'. split; [exact Hcall|]. split; [|auto].
  unfold handleSubmit.
  destruct (String.eqb_spec (trim (input state)) "") as [Heq|_]; [contradiction|].
  rewrite Hidle. cbn [orb]. unfold bind. rewrite Hcall. reflexivity.
Qed.

Lemma conversation_S k : conversation k ++ [ user; model ] = conversation (S k).
Proof.
  unfold conversation. cbn [app replicate concat]. f_equal.
  induction k as [|k IH]; [reflexivity|].
  cbn [replicate concat app]. do 2 f_equal. exact IH.
Qed.

Lemma act_settled action state k w :
  settled k state ->
  exists state' k' w',
    act network apiKey JSON_stringify TypeError trim action state w = (Normal state', w')
    /\ settled k' state'
    /\ (k <= k' <= S k)%nat
    /\ 0 <= Backoff.attempts w w' <= 5 * Z.of_nat (k' - k).
Proof.
  intros (Hidle & Hcontent & Hroles). destruct action as [value|]; cbn [act].
  - eexists _, k, w. split; [reflexivity|]. split; [|split; [lia|]].
    + split; [exact Hidle|]. split; [exact Hcontent|exact Hroles].
    + unfold Backoff.attempts. lia.
  - destruct (String.eqb_spec (trim (input state)) "") as [Hblank|Hne].
    + exists state, k, w. rewrite handleSubmit_ignored by (left; exact Hblank).
      split; [reflexivity|]. split; [|split; [lia|]].
      * split; [exact Hidle|]. split; [exact Hcontent|exact Hroles].
      * unfold Backoff.attempts. lia.
    + destruct (handleSubmit_exchange state w Hne Hidle)
        as (reply & w' & _ & Hrun & Hrole & (t & Hparts) & Hattempts).
      eexists _, (S k), w'. split; [exact Hrun|]. split; [|split; [lia|]].
      * split; [reflexivity|]. cbn [chatHistory]. split.
        -- apply Forall_app. split; [apply Forall_app; split; [exact Hcontent|]|].
           ++ constructor; [|constructor]. eexists. reflexivity.
           ++ constructor; [|constructor]. unfold bubble_content. rewrite Hparts.
              eexists. reflexivity.
        -- rewrite <- app_assoc, fmap_app, Hroles. cbn [app fmap list_fmap].
           rewrite Hrole. apply conversation_S.
      * replace (S k - k)%nat with 1%nat by lia. lia.
Qed.

Lemma session_settled actions :
  forall state k w,
    settled k state ->
    exists state' k' w',
      session network apiKey JSON_stringify TypeError trim actions state w = (Normal state', w')
      /\ settled k' state'
      /\ (k <= k' <= k + length actions)%nat
      /\ 0 <= Backoff.attempts w w' <= 5 * Z.of_nat (k' - k).
Proof.
  induction actions as [|action actions IH]; intros state k w Hsettled; cbn [session].
  - exists state, k, w. split; [reflexivity|]. split; [exact Hsettled|]. split; [cbn; lia|].
    unfold Backoff.attempts. lia.
  - destruct (act_settled action state k w Hsettled)
      as (state1 & k1 & w1 & Hact & Hsettled1 & Hk1 & Hattempts1).
    destruct (IH state1 k1 w1 Hsettled1)
      as (state2 & k2 & w2 & Hrest & Hsettled2 & Hk2 & Hattempts2).
    exists state2, k2, w2. unfold bind. rewrite Hact. split; [exact Hrest|].
    split; [exact Hsettled2|]. split; [cbn [length]; lia|].
    unfold Backoff.attempts in *. lia.
Qed.

End Submissions.

(** X11.  [handleSubmit] does nothing (no fetch, the state as it was) when
    the trimmed input is empty or a reply is awaited.  Otherwise it appends
    exactly two messages to the history, the user's trimmed input and then
    the reply [callGeminiAPI] gives for the previous history and that
    input, and leaves the input box empty and the page not loading; the
    reply has role [model] and one part, and took one to five fetches. *)
Theorem handleSubmit_appends_one_exchange :
  forall network apiKey JSON_stringify TypeError trim state w,
    (trim (input state) = "" \/ isLoading state = true ->
     handleSubmit network apiKey JSON_stringify TypeError trim state w = (Normal state, w))
    /\ (trim (input state) <> "" ->
        isLoading state = false ->
        exists reply w',
          callGeminiAPI network apiKey JSON_stringify TypeError (chatHistory state)
            (trim (input state)) w = (Normal reply, w')
          /\ handleSubmit network apiKey JSON_stringify TypeError trim state w =
             (Normal {| chatHistory :=
                          (chatHistory state
                           ++ [ {| role := user;
                                   parts := [ {| text := JString (trim (input state)) |} ];
                                   sources := None |} ])
                          ++ [ reply ];
                        input := "";
                        isLoading := false |}, w')
          /\ role reply = model
          /\ (exists t, parts reply = [ {| text := t |} ])
          /\ 1 <= Backoff.attempts w w' <= 5).
Proof.
  intros network apiKey JSON_stringify TypeError trim state w. split.
  - apply handleSubmit_ignored.
  - apply handleSubmit_exchange.
Qed.

Lemma handleSubmit_appends_one_exchange_witness :
  handleSubmit Chat.grounded_network "key" Scenarios.stringify Scenarios.engine trim_spaces
    {| chatHistory := [ welcomeMessage ]; input := " "; isLoading := false |} World0
  = (Normal {| chatHistory := [ welcomeMessage ]; input := " "; isLoading := false |}, World0)
  /\ exists reply w',
      callGeminiAPI Chat.grounded_network "key" Scenarios.stringify Scenarios.engine
        [ welcomeMessage ]
        (trim_spaces "TCS?") World0 = (Normal reply, w')
      /\ handleSubmit Chat.grounded_network "key" Scenarios.stringify Scenarios.engine trim_spaces
           {| chatHistory := [ welcomeMessage ]; input := "TCS?"; isLoading := false |} World0
         = (Normal {| chatHistory :=
                        ([ welcomeMessage ]
                         ++ [ {| role := user; parts := [ {| text := JString (trim_spaces "TCS?") |} ];
                                 sources := None |} ])
                        ++ [ reply ];
                      input := "";
                      isLoading := false |}, w')
      /\ role reply = model
      /\ (exists t, parts reply = [ {| text := t |} ])
      /\ 1 <= Backoff.attempts World0 w' <= 5.
Proof.
  split.
  - apply (proj1 (handleSubmit_appends_one_exchange Chat.grounded_network "key"
                    Scenarios.stringify Scenarios.engine trim_spaces
                    {| chatHistory := [ welcomeMessage ]; input := " "; isLoading := false |}
                    World0)).
    left. reflexivity.
  - apply (proj2 (handleSubmit_appends_one_exchange Chat.grounded_network "key"
                    Scenarios.stringify Scenarios.engine trim_spaces
                    {| chatHistory := [ welcomeMessage ]; input := "TCS?"; isLoading := false |}
                    World0)).
    + discriminate.
    + reflexivity.
Defined.

(** X12.  Whatever the user types and submits and whatever the network
    does, a session that starts from the welcome never throws and ends
    with the page not loading, with a history made of the welcome followed
    by [k] exchanges (a user message, then a reply of the model) for some
    [k] no larger than the number of actions, in which every message has
    the first part its bubble reads, and with at most [5 * k] fetches. *)
Theorem session_keeps_the_history_well_formed :
  forall network apiKey JSON_stringify TypeError trim (actions : list Action) w,
  exists state (k : nat) w',
    session network apiKey JSON_stringify TypeError trim actions welcomed w = (Normal state, w')
    /\ isLoading state = false
    /\ SearchPage.role <$> chatHistory state = conversation k
    /\ length (chatHistory state) = (1 + 2 * k)%nat
    /\ Forall (fun message => is_Some (bubble_content message)) (chatHistory state)
    /\ (k <= length actions)%nat
    /\ 0 <= Backoff.attempts w w' <= 5 * Z.of_nat k.
Proof.
  intros network apiKey JSON_stringify TypeError trim actions w.
  destruct (session_settled network apiKey JSON_stringify TypeError trim actions welcomed 0%nat w)
    as (state & k & w' & Hrun & (Hidle & Hcontent & Hroles) & Hk & Hattempts).
  { split; [reflexivity|]. split; [|reflexivity].
    constructor; [|constructor]. eexists. reflexivity. }
  exists state, k, w'. split; [exact Hrun|]. split; [exact Hidle|]. split; [exact Hroles|].
  split; [|split; [exact Hcontent|split; [lia|]]].
  - rewrite <- (length_fmap SearchPage.role), Hroles. unfold conversation. cbn [length].
    f_equal. clear. induction k as [|k IH]; [reflexivity|].
    cbn [replicate concat app length]. rewrite IH. lia.
  - replace (k - 0)%nat with k in Hattempts by lia. exact Hattempts.
Qed.

End ChatPageFacts.

(** ** Properties of the search page *)

Module StockSearchFacts.
Import StockSearch Search.

Section Page.
Variable network : Network FullAnalysisData.
Variable toUpperCase : string -> string.
Variable pathname : string.

(** What [getFullAnalysis] computes, by the outcome of its one fetch. *)
Lemma getFullAnalysis_cases ticker w :
  getFullAnalysis network ticker w =
  match network (fetches w) (API_URL ticker) requestOptions with
  | Resolved response =>
      if ok response then
        match json response with
        | inr result =>
            if String.eqb (advice result) "HOLD"
               && includes (reason_summary result) "Not enough data"
            then (Normal None, logged "Full Analysis Data Fetching Error:" (fetched w))
            else (Normal (Some result), fetched w)
        | inl _ => (Normal None, logged "Full Analysis Data Fetching Error:" (fetched w))
        end
      else (Normal None, logged "Full Analysis Data Fetching Error:" (fetched w))
  | Rejected _ => (Normal None, logged "Full Analysis Data Fetching Error:" (fetched w))
  end.
Proof.
  unfold getFullAnalysis, try_catch, bind, fetch.
  destruct (network (fetches w) (API_URL ticker) requestOptions) as [response|error];
    [|reflexivity].
  destruct (ok response); [|reflexivity]. cbn [negb]. unfold await_json.
  destruct (json response) as [error|result]; [reflexivity|].
  unfold ret at 1.
  destruct (String.eqb (advice result) "HOLD" && includes (reason_summary result) "Not enough data");
    reflexivity.
Qed.

Lemma not_enough_data_test result :
  String.eqb (advice result) "HOLD" && includes (reason_summary result) "Not enough data" = true
  <-> not_enough_data result.
Proof.
  unfold not_enough_data. rewrite andb_true_iff, String.eqb_eq. reflexivity.
Qed.

(** [getFullAnalysis] ends normally after one fetch, with [None] exactly
    when the analysis is unavailable. *)
Lemma getFullAnalysis_total ticker w :
  exists data,
    getFullAnalysis network ticker w =
    (Normal data,
     match data with
     | Some _ => fetched w
     | None => logged "Full Analysis Data Fetching Error:" (fetched w)
     end)
    /\ (data = None <-> unavailable (network (fetches w) (API_URL ticker) requestOptions))
    /\ (forall result,
          data = Some result ->
          exists response,
            network (fetches w) (API_URL ticker) requestOptions = Resolved response
            /\ ok response = true /\ json response = inr result
            /\ ~ not_enough_data result).
Proof.
  rewrite getFullAnalysis_cases.
  destruct (network (fetches w) (API_URL ticker) requestOptions) as [response|error] eqn:Hnet;
    cbn [unavailable].
  - destruct (ok response) eqn:Hok.
    + destruct (json response) as [error|result] eqn:Hjson.
      * exists None. split; [reflexivity|]. split; [|intros ? [=]].
        split; [intros _; right; left; eauto|reflexivity].
      * destruct (String.eqb (advice result) "HOLD"
                  && includes (reason_summary result) "Not enough data") eqn:Htest.
        -- apply not_enough_data_test in Htest.
           exists None. split; [reflexivity|]. split; [|intros ? [=]].
           split; [intros _; right; right; eauto|reflexivity].
        -- exists (Some result). split; [reflexivity|]. split.
           ++ split; [discriminate|].
              intros [Hno|[[error Hno]|(result' & Hres & Hsentinel)]]; try congruence.
              injection Hres as <-. apply not_enough_data_test in Hsentinel. congruence.
           ++ intros result' [= <-]. exists response. repeat split; try assumption.
              intros Hsentinel. apply not_enough_data_test in Hsentinel. congruence.
    + exists None. split; [reflexivity|]. split; [|intros ? [=]].
      split; [intros _; left; reflexivity|reflexivity].
  - exists None. split; [reflexivity|]. split; [|intros ? [=]]. split; auto.
Qed.

Lemma handleSearch_empty state w :
  handleSearch network toUpperCase "" state w =
  (Normal {| ticker := ticker state;
             analysisData := analysisData state;
             isLoading := isLoading state;
             error := Some "Please enter a stock ticker (e.g., RELIANCE).";
             pushedUrl := pushedUrl state |}, w).
Proof. reflexivity. Qed.

Lemma handleSearch_nonempty searchTicker state w :
  searchTicker <> "" ->
  exists data w',
    getFullAnalysis network (toUpperCase searchTicker) w = (Normal data, w')
    /\ Backoff.attempts w w' = 1
    /\ handleSearch network toUpperCase searchTicker state w =
       (Normal {| ticker := ticker state;
                  analysisData := data;
                  isLoading := false;
                  error := match data with
                           | Some _ => None
                           | None => Some ("Failed to load data for " +:+ searchTicker
                                           +:+ ". Check the ticker or try again.")
                           end;
                  pushedUrl := Some ("?ticker=" +:+ searchTicker) |}, w').
Proof.
  intros Hne.
  destruct (getFullAnalysis_total (toUpperCase searchTicker) w) as (data & Hrun & _).
  eexists data, _. split; [exact Hrun|]. split.
  - unfold Backoff.attempts. destruct data; cbn [logged fetched fetches]; lia.
  - unfold handleSearch. destruct (String.eqb_spec searchTicker "") as [|_]; [contradiction|].
    unfold bind. rewrite Hrun. destruct data; reflexivity.
Qed.

Lemma act_coherent action state w :
  coherent state ->
  exists state' w',
    act network toUpperCase pathname action state w = (Normal state', w')
    /\ coherent state'
    /\ 0 <= Backoff.attempts w w' <= 1.
Proof.
  intros (Hidle & Hone & Hticker).
  assert (Hstay : exists state' w',
             (Normal state, w) = (@Normal SearchState state', w')
             /\ coherent state' /\ 0 <= Backoff.attempts w w' <= 1).
  { exists state, w. split; [reflexivity|]. split; [repeat split; assumption|].
    unfold Backoff.attempts. lia. }
  assert (Hsearch : forall searchTicker state0,
             searchTicker <> "" ->
             ticker state0 = searchTicker ->
             exists state' w',
               handleSearch network toUpperCase searchTicker state0 w = (Normal state', w')
               /\ coherent state' /\ 0 <= Backoff.attempts w w' <= 1).
  { intros searchTicker state0 Hne Hsame.
    destruct (handleSearch_nonempty searchTicker state0 w Hne) as (data & w' & _ & Hone' & Hrun).
    eexists _, w'. split; [exact Hrun|]. split; [|lia].
    split; [reflexivity|]. cbn [analysisData error ticker]. split.
    - destruct data; auto.
    - intros _. congruence. }
  destruct action as [[[|a t]|]|value| |]; cbn [act]; try exact Hstay.
  - apply Hsearch; [discriminate|reflexivity].
  - destruct (analysisData state) eqn:Hdata; [exact Hstay|].
    eexists _, w. split; [reflexivity|]. split.
    + split; [exact Hidle|]. cbn [analysisData error ticker]. try rewrite Hdata.
      split; [auto|]. intros [? [=]].
    + unfold Backoff.attempts. lia.
  - destruct (analysisData state) eqn:Hdata; [exact Hstay|].
    destruct (String.eqb_spec (ticker state) "") as [Hblank|Hne].
    + rewrite Hblank, handleSearch_empty. eexists _, w. split; [reflexivity|]. split.
      * split; [exact Hidle|]. cbn [analysisData error ticker]. try rewrite Hdata.
        split; [auto|]. intros [? [=]].
      * unfold Backoff.attempts. lia.
    + apply Hsearch; [exact Hne|reflexivity].
  - destruct (analysisData state) eqn:Hdata; [|exact Hstay].
    eexists _, w. split; [reflexivity|]. split.
    + split; [exact Hidle|]. cbn [handleBack analysisData error ticker].
      split; [auto|]. intros [? [=]].
    + unfold Backoff.attempts. lia.
Qed.

Lemma session_coherent actions :
  forall state w,
    coherent state ->
    exists state' w',
      session network toUpperCase pathname actions state w = (Normal state', w')
      /\ coherent state'
      /\ 0 <= Backoff.attempts w w' <= Z.of_nat (length actions).
Proof.
  induction actions as [|action actions IH]; intros state w Hcoherent; cbn [session].
  - exists state, w. split; [reflexivity|]. split; [exact Hcoherent|].
    unfold Backoff.attempts. cbn [length]. lia.
  - destruct (act_coherent action state w Hcoherent) as (state1 & w1 & Hact & Hc1 & Ha1).
    destruct (IH state1 w1 Hc1) as (state2 & w2 & Hrest & Hc2 & Ha2).
    exists state2, w2. unfold bind. rewrite Hact. split; [exact Hrest|].
    split; [exact Hc2|]. unfold Backoff.attempts in *. cbn [length]. lia.
Qed.

End Page.

(** X13.  [getFullAnalysis] never throws and never retries: after exactly
    one fetch and no timer it returns the parsed analysis, or [null] with
    the error logged.  It returns [null] exactly when the fetch was
    rejected, the response is not ok, the body does not parse, or the
    analysis is the unknown-ticker one (advice "HOLD" with a reason that
    mentions "Not enough data"), even though that one arrives as a
    success. *)
Theorem getFullAnalysis_never_throws :
  forall (network : Network FullAnalysisData) ticker w,
  exists data w',
    getFullAnalysis network ticker w = (Normal data, w')
    /\ Backoff.attempts w w' = 1
    /\ timers w' = timers w
    /\ (data = None <-> unavailable (network (fetches w) (API_URL ticker) requestOptions))
    /\ (data = None -> console w' = console w ++ [ "Full Analysis Data Fetching Error:" ])
    /\ (forall result,
          data = Some result ->
          console w' = console w
          /\ exists response,
              network (fetches w) (API_URL ticker) requestOptions = Resolved response
              /\ ok response = true /\ json response = inr result
              /\ ~ not_enough_data result).
Proof.
  intros network ticker w.
  destruct (getFullAnalysis_total network ticker w) as (data & Hrun & Hnone & Hsome).
  eexists data, _. split; [exact Hrun|].
  split; [|split; [|split; [exact Hnone|split]]].
  - unfold Backoff.attempts. destruct data; cbn [logged fetched fetches]; lia.
  - destruct data; reflexivity.
  - intros ->. reflexivity.
  - intros result ->. split; [reflexivity|]. apply Hsome. reflexivity.
Qed.

Lemma getFullAnalysis_never_throws_witness :
  exists data w',
    getFullAnalysis backend "TCS" World0 = (Normal data, w')
    /\ Backoff.attempts World0 w' = 1
    /\ timers w' = timers World0
    /\ data = None
    /\ console w' = console World0 ++ [ "Full Analysis Data Fetching Error:" ].
Proof.
  destruct (getFullAnalysis_never_throws backend "TCS" World0)
    as (data & w' & Hrun & Hone & Htimers & Hnone & Hlog & _).
  assert (Hdata : data = None).
  { apply Hnone. right. right. eexists. split; [reflexivity|]. split; reflexivity. }
  exists data, w'. repeat split; try assumption. apply Hlog, Hdata.
Defined.

(** X14.  [handleSearch] with an empty ticker fetches nothing and only
    sets the "Please enter a stock ticker" error.  With a ticker it asks
    [getFullAnalysis] once, for the upper-cased ticker, hands the text
    "?ticker=" followed by the ticker as typed to [pushState] (what address
    the browser makes of that text is not stated), and ends not loading,
    showing either the analysis with no error, or no analysis and the
    "Failed to load data" error for that ticker. *)
Theorem handleSearch_shows_analysis_or_error :
  forall (network : Network FullAnalysisData) toUpperCase searchTicker state w,
    (searchTicker = "" ->
     handleSearch network toUpperCase searchTicker state w =
     (Normal {| ticker := ticker state;
                analysisData := analysisData state;
                isLoading := isLoading state;
                error := Some "Please enter a stock ticker (e.g., RELIANCE).";
                pushedUrl := pushedUrl state |}, w))
    /\ (searchTicker <> "" ->
        exists data w',
          getFullAnalysis network (toUpperCase searchTicker) w = (Normal data, w')
          /\ Backoff.attempts w w' = 1
          /\ handleSearch network toUpperCase searchTicker state w =
             (Normal {| ticker := ticker state;
                        analysisData := data;
                        isLoading := false;
                        error := match data with
                                 | Some _ => None
                                 | None => Some ("Failed to load data for " +:+ searchTicker
                                                 +:+ ". Check the ticker or try again.")
                                 end;
                        pushedUrl := Some ("?ticker=" +:+ searchTicker) |}, w')).
Proof.
  intros network toUpperCase searchTicker state w. split.
  - intros ->. apply handleSearch_empty.
  - apply handleSearch_nonempty.
Qed.

Lemma handleSearch_shows_analysis_or_error_witness :
  handleSearch backend upper "" opened World0 =
  (Normal {| ticker := ""; analysisData := None; isLoading := false;
             error := Some "Please enter a stock ticker (e.g., RELIANCE).";
             pushedUrl := None |}, World0)
  /\ exists data w',
      getFullAnalysis backend (upper "reliance") World0 = (Normal data, w')
      /\ Backoff.attempts World0 w' = 1
      /\ handleSearch backend upper "reliance" opened World0 =
         (Normal {| ticker := "";
                    analysisData := data;
                    isLoading := false;
                    error := match data with
                             | Some _ => None
                             | None => Some ("Failed to load data for " +:+ "reliance"
                                             +:+ ". Check the ticker or try again.")
                             end;
                    pushedUrl := Some ("?ticker=" +:+ "reliance") |}, w').
Proof.
  split.
  - apply (proj1 (handleSearch_shows_analysis_or_error backend upper "" opened World0)).
    reflexivity.
  - apply (proj2 (handleSearch_shows_analysis_or_error backend upper "reliance" opened
                    World0)).
    discriminate.
Defined.

(** X15.  Whatever is typed, searched and reset, and whatever the network
    does, the search page never throws and never stays loading once a
    handler has run; it never shows an analysis and an error together; an
    analysis is shown only for a ticker that is not empty; and each action
    costs at most one fetch. *)
Theorem search_session_stays_coherent :
  forall (network : Network FullAnalysisData) toUpperCase pathname (actions : list Action) w,
  exists state w',
    session network toUpperCase pathname actions opened w = (Normal state, w')
    /\ isLoading state = false
    /\ (analysisData state = None \/ error state = None)
    /\ (is_Some (analysisData state) -> ticker state <> "")
    /\ 0 <= Backoff.attempts w w' <= Z.of_nat (length actions).
Proof.
  intros network toUpperCase pathname actions w.
  destruct (session_coherent network toUpperCase pathname actions opened w)
    as (state & w' & Hrun & (Hidle & Hone & Hticker) & Hattempts).
  { split; [reflexivity|]. split; [left; reflexivity|]. intros [? [=]]. }
  exists state, w'. repeat split; try assumption; lia.
Qed.

Lemma search_session_stays_coherent_witness :
  exists state w',
    session backend upper "/search"
      [ Mounted (Some "TCS"); Typed "reliance"; SearchClicked; Typed "x" ]
      opened World0 = (Normal state, w')
    /\ isLoading state = false
    /\ (analysisData state = None \/ error state = None)
    /\ (is_Some (analysisData state) -> ticker state <> "")
    /\ 0 <= Backoff.attempts World0 w' <= Z.of_nat 4.
Proof.
  apply (search_session_stays_coherent backend upper "/search"
           [ Mounted (Some "TCS"); Typed "reliance"; SearchClicked; Typed "x" ]
           World0).
Defined.

End StockSearchFacts.

(** ** Properties of the trending page component *)

Module TrendingClientFacts.
Import TrendingPage TrendingClient.

(** [getTrendingStocks] always returns, after one fetch. *)
Lemma getTrendingStocks_total (network : Network ApiResponse) w :
  exists fetchedStocks w',
    getTrendingStocks network w = (Normal fetchedStocks, w')
    /\ Backoff.attempts w w' = 1.
Proof.
  rewrite TrendingPageFacts.getTrendingStocks_cases.
  assert (Hone : forall label, Backoff.attempts w (logged label (fetched w)) = 1)
    by (intros label; unfold Backoff.attempts; cbn [logged fetched fetches]; lia).
  assert (Hone' : Backoff.attempts w (fetched w) = 1)
    by (unfold Backoff.attempts; cbn [fetched fetches]; lia).
  destruct (network (fetches w) API_URL requestOptions) as [response|error]; [|eauto].
  destruct (ok response); [|eauto].
  destruct (json response) as [error|result]; [eauto|].
  destruct (success result); eauto.
Qed.

(** X16.  The mount effect always takes the page out of its loading view,
    after exactly one fetch: the page then renders its list view, titled by
    the number of stocks; with no stock it renders the empty-state panel
    and neither the slideshow nor the list, and with stocks it renders the
    slideshow and no empty-state panel. *)
Theorem fetchData_always_leaves_loading :
  forall (network : Network ApiResponse) w,
  exists fetchedStocks w',
    fetchData network mounted w =
    (Normal {| stocks := fetchedStocks; isLoading := false; selectedStock := None |}, w')
    /\ getTrendingStocks network w = (Normal fetchedStocks, w')
    /\ Backoff.attempts w w' = 1
    /\ (fetchedStocks = [] ->
        render {| stocks := fetchedStocks; isLoading := false; selectedStock := None |}
        = ListView "No Trending Stocks Found" true None None)
    /\ (fetchedStocks <> [] ->
        exists trendingList,
          render {| stocks := fetchedStocks; isLoading := false; selectedStock := None |}
          = ListView (stockCountText fetchedStocks) false
              (Some (top5Stocks fetchedStocks)) trendingList
          /\ top5Stocks fetchedStocks <> []).
Proof.
  intros network w.
  destruct (getTrendingStocks_total network w) as (fetchedStocks & w' & Hrun & Hone).
  exists fetchedStocks, w'. split; [|split; [exact Hrun|split; [exact Hone|split]]].
  - unfold fetchData, bind. rewrite Hrun. reflexivity.
  - intros ->. reflexivity.
  - intros Hne. destruct fetchedStocks as [|stock rest]; [contradiction|].
    eexists. split; [|discriminate].
    unfold render. cbn [isLoading selectedStock stocks].
    unfold hasData, top5Stocks. cbn [take length].
    destruct (Z.gtb_spec (Z.of_nat (S (length rest))) 0) as [_|]; [|lia].
    destruct (Z.gtb_spec (Z.of_nat (S (length (take 4 rest)))) 0) as [_|]; [|lia].
    reflexivity.
Qed.

Lemma fetchData_always_leaves_loading_witness :
  exists fetchedStocks w',
    fetchData Scenarios.unavailable_network mounted World0 =
    (Normal {| stocks := fetchedStocks; isLoading := false; selectedStock := None |}, w')
    /\ Backoff.attempts World0 w' = 1
    /\ render {| stocks := fetchedStocks; isLoading := false; selectedStock := None |}
       = ListView "No Trending Stocks Found" true None None.
Proof.
  destruct (fetchData_always_leaves_loading Scenarios.unavailable_network World0)
    as (fetchedStocks & w' & Hrun & Hget & Hone & Hempty & _).
  exists fetchedStocks, w'. split; [exact Hrun|]. split; [exact Hone|].
  apply Hempty. vm_compute in Hget. congruence.
Defined.

(** X17.  When the endpoint answers successfully with a list of stocks,
    the two lists of the page split the ranked stocks without loss or
    overlap: the slideshow gets at most five stocks, which it shows as they
    are, ranked 1 to 5 in order, the slide at [currentIndex] carrying rank
    [currentIndex + 1]; the list under "Rank n onwards", with
    [n = top5Stocks.length + 1], carries the ranks n, n + 1, ... in order. *)
Theorem slideshow_and_list_share_the_ranks :
  forall (network : Network ApiResponse) w response result received,
    network (fetches w) API_URL requestOptions = Resolved response ->
    ok response = true ->
    json response = inr result ->
    success result = true ->
    results result = Some received ->
    exists ranked w',
      getTrendingStocks network w = (Normal ranked, w')
      /\ top5Stocks ranked ++ remainingStocks ranked = ranked
      /\ (length (top5Stocks ranked) <= 5)%nat
      /\ StockScene.slides (top5Stocks ranked) = top5Stocks ranked
      /\ (forall (index : nat) stock,
            top5Stocks ranked !! index = Some stock -> rank stock = Z.of_nat index + 1)
      /\ (forall currentIndex stock,
            StockScene.current_slide (top5Stocks ranked) currentIndex = Some stock ->
            rank stock = currentIndex + 1)
      /\ (forall (index : nat) stock,
            remainingStocks ranked !! index = Some stock ->
            rank stock = Z.of_nat (length (top5Stocks ranked)) + 1 + Z.of_nat index).
Proof.
  intros network w response result received Hnet Hok Hjson Hsuccess Hresults.
  rewrite TrendingPageFacts.getTrendingStocks_cases, Hnet, Hok, Hjson, Hsuccess, Hresults.
  change (default [] (Some received)) with received.
  set (ranked := imap (fun index stock => spread_with_rank stock (Z.of_nat index + 1)) received).
  assert (Hrank : forall (index : nat) stock,
             ranked !! index = Some stock -> rank stock = Z.of_nat index + 1).
  { intros index stock Hlookup. unfold ranked in Hlookup.
    rewrite list_lookup_imap in Hlookup.
    destruct (received !! index); [|discriminate]. injection Hlookup as <-. reflexivity. }
  assert (Htop : forall (index : nat) stock,
             top5Stocks ranked !! index = Some stock -> rank stock = Z.of_nat index + 1).
  { intros index stock Hlookup. unfold top5Stocks in Hlookup.
    apply lookup_take_Some in Hlookup as [Hlookup _]. apply Hrank, Hlookup. }
  exists ranked, (fetched w). split; [reflexivity|].
  split; [apply take_drop|]. split; [|split; [|split; [exact Htop|split]]].
  - unfold top5Stocks. rewrite length_take. lia.
  - unfold StockScene.slides, top5Stocks. apply take_take.
  - intros currentIndex stock Hslide. unfold StockScene.current_slide in Hslide.
    destruct (Z.ltb_spec currentIndex 0); [discriminate|].
    unfold StockScene.slides in Hslide. apply lookup_take_Some in Hslide as [Hslide _].
    rewrite (Htop _ _ Hslide). lia.
  - intros index stock Hlookup. unfold remainingStocks in Hlookup.
    rewrite lookup_drop in Hlookup. rewrite (Hrank _ _ Hlookup).
    assert (5 <= length ranked)%nat.
    { apply lookup_lt_Some in Hlookup. lia. }
    unfold top5Stocks. rewrite length_take. lia.
Qed.

Lemma slideshow_and_list_share_the_ranks_witness :
  exists ranked w',
    getTrendingStocks seven_network World0 = (Normal ranked, w')
    /\ top5Stocks ranked ++ remainingStocks ranked = ranked
    /\ (length (top5Stocks ranked) <= 5)%nat
    /\ StockScene.slides (top5Stocks ranked) = top5Stocks ranked
    /\ (forall (index : nat) stock,
          top5Stocks ranked !! index = Some stock -> rank stock = Z.of_nat index + 1)
    /\ (forall currentIndex stock,
          StockScene.current_slide (top5Stocks ranked) currentIndex = Some stock ->
          rank stock = currentIndex + 1)
    /\ (forall (index : nat) stock,
          remainingStocks ranked !! index = Some stock ->
          rank stock = Z.of_nat (length (top5Stocks ranked)) + 1 + Z.of_nat index).
Proof.
  apply (slideshow_and_list_share_the_ranks seven_network World0
           (Scenarios.response_of 200 "OK"
              {| success := true; message := "ok"; results := Some seven |})
           {| success := true; message := "ok"; results := Some seven |} seven); reflexivity.
Defined.

End TrendingClientFacts.

(** ** Properties of the details component *)

Module StockDetailsComponentFacts.
Import StockDetailsComponent.

(** The outcomes of the fetch that leave no details to show. *)
Lemma fetchDetails_cases (network : Network LiveStockDetails) ticker state w :
  fetchDetails network ticker state w =
  let failed :=
    (Normal {| liveDetails := None; isLoadingDetails := false;
               activeTimeframe := activeTimeframe state |},
     logged ("Error fetching details for " +:+ ticker +:+ ":") (fetched w)) in
  match network (fetches w) (API_URL ticker) requestOptions with
  | Resolved response =>
      if ok response then
        match json response with
        | inr data =>
            (Normal {| liveDetails := Some data; isLoadingDetails := false;
                       activeTimeframe := activeTimeframe state |}, fetched w)
        | inl _ => failed
        end
      else failed
  | Rejected _ => failed
  end.
Proof.
  unfold fetchDetails, try_catch, bind, fetch. cbv zeta.
  destruct (network (fetches w) (API_URL ticker) requestOptions) as [response|error];
    [|reflexivity].
  destruct (ok response); [|reflexivity]. cbn [negb]. unfold await_json.
  destruct (json response) as [error|data]; reflexivity.
Qed.

(** X18.  The effect of [StockDetails] never throws and always ends the
    loading view, after exactly one fetch, keeping the active timeframe.
    It leaves the details when the response is ok and its body parses, and
    otherwise (a rejected fetch, a response that is not ok, a body that does
    not parse) it logs the error for the ticker and leaves [null], for
    which the component renders its error view. *)
Theorem fetchDetails_always_leaves_loading :
  forall (network : Network LiveStockDetails) ticker state w,
  exists details w',
    fetchDetails network ticker state w =
    (Normal {| liveDetails := details; isLoadingDetails := false;
               activeTimeframe := activeTimeframe state |}, w')
    /\ Backoff.attempts w w' = 1
    /\ timers w' = timers w
    /\ (forall data,
          details = Some data <->
          exists response,
            network (fetches w) (API_URL ticker) requestOptions = Resolved response
            /\ ok response = true /\ json response = inr data)
    /\ (details = None ->
        console w' = console w ++ [ "Error fetching details for " +:+ ticker +:+ ":" ]
        /\ render {| liveDetails := details; isLoadingDetails := false;
                     activeTimeframe := activeTimeframe state |} = ErrorView)
    /\ (forall data,
          details = Some data ->
          console w' = console w
          /\ render {| liveDetails := details; isLoadingDetails := false;
                       activeTimeframe := activeTimeframe state |} = DetailsView data).
Proof.
  intros network ticker state w. rewrite fetchDetails_cases. cbv zeta.
  assert (Hfail :
            (forall data,
                ~ exists response,
                    network (fetches w) (API_URL ticker) requestOptions = Resolved response
                    /\ ok response = true /\ json response = inr data) ->
            exists details w',
              (Normal {| liveDetails := None; isLoadingDetails := false;
                         activeTimeframe := activeTimeframe state |},
               logged ("Error fetching details for " +:+ ticker +:+ ":") (fetched w))
              = (Normal {| liveDetails := details; isLoadingDetails := false;
                           activeTimeframe := activeTimeframe state |}, w')
              /\ Backoff.attempts w w' = 1
              /\ timers w' = timers w
              /\ (forall data,
                    details = Some data <->
                    exists response,
                      network (fetches w) (API_URL ticker) requestOptions = Resolved response
                      /\ ok response = true /\ json response = inr data)
              /\ (details = None ->
                  console w' = console w ++ [ "Error fetching details for " +:+ ticker +:+ ":" ]
                  /\ render {| liveDetails := details; isLoadingDetails := false;
                               activeTimeframe := activeTimeframe state |} = ErrorView)
              /\ (forall data,
                    details = Some data ->
                    console w' = console w
                    /\ render {| liveDetails := details; isLoadingDetails := false;
                                 activeTimeframe := activeTimeframe state |} = DetailsView data)).
  { intros Hno. exists None. eexists. split; [reflexivity|].
    split; [unfold Backoff.attempts; cbn [logged fetched fetches]; lia|].
    split; [reflexivity|]. split; [|split].
    - intros data. split; [discriminate|]. intros H. exfalso. apply (Hno data H).
    - intros _. split; reflexivity.
    - intros data [=]. }
  destruct (network (fetches w) (API_URL ticker) requestOptions) as [response|error] eqn:Hnet.
  - destruct (ok response) eqn:Hok.
    + destruct (json response) as [error|data] eqn:Hjson.
      * apply Hfail. intros data (response' & [= <-] & _ & Hjson'). congruence.
      * exists (Some data). eexists. split; [reflexivity|].
        split; [unfold Backoff.attempts; cbn [fetched fetches]; lia|].
        split; [reflexivity|]. split; [|split].
        -- intros data'. split.
           ++ intros [= <-]. exists response. auto.
           ++ intros (response' & [= <-] & _ & Hjson'). congruence.
        -- discriminate.
        -- intros data' [= <-]. split; reflexivity.
    + apply Hfail. intros data (response' & [= <-] & Hok' & _). congruence.
  - apply Hfail. intros data (response' & [=] & _).
Qed.

Lemma fetchDetails_always_leaves_loading_witness :
  fetchDetails details_network "TCS" mounted World0 =
  (Normal {| liveDetails := Some week_only; isLoadingDetails := false;
             activeTimeframe := "1 Week" |}, fetched World0)
  /\ render {| liveDetails := Some week_only; isLoadingDetails := false;
               activeTimeframe := "1 Week" |} = DetailsView week_only.
Proof.
  destruct (fetchDetails_always_leaves_loading details_network "TCS" mounted World0)
    as (details & w' & Hrun & _ & _ & Hsome & _ & Hshown).
  assert (Hdetails : details = Some week_only).
  { apply Hsome. eexists. split; [reflexivity|]. split; reflexivity. }
  split; [reflexivity|]. rewrite <- Hdetails. apply (Hshown week_only Hdetails).
Defined.

(** X19.  The chart panel of [StockDetails] has three outcomes, decided
    by the series [historical_data] holds for the active timeframe.  No
    entry for that label: the "No chart data available for this timeframe."
    line.  An empty series: the "No data available for chart." line of
    [PriceChart].  A series with points: one line whose points are the
    prices in order, with one label per point, drawn green when the last
    price is at least the first and red otherwise, and filled with the
    same colour followed by "33". *)
Theorem chartPanel_outcomes :
  forall toLocaleDateString details (activeTimeframe : string),
    (historical_data details !! activeTimeframe = None ->
     chartPanel toLocaleDateString details activeTimeframe = NoChartDataForTimeframe)
    /\ (historical_data details !! activeTimeframe = Some [] ->
        chartPanel toLocaleDateString details activeTimeframe = NoDataForChart)
    /\ (forall first rest,
          historical_data details !! activeTimeframe = Some (first :: rest) ->
          exists pointLabels line,
            chartPanel toLocaleDateString details activeTimeframe
            = Line {| labels := Some pointLabels; datasets := [ line ] |}
            /\ data line = price <$> (first :: rest)
            /\ pointLabels = (fun d => toLocaleDateString (date d)) <$> (first :: rest)
            /\ length pointLabels = length (data line)
            /\ borderColor line =
               (if PrimFloat.leb (price first) (price (default first (last rest)))
                then "rgb(16,185,129)" else "rgb(239,68,68)")
            /\ backgroundColor line = borderColor line +:+ "33").
Proof.
  intros toLocaleDateString details activeTimeframe. unfold chartPanel.
  split; [intros ->; reflexivity|]. split; [intros ->; reflexivity|].
  intros first rest ->. unfold chartData.
  assert (Hlast : last (first :: rest) = Some (default first (last rest))).
  { rewrite last_cons. destruct (last rest); reflexivity. }
  rewrite Hlast. eexists _, _. split; [reflexivity|].
  cbn [data borderColor backgroundColor]. repeat split.
  rewrite !length_fmap. reflexivity.
Qed.

Lemma chartPanel_outcomes_witness :
  chartPanel iso_date week_only "5 Year" = NoChartDataForTimeframe
  /\ chartPanel iso_date week_only "1 Day" = NoDataForChart
  /\ exists pointLabels line,
      chartPanel iso_date week_only "1 Week"
      = Line {| labels := Some pointLabels; datasets := [ line ] |}
      /\ data line = [ 100%float; 104.5%float ]
      /\ pointLabels = [ "2025-01-06"; "2025-01-07" ]
      /\ borderColor line = "rgb(16,185,129)"
      /\ backgroundColor line = "rgb(16,185,129)33".
Proof.
  destruct (chartPanel_outcomes iso_date week_only "5 Year") as (Hnone & _ & _).
  destruct (chartPanel_outcomes iso_date week_only "1 Day") as (_ & Hempty & _).
  destruct (chartPanel_outcomes iso_date week_only "1 Week") as (_ & _ & Hline).
  split; [apply Hnone; reflexivity|]. split; [apply Hempty; reflexivity|].
  destruct (Hline {| date := "2025-01-06"; price := 100%float |}
                  [ {| date := "2025-01-07"; price := 104.5%float |} ] eq_refl)
    as (pointLabels & line & Hpanel & Hdata & Hlabels & _ & Hcolor & Hfill).
  exists pointLabels, line. split; [exact Hpanel|]. split; [exact Hdata|].
  split; [exact Hlabels|]. split; [exact Hcolor|]. rewrite Hfill, Hcolor. reflexivity.
Defined.

(** X20.  The cards of "Key Financial Metrics" are the four fundamentals,
    in a fixed order, followed by one card per additional metric, in the
    order of the entries.  A fundamental that the backend left out reads
    "N/A".  The four fundamentals are never highlighted; an additional
    metric is highlighted exactly when its key includes "High" or "Low". *)
Theorem financialMetrics_cards :
  forall details : LiveStockDetails,
    key <$> financialMetrics details
    = [ "Market Cap"; "P/E Ratio"; "Forward P/E"; "Debt/Equity" ]
      ++ (fst <$> additional_metrics details)
    /\ (MarketCap (fundamentals details) = None ->
        value <$> financialMetrics details !! 0%nat = Some (Text "N/A"))
    /\ (TrailingPE (fundamentals details) = None ->
        value <$> financialMetrics details !! 1%nat = Some (Text "N/A"))
    /\ (ForwardPE (fundamentals details) = None ->
        value <$> financialMetrics details !! 2%nat = Some (Text "N/A"))
    /\ (DebtToEquity (fundamentals details) = None ->
        value <$> financialMetrics details !! 3%nat = Some (Text "N/A"))
    /\ (forall (index : nat) metric,
          financialMetrics details !! index = Some metric ->
          (index < 4)%nat -> isHighlight metric = false)
    /\ (forall (index : nat) name shown,
          additional_metrics details !! index = Some (name, shown) ->
          financialMetrics details !! (4 + index)%nat
          = Some {| key := name; value := Text shown; unit := "";
                    isHighlight := includes name "High" || includes name "Low" |}).
Proof.
  intros details. unfold financialMetrics, initialMetrics.
  split; [|split; [|split; [|split; [|split; [|split]]]]].
  - rewrite fmap_app. cbn [fmap list_fmap key]. do 4 f_equal.
    unfold additionalMetricsList. induction (additional_metrics details) as [|[k v] l IH];
      [reflexivity|]. cbn [map fmap list_fmap key fst]. f_equal. exact IH.
  - intros ->. reflexivity.
  - intros ->. reflexivity.
  - intros ->. reflexivity.
  - intros ->. reflexivity.
  - intros index metric Hlookup Hlt.
    destruct index as [|[|[|[|index]]]]; [| | | |lia];
      cbn in Hlookup; injection Hlookup as <-; reflexivity.
  - intros index name shown Hlookup.
    rewrite lookup_app_r by (cbn [length]; lia).
    replace (4 + index - length _)%nat with index by (cbn [length]; lia).
    unfold additionalMetricsList. change (map ?f ?l) with (f <$> l).
    rewrite list_lookup_fmap, Hlookup. reflexivity.
Qed.

Lemma financialMetrics_cards_witness :
  key <$> financialMetrics week_only
  = [ "Market Cap"; "P/E Ratio"; "Forward P/E"; "Debt/Equity"; "52W High"; "52W Low"; "Beta" ]
  /\ value <$> financialMetrics week_only !! 1%nat = Some (Text "N/A")
  /\ value <$> financialMetrics week_only !! 3%nat = Some (Text "N/A")
  /\ financialMetrics week_only !! (4 + 2)%nat
     = Some {| key := "Beta"; value := Text "1.1"; unit := "";
               isHighlight := includes "Beta" "High" || includes "Beta" "Low" |}.
Proof.
  destruct (financialMetrics_cards week_only) as (Hkeys & _ & Hpe & _ & Hde & _ & Hextra).
  split; [exact Hkeys|]. split; [apply Hpe; reflexivity|]. split; [apply Hde; reflexivity|].
  apply (Hextra 2%nat "Beta" "1.1"). reflexivity.
Defined.

End StockDetailsComponentFacts.

(** ** More on the slideshow *)

Module SlideshowFacts.
Import StockScene.

Section Slideshow.
Context {Stock : Type}.
Variable stocks : list Stock.
Hypothesis nonempty : slides stocks <> [].

Lemma goToNext_value prevIndex :
  0 <= prevIndex < slides_length stocks ->
  goToNext stocks prevIndex =
  if prevIndex + 1 =? slides_length stocks then 0 else prevIndex + 1.
Proof.
  intros Hin. unfold goToNext.
  destruct (Z.eqb_spec (prevIndex + 1) (slides_length stocks)) as [Heq|Hne].
  - rewrite Heq. apply Z.rem_same. lia.
  - apply Z.rem_small. lia.
Qed.

Lemma goToPrev_value prevIndex :
  0 <= prevIndex < slides_length stocks ->
  goToPrev stocks prevIndex =
  if prevIndex =? 0 then slides_length stocks - 1 else prevIndex - 1.
Proof.
  intros Hin. unfold goToPrev.
  destruct (Z.eqb_spec prevIndex 0) as [->|Hne].
  - replace (0 - 1 + slides_length stocks) with (slides_length stocks - 1) by lia.
    apply Z.rem_small. lia.
  - replace (prevIndex - 1 + slides_length stocks)
      with (prevIndex - 1 + 1 * slides_length stocks) by lia.
    rewrite Z.rem_add by nia. apply Z.rem_small. lia.
Qed.

(** [n] auto-advances in a row. *)
Lemma auto_advances (n : nat) :
  forall currentIndex,
    0 <= currentIndex < slides_length stocks ->
    fold_left (fun currentIndex event => setCurrentIndex stocks event currentIndex)
      (replicate n AutoAdvance) currentIndex
    = (currentIndex + Z.of_nat n) mod slides_length stocks.
Proof.
  pose proof (StockSceneFacts.slides_length_pos stocks nonempty) as Hpos.
  induction n as [|n IH]; intros currentIndex Hin; cbn [replicate fold_left].
  - rewrite Z.add_0_r, Z.mod_small by lia. reflexivity.
  - cbn [setCurrentIndex]. rewrite Z.rem_mod_nonneg by lia.
    rewrite IH by (apply Z.mod_pos_bound; lia).
    rewrite Zplus_mod_idemp_l. f_equal. lia.
Qed.

End Slideshow.

(** X21.  On a slideshow with at least one slide, the two arrow buttons
    undo each other: from any index within the slides, next then previous,
    and previous then next, both come back to that index; next wraps from
    the last slide to the first, previous from the first to the last. *)
Theorem next_and_prev_undo_each_other :
  forall (Stock : Type) (stocks : list Stock) (index : Z),
    slides stocks <> [] ->
    0 <= index < slides_length stocks ->
    goToPrev stocks (goToNext stocks index) = index
    /\ goToNext stocks (goToPrev stocks index) = index
    /\ goToNext stocks (slides_length stocks - 1) = 0
    /\ goToPrev stocks 0 = slides_length stocks - 1.
Proof.
  intros Stock stocks index Hnonempty Hin.
  pose proof (StockSceneFacts.slides_length_pos stocks Hnonempty) as Hpos.
  split; [|split; [|split]].
  - rewrite (goToNext_value stocks index Hin).
    destruct (Z.eqb_spec (index + 1) (slides_length stocks)) as [Heq|Hne].
    + rewrite goToPrev_value by lia. cbn. lia.
    + rewrite goToPrev_value by lia.
      destruct (Z.eqb_spec (index + 1) 0); lia.
  - rewrite (goToPrev_value stocks index Hin).
    destruct (Z.eqb_spec index 0) as [->|Hne].
    + rewrite goToNext_value by lia.
      destruct (Z.eqb_spec (slides_length stocks - 1 + 1) (slides_length stocks)); lia.
    + rewrite goToNext_value by lia.
      destruct (Z.eqb_spec (index - 1 + 1) (slides_length stocks)); lia.
  - rewrite goToNext_value by lia.
    destruct (Z.eqb_spec (slides_length stocks - 1 + 1) (slides_length stocks)); lia.
  - rewrite goToPrev_value by lia. reflexivity.
Qed.

Lemma next_and_prev_undo_each_other_witness :
  goToPrev [ "a"; "b"; "c" ] (goToNext [ "a"; "b"; "c" ] 2) = 2
  /\ goToNext [ "a"; "b"; "c" ] (goToPrev [ "a"; "b"; "c" ] 2) = 2
  /\ goToNext [ "a"; "b"; "c" ] (slides_length [ "a"; "b"; "c" ] - 1) = 0
  /\ goToPrev [ "a"; "b"; "c" ] 0 = slides_length [ "a"; "b"; "c" ] - 1.
Proof.
  apply (next_and_prev_undo_each_other string [ "a"; "b"; "c" ] 2).
  - discriminate.
  - vm_compute. split; [discriminate|reflexivity].
Defined.

(** X22.  Left to itself, the slideshow goes round: after [n] ticks of
    the interval the index is [n mod slides.length], so that every slide is
    shown in turn and the first one comes back after [slides.length] ticks. *)
Theorem auto_advance_goes_round :
  forall (Stock : Type) (stocks : list Stock) (n : nat),
    slides stocks <> [] ->
    currentIndex_after stocks (replicate n AutoAdvance)
    = Z.of_nat n mod slides_length stocks
    /\ currentIndex_after stocks (replicate (length (slides stocks)) AutoAdvance) = 0.
Proof.
  intros Stock stocks n Hnonempty.
  pose proof (StockSceneFacts.slides_length_pos stocks Hnonempty) as Hpos.
  unfold currentIndex_after. split.
  - rewrite (auto_advances stocks Hnonempty n 0) by lia. f_equal.
  - rewrite (auto_advances stocks Hnonempty _ 0) by lia.
    change (0 + Z.of_nat (length (slides stocks))) with (slides_length stocks).
    apply Z_mod_same_full.
Qed.

Lemma auto_advance_goes_round_witness :
  currentIndex_after [ "a"; "b"; "c" ] (replicate 7 AutoAdvance)
  = Z.of_nat 7 mod slides_length [ "a"; "b"; "c" ]
  /\ currentIndex_after [ "a"; "b"; "c" ]
       (replicate (length (slides [ "a"; "b"; "c" ])) AutoAdvance) = 0.
Proof.
  apply (auto_advance_goes_round string [ "a"; "b"; "c" ] 7). discriminate.
Defined.

End SlideshowFacts.
